(** * Curricular adaptations tracker: local store, API client, dual write,
      merge on read and sign-in fallback

    A shallow embedding of [src/lib/storage.ts], [src/lib/api.ts] and of the
    data operations of the [AdaptationForm], [ReportForm], [StudentReport]
    and [AuthContext] components, followed by the properties of the
    specification that talk about them.

    JavaScript values are embedded as the inductive [jsval]; an object is the
    list of its own properties in insertion order.  The browser's
    [localStorage] is a record with one slot per key the program uses; the
    clock, the random generator, the JSON serialiser and the remote services
    are interfaces ([Platform], [Remote]) the program is parametrised by. *)

From Stdlib Require Import String Ascii List ZArith Bool Lia DecimalString.
Import ListNotations.
Local Open Scope string_scope.
Local Open Scope list_scope.

Set Implicit Arguments.
Set Warnings "-register-all".

(* ================================================================== *)
(** ** JavaScript values *)
(* ================================================================== *)

(** Numbers are restricted to the integers: the program only handles
    identifiers, HTTP status codes and clock readings. *)
Inductive jsval : Type :=
| JUndefined
| JNull
| JBool (b : bool)
| JNum (n : Z)
| JStr (s : string)
| JArr (items : list jsval)
| JObj (props : list (string * jsval)).

(** An object literal: its own properties, in insertion order. *)
Abbreviation obj := (list (string * jsval)).

(** [ToBoolean]. *)
Definition truthy (v : jsval) : bool :=
  match v with
  | JUndefined | JNull => false
  | JBool b => b
  | JNum n => negb (Z.eqb n 0)
  | JStr s => negb (String.eqb s "")
  | JArr _ | JObj _ => true
  end.

(** [a || b] and [a ?? b]. *)
Definition or_ (a b : jsval) : jsval := if truthy a then a else b.

Definition nullish (v : jsval) : bool :=
  match v with JUndefined | JNull => true | _ => false end.

Definition coalesce (a b : jsval) : jsval := if nullish a then b else a.

(** [o.k] on an object: the first property named [k], else [undefined]. *)
Fixpoint get (o : obj) (k : string) : jsval :=
  match o with
  | [] => JUndefined
  | (k', v) :: rest => if String.eqb k' k then v else get rest k
  end.

(** [k in o]. *)
Fixpoint has (o : obj) (k : string) : bool :=
  match o with
  | [] => false
  | (k', _) :: rest => String.eqb k' k || has rest k
  end.

(** [o[k] = v]: overwrite in place when the property exists, else append. *)
Fixpoint set (o : obj) (k : string) (v : jsval) : obj :=
  match o with
  | [] => [(k, v)]
  | (k', v') :: rest =>
      if String.eqb k' k then (k', v) :: rest else (k', v') :: set rest k v
  end.

(** [{...a, ...b}]: each own property [k] of [b], in order, is assigned
    [b[k]]. *)
Definition spread (a b : obj) : obj :=
  fold_left (fun acc k => set acc k (get b k)) (map fst b) a.

(** [v === s] for a string [s]. *)
Definition is_str (v : jsval) (s : string) : bool :=
  match v with JStr t => String.eqb t s | _ => false end.

(** [v === n] for a number [n]. *)
Definition is_num (v : jsval) (n : Z) : bool :=
  match v with JNum m => Z.eqb m n | _ => false end.

Definition decimal (n : Z) : string := NilZero.string_of_int (Z.to_int n).

Fixpoint join (sep : string) (l : list string) : string :=
  match l with
  | [] => ""
  | [x] => x
  | x :: rest => (x ++ sep ++ join sep rest)%string
  end.

(** [String(v)]. *)
Fixpoint String_ (v : jsval) : string :=
  match v with
  | JUndefined => "undefined"
  | JNull => "null"
  | JBool true => "true"
  | JBool false => "false"
  | JNum n => decimal n
  | JStr s => s
  | JArr items =>
      join "," (map (fun x => if nullish x then "" else String_ x) items)
  | JObj _ => "[object Object]"
  end.

(** What [JSON.parse(JSON.stringify(v))] gives back: a property whose value
    is [undefined] is dropped, an [undefined] array element becomes [null]. *)
Fixpoint json (v : jsval) : jsval :=
  match v with
  | JUndefined => JNull
  | JArr items => JArr (map json items)
  | JObj props =>
      JObj ((fix props_json (ps : obj) : obj :=
               match ps with
               | [] => []
               | (k, JUndefined) :: rest => props_json rest
               | (k, x) :: rest => (k, json x) :: props_json rest
               end) props)
  | _ => v
  end.

Definition json_obj (o : obj) : obj :=
  match json (JObj o) with JObj ps => ps | _ => [] end.

(** [s.split('T')[0]]. *)
Fixpoint before_T (s : string) : string :=
  match s with
  | EmptyString => EmptyString
  | String c rest =>
      if Ascii.eqb c "T"%char then EmptyString else String c (before_T rest)
  end.

(* ================================================================== *)
(** ** The platform *)
(* ================================================================== *)

(** What the browser provides.  The clock and the random generator are
    streams indexed by the number of readings made so far. *)
Class Platform : Type := {
  (** [Date.now()], also the time value of [new Date()] *)
  Date_now : nat -> Z;
  (** [Math.random().toString(36).substr(2, 9)] *)
  Math_random36 : nat -> string;
  (** [new Date(t).toISOString()] *)
  Date_toISOString : Z -> string;
  (** [new Date(s).getTime()]; [None] is an Invalid Date *)
  Date_parse : string -> option Z;
  (** [JSON.stringify] *)
  JSON_stringify : jsval -> string;
  (** [s.toLowerCase()] *)
  toLowerCase : string -> string;
  encodeURIComponent : string -> string
}.

(* ================================================================== *)
(** ** localStorage *)
(* ================================================================== *)

(** A stored string: either text [JSON.parse] rejects (the empty string
    included), or [JSON.stringify(v)] for a value [v]. *)
Inductive item (T : Type) : Type :=
| Garbled (raw : string)
| Json (v : T).
Arguments Garbled {T} raw.
Arguments Json {T} v.

(** [roundtrip v] is [JSON.parse(JSON.stringify(v))] at each type stored. *)
Class Serializable (T : Type) : Type := { roundtrip : T -> T }.

#[export] Instance Serializable_jsval : Serializable jsval := {| roundtrip := json |}.
#[export] Instance Serializable_objs : Serializable (list obj) :=
  {| roundtrip := map json_obj |}.
#[export] Instance Serializable_nullable : Serializable (option obj) :=
  {| roundtrip := option_map json_obj |}.

(** The keys of [STORAGE_KEYS] that hold collections. *)
Inductive STORAGE_KEYS : Type := USERS | STUDENTS | ADAPTATIONS | REPORTS.

(** [None] is a key that was never written ([getItem] returns [null]). *)
Record Storage : Type := {
  adaptacao_users : option (item (list obj));
  adaptacao_students : option (item (list obj));
  adaptacao_adaptations : option (item (list obj));
  adaptacao_reports : option (item (list obj));
  adaptacao_current_user : option (item (option obj));
  token : option string;
  user : option (item jsval)
}.

Definition empty_storage : Storage :=
  {| adaptacao_users := None; adaptacao_students := None;
     adaptacao_adaptations := None; adaptacao_reports := None;
     adaptacao_current_user := None; token := None; user := None |}.

Definition getItem (key : STORAGE_KEYS) (ls : Storage) : option (item (list obj)) :=
  match key with
  | USERS => adaptacao_users ls
  | STUDENTS => adaptacao_students ls
  | ADAPTATIONS => adaptacao_adaptations ls
  | REPORTS => adaptacao_reports ls
  end.

Definition setItem (key : STORAGE_KEYS) (it : item (list obj)) (ls : Storage) : Storage :=
  match key with
  | USERS =>
      {| adaptacao_users := Some it; adaptacao_students := adaptacao_students ls;
         adaptacao_adaptations := adaptacao_adaptations ls;
         adaptacao_reports := adaptacao_reports ls;
         adaptacao_current_user := adaptacao_current_user ls;
         token := token ls; user := user ls |}
  | STUDENTS =>
      {| adaptacao_users := adaptacao_users ls; adaptacao_students := Some it;
         adaptacao_adaptations := adaptacao_adaptations ls;
         adaptacao_reports := adaptacao_reports ls;
         adaptacao_current_user := adaptacao_current_user ls;
         token := token ls; user := user ls |}
  | ADAPTATIONS =>
      {| adaptacao_users := adaptacao_users ls;
         adaptacao_students := adaptacao_students ls;
         adaptacao_adaptations := Some it;
         adaptacao_reports := adaptacao_reports ls;
         adaptacao_current_user := adaptacao_current_user ls;
         token := token ls; user := user ls |}
  | REPORTS =>
      {| adaptacao_users := adaptacao_users ls;
         adaptacao_students := adaptacao_students ls;
         adaptacao_adaptations := adaptacao_adaptations ls;
         adaptacao_reports := Some it;
         adaptacao_current_user := adaptacao_current_user ls;
         token := token ls; user := user ls |}
  end.

(** The outcome of an expression that may throw. *)
Inductive attempt (E A : Type) : Type :=
| Returned (a : A)
| Thrown (e : E).
Arguments Returned {E A} a.
Arguments Thrown {E A} e.

(** [JSON.parse] on a stored string: a [SyntaxError] on garbled text. *)
Definition JSON_parse {T} `{Serializable T} (it : item T) : attempt string T :=
  match it with
  | Garbled raw => Thrown "SyntaxError"
  | Json v => Returned (roundtrip v)
  end.

(** A stored string is falsy exactly when it is empty. *)
Definition item_truthy {T} (it : item T) : bool :=
  match it with
  | Garbled raw => negb (String.eqb raw "")
  | Json _ => true
  end.

(** [getFromStorage]: the slot is what [localStorage.getItem(key)] returned. *)
Definition getFromStorage {T} `{Serializable T} (slot : option (item T))
           (defaultValue : T) : T :=
  match slot with
  | None => defaultValue
  | Some it =>
      if item_truthy it then
        match JSON_parse it with
        | Returned v => v
        | Thrown _ => defaultValue
        end
      else defaultValue
  end.

(** [setToStorage] for a collection. *)
Definition setToStorage (key : STORAGE_KEYS) (value : list obj) (ls : Storage) : Storage :=
  setItem key (Json value) ls.

(* ================================================================== *)
(** ** Effects: the store, the clock and the requests sent *)
(* ================================================================== *)

(** An HTTP request, as handed to [fetch]. *)
Record Request : Type := {
  method : string;
  url : string;
  headers : list (string * string);
  body : option jsval          (** the value given to [JSON.stringify] *)
}.

(** A thrown [Error]; [status] and [body] are set by [apiFetch] only. *)
Record Error : Type := {
  message : string;
  err_status : option Z;
  err_body : jsval
}.

Definition new_Error (msg : string) : Error :=
  {| message := msg; err_status := None; err_body := JUndefined |}.

(** A notification shown by [toast.success] or [toast.error]. *)
Inductive Toast : Type :=
| toast_success (msg : string)
| toast_error (msg : string).

Record World : Type := {
  ls : Storage;               (** localStorage *)
  clock : nat;                (** readings of the clock and generator so far *)
  sent : list Request;        (** requests issued so far, oldest first *)
  toasts : list Toast         (** notifications shown so far, oldest first *)
}.

Definition M (A : Type) : Type := World -> attempt Error A * World.

Definition ret {A} (a : A) : M A := fun w => (Returned a, w).

Definition bind {A B} (m : M A) (k : A -> M B) : M B :=
  fun w =>
    match m w with
    | (Returned a, w') => k a w'
    | (Thrown e, w') => (Thrown e, w')
    end.

Definition throw {A} (e : Error) : M A := fun w => (Thrown e, w).

(** [try { m } catch (err) { handler err }] *)
Definition try_catch {A} (m : M A) (handler : Error -> M A) : M A :=
  fun w =>
    match m w with
    | (Returned a, w') => (Returned a, w')
    | (Thrown e, w') => handler e w'
    end.

Declare Scope js_scope.
Delimit Scope js_scope with js.
Notation "x <- m ;; k" := (bind m (fun x => k))
  (at level 100, m at next level, right associativity) : js_scope.
Notation "m ;; k" := (bind m (fun _ => k))
  (at level 100, right associativity) : js_scope.
Local Open Scope js_scope.

(** A read of [localStorage]. *)
Definition read {A} (f : Storage -> A) : M A := fun w => (Returned (f (ls w)), w).

(** A write to [localStorage]. *)
Definition write (f : Storage -> Storage) : M unit :=
  fun w => (Returned tt,
            {| ls := f (ls w); clock := clock w; sent := sent w; toasts := toasts w |}).

(** A step that reads and writes [localStorage] and returns a value. *)
Definition modify {A} (f : Storage -> A * Storage) : M A :=
  fun w => (Returned (fst (f (ls w))),
            {| ls := snd (f (ls w)); clock := clock w; sent := sent w;
               toasts := toasts w |}).

Definition tick (w : World) : World :=
  {| ls := ls w; clock := S (clock w); sent := sent w; toasts := toasts w |}.

(** [toast.success(msg)] and [toast.error(msg)]. *)
Definition toast (t : Toast) : M unit :=
  fun w => (Returned tt,
            {| ls := ls w; clock := clock w; sent := sent w;
               toasts := toasts w ++ [t] |}).

Section Clock.
Context `{Platform}.

(** [Date.now()] *)
Definition now : M Z := fun w => (Returned (Date_now (clock w)), tick w).

(** [Math.random().toString(36).substr(2, 9)] *)
Definition random36 : M string :=
  fun w => (Returned (Math_random36 (clock w)), tick w).

(** [new Date().toISOString()] *)
Definition new_Date_toISOString : M string :=
  t <- now ;; ret (Date_toISOString t).

(** [new Date(s).toISOString()]: a [RangeError] on an Invalid Date. *)
Definition Date_of_toISOString (s : string) : M string :=
  match Date_parse s with
  | Some t => ret (Date_toISOString t)
  | None => throw (new_Error "Invalid time value")
  end.

(** [generateId] *)
Definition generateId : M string :=
  t <- now ;;
  r <- random36 ;;
  ret (decimal t ++ "-" ++ r)%string.
End Clock.

(* ================================================================== *)
(** ** Array helpers *)
(* ================================================================== *)

(** [l.findIndex(p)]; [None] is [-1]. *)
Fixpoint findIndex {A} (p : A -> bool) (l : list A) : option nat :=
  match l with
  | [] => None
  | x :: rest =>
      if p x then Some 0%nat
      else match findIndex p rest with
           | Some i => Some (S i)
           | None => None
           end
  end.

(** [l[i] = x] for an index within the array. *)
Fixpoint assign {A} (l : list A) (i : nat) (x : A) : list A :=
  match l, i with
  | [], _ => []
  | _ :: rest, O => x :: rest
  | y :: rest, S j => y :: assign rest j x
  end.

(** [u?.k] for [u : object | null]. *)
Definition opt_get (u : option obj) (k : string) : jsval :=
  match u with
  | Some o => get o k
  | None => JUndefined
  end.

(* ================================================================== *)
(** ** src/lib/storage.ts *)
(* ================================================================== *)

(** The literal [defaultUsers], given the two identifiers generated. *)
Definition defaultUsers (id1 id2 : string) : list obj :=
  [ [ ("id", JStr id1);
      ("email", JStr "coordenador@escola.com");
      ("name", JStr "Maria Silva");
      ("role", JStr "coordenador") ];
    [ ("id", JStr id2);
      ("email", JStr "professor@escola.com");
      ("name", JStr "João Santos");
      ("role", JStr "professor") ] ].

(** The literal [sampleStudents], given the identifiers and the times read. *)
Definition sampleStudents (sid1 at1 sid2 at2 : string) (coordinator : option obj)
  : list obj :=
  [ [ ("id", JStr sid1);
      ("name", JStr "Ana Pereira");
      ("course", JStr "Ensino Médio");
      ("class", JStr "2A");
      ("birthDate", JStr "2006-05-12");
      ("registrationNumber", JStr "2021001");
      ("guardianName", JStr "Carlos Pereira");
      ("guardianContact", JStr "11999998888");
      ("createdAt", JStr at1);
      ("createdBy", or_ (opt_get coordinator "id") (JStr "")) ];
    [ ("id", JStr sid2);
      ("name", JStr "Bruno Costa");
      ("course", JStr "Ensino Médio");
      ("class", JStr "2B");
      ("birthDate", JStr "2005-08-20");
      ("registrationNumber", JStr "2021002");
      ("guardianName", JStr "Mariana Costa");
      ("guardianContact", JStr "11988887777");
      ("createdAt", JStr at2);
      ("createdBy", or_ (opt_get coordinator "id") (JStr "")) ] ].

(** The adaptation pushed for the first sample student. *)
Definition sampleAdaptation (aid : string) (studentId : jsval) (now_date now_at : string)
           (coordinator : option obj) : obj :=
  [ ("id", JStr aid);
    ("studentId", studentId);
    ("description", JStr "Tempo extra para provas");
    ("justification", JStr "Necessidade de processamento mais lento");
    ("date", JStr (before_T now_date));
    ("createdAt", JStr now_at);
    ("createdBy", or_ (opt_get coordinator "id") (JStr "")) ].

(** The report pushed for the first sample student. *)
Definition sampleReport (rid : string) (studentId : jsval) (now_date now_at : string)
           (professor : option obj) : obj :=
  [ ("id", JStr rid);
    ("studentId", studentId);
    ("teacherId", or_ (opt_get professor "id") (JStr ""));
    ("teacherName", or_ (opt_get professor "name") (JStr "João Santos"));
    ("subject", JStr "Matemática");
    ("date", JStr (before_T now_date));
    ("result", JStr "neutro");
    ("description", JStr "Observações sobre rendimento");
    ("createdAt", JStr now_at) ].

Section Seeding.
Context `{Platform}.

(** [initializeDefaultUsers] *)
Definition initializeDefaultUsers : M unit :=
  users <- read (fun s => getFromStorage (getItem USERS s) []) ;;
  if (length users =? 0)%nat then
    id1 <- generateId ;;
    id2 <- generateId ;;
    write (setToStorage USERS (defaultUsers id1 id2))
  else ret tt.

(** [initializeDefaultData] *)
Definition initializeDefaultData : M unit :=
  students <- read (fun s => getFromStorage (getItem STUDENTS s) []) ;;
  if (0 <? length students)%nat then ret tt
  else
    users <- read (fun s => getFromStorage (getItem USERS s) []) ;;
    let coordinator := find (fun u => is_str (get u "role") "coordenador") users in
    let professor := find (fun u => is_str (get u "role") "professor") users in
    sid1 <- generateId ;;
    at1 <- new_Date_toISOString ;;
    sid2 <- generateId ;;
    at2 <- new_Date_toISOString ;;
    let students := sampleStudents sid1 at1 sid2 at2 coordinator in
    write (setToStorage STUDENTS students) ;;
    adaptations <- read (fun s => getFromStorage (getItem ADAPTATIONS s) []) ;;
    aid <- generateId ;;
    adate <- new_Date_toISOString ;;
    aat <- new_Date_toISOString ;;
    write (setToStorage ADAPTATIONS
             (adaptations ++
              [ sampleAdaptation aid (get (nth 0 students []) "id") adate aat
                                 coordinator ])) ;;
    reports <- read (fun s => getFromStorage (getItem REPORTS s) []) ;;
    rid <- generateId ;;
    rdate <- new_Date_toISOString ;;
    rat <- new_Date_toISOString ;;
    write (setToStorage REPORTS
             (reports ++
              [ sampleReport rid (get (nth 0 students []) "id") rdate rat
                             professor ])).
End Seeding.

(** [getLocalUsers] *)
Definition getLocalUsers (s : Storage) : list obj :=
  getFromStorage (getItem USERS s) [].

Definition set_current_user (it : option (item (option obj))) (s : Storage) : Storage :=
  {| adaptacao_users := adaptacao_users s;
     adaptacao_students := adaptacao_students s;
     adaptacao_adaptations := adaptacao_adaptations s;
     adaptacao_reports := adaptacao_reports s;
     adaptacao_current_user := it;
     token := token s; user := user s |}.

Module authStorage.

(** The credential table of [signIn]. *)
Definition validCredentials : list (string * string) :=
  [ ("coordenador@escola.com", "coord123");
    ("professor@escola.com", "prof123") ].

(** [authStorage.signIn]: the user found, or [null]. *)
Definition signIn (email password : string) (s : Storage) : option obj * Storage :=
  let users := getFromStorage (getItem USERS s) [] in
  let isValid :=
    existsb (fun cred => String.eqb (fst cred) email && String.eqb (snd cred) password)
            validCredentials in
  if negb isValid then (None, s)
  else
    match find (fun u => is_str (get u "email") email) users with
    | Some u => (Some u, set_current_user (Some (Json (Some u))) s)
    | None => (None, s)
    end.

(** [authStorage.signOut] *)
Definition signOut (s : Storage) : Storage := set_current_user None s.

(** [authStorage.getCurrentUser] *)
Definition getCurrentUser (s : Storage) : option obj :=
  getFromStorage (adaptacao_current_user s) None.

End authStorage.

Module adaptationStorage.

Definition getAll (s : Storage) : list obj :=
  getFromStorage (getItem ADAPTATIONS s) [].

Definition getByStudent (studentId : string) (s : Storage) : list obj :=
  filter (fun a => is_str (get a "studentId") studentId) (getAll s).

Section WithPlatform.
Context `{Platform}.

Definition create (data : obj) : M obj :=
  adaptations <- read getAll ;;
  currentUser <- read authStorage.getCurrentUser ;;
  id <- generateId ;;
  date <- (if truthy (get data "date") then ret (get data "date")
           else (d <- new_Date_toISOString ;; ret (JStr (before_T d)))) ;;
  createdAt <- new_Date_toISOString ;;
  let newAdaptation : obj :=
    [ ("id", JStr id);
      ("studentId", or_ (get data "studentId") (JStr ""));
      ("description", or_ (get data "description") (JStr ""));
      ("justification", or_ (get data "justification") (JStr ""));
      ("date", date);
      ("createdAt", JStr createdAt);
      ("createdBy", or_ (opt_get currentUser "id") (JStr "")) ] in
  write (setToStorage ADAPTATIONS (adaptations ++ [newAdaptation])) ;;
  ret newAdaptation.

(** [None] is [null]. *)
Definition update (id : string) (updates : obj) : M (option obj) :=
  adaptations <- read getAll ;;
  match findIndex (fun a => is_str (get a "id") id) adaptations with
  | None => ret None
  | Some index =>
      updatedAt <- new_Date_toISOString ;;
      let updated : obj :=
        set (set (spread (nth index adaptations []) updates)
                 "id" (JStr id))
            "updatedAt" (JStr updatedAt) in
      write (setToStorage ADAPTATIONS (assign adaptations index updated)) ;;
      ret (Some updated)
  end.
End WithPlatform.

Definition delete (id : string) (s : Storage) : bool * Storage :=
  let adaptations := getAll s in
  let filtered := filter (fun a => negb (is_str (get a "id") id)) adaptations in
  if (length filtered =? length adaptations)%nat then (false, s)
  else (true, setToStorage ADAPTATIONS filtered s).

Definition deleteByStudent (studentId : string) (s : Storage) : Storage :=
  let adaptations := getAll s in
  let filtered := filter (fun a => negb (is_str (get a "studentId") studentId)) adaptations in
  setToStorage ADAPTATIONS filtered s.

End adaptationStorage.

Module reportStorage.

Definition getAll (s : Storage) : list obj :=
  getFromStorage (getItem REPORTS s) [].

Definition getByStudent (studentId : string) (s : Storage) : list obj :=
  filter (fun r => is_str (get r "studentId") studentId) (getAll s).

Section WithPlatform.
Context `{Platform}.

Definition create (data : obj) : M obj :=
  reports <- read getAll ;;
  currentUser <- read authStorage.getCurrentUser ;;
  id <- generateId ;;
  date <- (if truthy (get data "date") then ret (get data "date")
           else (d <- new_Date_toISOString ;; ret (JStr (before_T d)))) ;;
  createdAt <- new_Date_toISOString ;;
  let newReport : obj :=
    [ ("id", JStr id);
      ("studentId", or_ (get data "studentId") (JStr ""));
      ("teacherId", or_ (opt_get currentUser "id") (JStr ""));
      ("teacherName", or_ (opt_get currentUser "name") (JStr ""));
      ("subject", or_ (get data "subject") (JStr ""));
      ("date", date);
      ("result", or_ (get data "result") (JStr "neutro"));
      ("description", or_ (get data "description") (JStr ""));
      ("createdAt", JStr createdAt) ] in
  write (setToStorage REPORTS (reports ++ [newReport])) ;;
  ret newReport.

Definition update (id : string) (updates : obj) : M (option obj) :=
  reports <- read getAll ;;
  match findIndex (fun r => is_str (get r "id") id) reports with
  | None => ret None
  | Some index =>
      updatedAt <- new_Date_toISOString ;;
      let updated : obj :=
        set (set (spread (nth index reports []) updates)
                 "id" (JStr id))
            "updatedAt" (JStr updatedAt) in
      write (setToStorage REPORTS (assign reports index updated)) ;;
      ret (Some updated)
  end.
End WithPlatform.

Definition delete (id : string) (s : Storage) : bool * Storage :=
  let reports := getAll s in
  let filtered := filter (fun r => negb (is_str (get r "id") id)) reports in
  if (length filtered =? length reports)%nat then (false, s)
  else (true, setToStorage REPORTS filtered s).

Definition deleteByStudent (studentId : string) (s : Storage) : Storage :=
  let reports := getAll s in
  let filtered := filter (fun r => negb (is_str (get r "studentId") studentId)) reports in
  setToStorage REPORTS filtered s.

End reportStorage.

Module studentStorage.

Definition getAll (s : Storage) : list obj :=
  getFromStorage (getItem STUDENTS s) [].

(** [None] is [null]. *)
Definition getById (id : string) (s : Storage) : option obj :=
  find (fun st => is_str (get st "id") id) (getAll s).

Section WithPlatform.
Context `{Platform}.

Definition create (data : obj) : M obj :=
  students <- read getAll ;;
  currentUser <- read authStorage.getCurrentUser ;;
  id <- generateId ;;
  createdAt <- new_Date_toISOString ;;
  let newStudent : obj :=
    [ ("id", JStr id);
      ("name", or_ (get data "name") (JStr ""));
      ("course", or_ (get data "course") (JStr ""));
      ("class", or_ (get data "class") (JStr ""));
      ("birthDate", or_ (get data "birthDate") (JStr ""));
      ("registrationNumber", or_ (get data "registrationNumber") (JStr ""));
      ("guardianName", get data "guardianName");
      ("guardianContact", get data "guardianContact");
      ("createdAt", JStr createdAt);
      ("createdBy", or_ (opt_get currentUser "id") (JStr "")) ] in
  write (setToStorage STUDENTS (students ++ [newStudent])) ;;
  ret newStudent.

Definition update (id : string) (updates : obj) : M (option obj) :=
  students <- read getAll ;;
  match findIndex (fun st => is_str (get st "id") id) students with
  | None => ret None
  | Some index =>
      currentUser <- read authStorage.getCurrentUser ;;
      updatedAt <- new_Date_toISOString ;;
      let updated : obj :=
        set (set (set (spread (nth index students []) updates)
                      "id" (JStr id))
                 "updatedAt" (JStr updatedAt))
            "updatedBy" (opt_get currentUser "id") in
      write (setToStorage STUDENTS (assign students index updated)) ;;
      ret (Some updated)
  end.
End WithPlatform.

Definition delete (id : string) (s : Storage) : bool * Storage :=
  let students := getAll s in
  let filtered := filter (fun st => negb (is_str (get st "id") id)) students in
  if (length filtered =? length students)%nat then (false, s)
  else
    let s1 := setToStorage STUDENTS filtered s in
    let s2 := adaptationStorage.deleteByStudent id s1 in
    let s3 := reportStorage.deleteByStudent id s2 in
    (true, s3).

End studentStorage.

(** [getStudentReport] of the local store; [None] is [null]. *)
Definition getStudentReport (studentId : string) (s : Storage)
  : option (obj * list obj * list obj) :=
  match studentStorage.getById studentId s with
  | None => None
  | Some student =>
      Some (student,
            adaptationStorage.getByStudent studentId s,
            reportStorage.getByStudent studentId s)
  end.

(* ================================================================== *)
(** ** The remote services *)
(* ================================================================== *)

(** How a call to [fetch] ends.  The text of a response is seen through
    [JSON.parse], like a stored string. *)
Inductive FetchOutcome : Type :=
| NetworkError (msg : string)        (** the promise rejects *)
| AbortError                         (** the timer aborted the request *)
| Response (status : Z) (statusText : string) (text : item jsval).

(** How [supabase.auth.signInWithPassword] ends: it throws, or it returns
    [{ data, error }]; [access_token] is [data?.session?.access_token]. *)
Inductive SupabaseOutcome : Type :=
| SupabaseThrows (e : Error)
| SupabaseReturns (error : jsval) (access_token : jsval).

Class Remote : Type := {
  (** the outcome of a request, given the requests sent before it *)
  fetch : list Request -> Request -> FetchOutcome;
  supabase_signInWithPassword : string -> string -> SupabaseOutcome
}.

(** [response.ok] *)
Definition ok (status : Z) : bool := (200 <=? status)%Z && (status <=? 299)%Z.

(** [v.k] where [v] is neither [null] nor [undefined] and [k] is not a
    built-in property of strings or arrays. *)
Definition prop (v : jsval) (k : string) : jsval :=
  match v with
  | JObj o => get o k
  | _ => JUndefined
  end.

(** [v.k] in general: a [TypeError] on [null] and [undefined]. *)
Definition member {E} (type_error : E) (v : jsval) (k : string) : attempt E jsval :=
  if nullish v then Thrown type_error else Returned (prop v k).

Definition TypeError : Error := new_Error "Cannot read properties of null or undefined".

Definition isArray (v : jsval) : bool :=
  match v with JArr _ => true | _ => false end.

Definition lift {A} (a : attempt Error A) : M A := fun w => (a, w).

Definition API_URL : string := "https://adaptacoescurriculares-api.onrender.com".

Section Api.
Context `{Remote}.

(** The call [fetch(input, init)] itself. *)
Definition send (req : Request) : M FetchOutcome :=
  fun w => (Returned (fetch (sent w) req),
            {| ls := ls w; clock := clock w; sent := sent w ++ [req];
               toasts := toasts w |}).

(** [apiFetch] *)
Definition apiFetch (req : Request) : M jsval :=
  out <- send req ;;
  match out with
  | NetworkError msg => throw (new_Error msg)
  | AbortError =>
      throw {| message := "Tempo de requisição esgotado";
               err_status := Some 408%Z; err_body := JUndefined |}
  | Response status statusText text =>
      let data :=
        match text with
        | Json v => v
        | Garbled raw => if String.eqb raw "" then JNull else JStr raw
        end in
      if negb (ok status) then
        let message :=
          or_ (or_ (if truthy data
                    then or_ (prop data "error") (prop data "message")
                    else data)
                   (JStr statusText))
              (JStr "Erro na requisição") in
        throw {| message := String_ message;
                 err_status := Some status; err_body := data |}
      else ret data
  end.

Definition GET (u : string) : Request :=
  {| method := "GET"; url := u; headers := []; body := None |}.

Definition json_request (m u : string) (payload : jsval) : Request :=
  {| method := m; url := u;
     headers := [("Content-Type", "application/json")];
     body := Some payload |}.

Definition DELETE (u : string) : Request :=
  {| method := "DELETE"; url := u; headers := []; body := None |}.

(** [err?.status === 404] *)
Definition is_404 (err : Error) : bool :=
  match err_status err with
  | Some st => (st =? 404)%Z
  | None => false
  end.

End Api.

(** [l.find(p)] for a predicate that may throw; [undefined] when none. *)
Fixpoint find_attempt (p : jsval -> attempt Error bool) (l : list jsval)
  : attempt Error jsval :=
  match l with
  | [] => Returned JUndefined
  | x :: rest =>
      match p x with
      | Thrown e => Thrown e
      | Returned true => Returned x
      | Returned false => find_attempt p rest
      end
  end.

(** [k in v] for a value with [typeof v === 'object'] that is not [null]:
    an array has none of the names asked for here. *)
Definition in_ (k : string) (v : jsval) : bool :=
  match v with
  | JObj o => has o k
  | _ => false
  end.

(** [students.find((s) => String(s.id) === String(studentId))] *)
Definition find_student (studentId : string) (students : list jsval)
  : attempt Error jsval :=
  find_attempt
    (fun s => if nullish s then Thrown TypeError
              else Returned (String.eqb (String_ (prop s "id")) studentId))
    students.

(** [typeof v === 'object'] *)
Definition typeof_object (v : jsval) : bool :=
  match v with
  | JNull | JArr _ | JObj _ => true
  | _ => false
  end.

Module api.
Section WithRemote.
Context `{Remote}.

Definition getStudents : M jsval :=
  res <- apiFetch (GET (API_URL ++ "/students")) ;;
  if isArray res then ret res
  else if truthy res && typeof_object res && isArray (prop res "value")
  then ret (prop res "value")
  else if truthy res && typeof_object res && isArray (prop res "students")
  then ret (prop res "students")
  else ret (JArr []).

Definition createStudent (student : jsval) : M jsval :=
  apiFetch (json_request "POST" (API_URL ++ "/students") student).

Definition updateStudent (studentId : string) (updates : jsval) : M jsval :=
  apiFetch (json_request "PUT" (API_URL ++ "/students/" ++ studentId) updates).

Definition getAdaptations (studentId : string) : M jsval :=
  try_catch
    (res <- apiFetch (GET (API_URL ++ "/adaptations/" ++ studentId)) ;;
     if isArray res then ret res
     else if truthy res && typeof_object res && isArray (prop res "value")
     then ret (prop res "value")
     else if truthy res && typeof_object res && isArray (prop res "adaptations")
     then ret (prop res "adaptations")
     else ret (JArr []))
    (fun err => if is_404 err then ret (JArr []) else throw err).

Definition createAdaptation (adaptation : jsval) : M jsval :=
  apiFetch (json_request "POST" (API_URL ++ "/adaptations") adaptation).

Definition updateAdaptation (studentId adaptationId : string) (updates : jsval)
  : M jsval :=
  try_catch
    (apiFetch (json_request "PUT" (API_URL ++ "/adaptations/" ++ adaptationId)
                            updates))
    (fun err =>
       if is_404 err then
         apiFetch (json_request "PUT"
                     (API_URL ++ "/adaptations/" ++ studentId ++ "/" ++ adaptationId)
                     updates)
       else throw err).

Definition getReports (studentId : string) : M jsval :=
  try_catch
    (res <- apiFetch (GET (API_URL ++ "/reports/" ++ studentId)) ;;
     if isArray res then ret res
     else if truthy res && typeof_object res && isArray (prop res "value")
     then ret (prop res "value")
     else if truthy res && typeof_object res && isArray (prop res "reports")
     then ret (prop res "reports")
     else ret (JArr []))
    (fun err => if is_404 err then ret (JArr []) else throw err).

Definition createReport (report : jsval) : M jsval :=
  apiFetch (json_request "POST" (API_URL ++ "/reports") report).

Definition updateReport (studentId reportId : string) (updates : jsval)
  : M jsval :=
  try_catch
    (apiFetch (json_request "PUT" (API_URL ++ "/reports/" ++ reportId) updates))
    (fun err =>
       if is_404 err then
         apiFetch (json_request "PUT"
                     (API_URL ++ "/reports/" ++ studentId ++ "/" ++ reportId)
                     updates)
       else throw err).

Definition deleteStudent (studentId : string) : M jsval :=
  apiFetch (DELETE (API_URL ++ "/students/" ++ studentId)).

Definition deleteAdaptation (studentId adaptationId : string) : M jsval :=
  try_catch
    (apiFetch (DELETE (API_URL ++ "/adaptations/" ++ adaptationId)))
    (fun err =>
       if is_404 err then
         apiFetch (DELETE (API_URL ++ "/adaptations/" ++ studentId ++ "/"
                                   ++ adaptationId))
       else throw err).

Definition deleteReport (studentId reportId : string) : M jsval :=
  try_catch
    (apiFetch (DELETE (API_URL ++ "/reports/" ++ reportId)))
    (fun err =>
       if is_404 err then
         apiFetch (DELETE (API_URL ++ "/reports/" ++ studentId ++ "/" ++ reportId))
       else throw err).

(** [apiFetch(url).catch(() => [])] *)
Definition fetch_or_empty (u : string) : M jsval :=
  try_catch (apiFetch (GET u)) (fun _ => ret (JArr [])).

(** The three separate requests, sent together, and the aggregate made of
    what they return. *)
Definition assemble_separately (studentId : string) : M jsval :=
  students <- fetch_or_empty (API_URL ++ "/students") ;;
  adaptations <- fetch_or_empty (API_URL ++ "/adaptations/" ++ studentId) ;;
  reports <- fetch_or_empty (API_URL ++ "/reports/" ++ studentId) ;;
  student <- lift (match students with
                   | JArr items => find_student studentId items
                   | _ => Returned JNull
                   end) ;;
  ret (JObj [ ("student", student);
              ("adaptations", or_ adaptations (JArr []));
              ("reports", or_ reports (JArr [])) ]).

Definition getStudentReport (studentId : string) : M jsval :=
  try_catch
    (res <- apiFetch (GET (API_URL ++ "/reports/" ++ studentId)) ;;
     if truthy res && typeof_object res
        && (in_ "student" res || in_ "reports" res || in_ "adaptations" res)
     then
       ret (JObj [ ("student", coalesce (prop res "student") JNull);
                   ("adaptations", coalesce (prop res "adaptations") (JArr []));
                   ("reports", coalesce (prop res "reports") (JArr [])) ])
     else
       match res with
       | JArr items =>
           let first := nth 0 items JUndefined in
           if truthy first
              && truthy (or_ (or_ (prop first "registrationNumber")
                                  (prop first "birthDate"))
                             (prop first "course"))
           then
             found <- lift (find_student studentId items) ;;
             adaptations <- fetch_or_empty (API_URL ++ "/adaptations/" ++ studentId) ;;
             reports <- fetch_or_empty (API_URL ++ "/reports/" ++ studentId) ;;
             ret (JObj [ ("student", or_ found JNull);
                         ("adaptations", or_ adaptations (JArr []));
                         ("reports", or_ reports (JArr [])) ])
           else if truthy first
                   && truthy (or_ (or_ (prop first "subject") (prop first "teacherId"))
                                  (prop first "result"))
           then
             studentsResp <- fetch_or_empty (API_URL ++ "/students") ;;
             student <- lift (match studentsResp with
                              | JArr l => find_student studentId l
                              | _ => Returned JNull
                              end) ;;
             adaptations <- fetch_or_empty (API_URL ++ "/adaptations/" ++ studentId) ;;
             ret (JObj [ ("student", student);
                         ("adaptations", or_ adaptations (JArr []));
                         ("reports", or_ res (JArr [])) ])
           else if truthy first
                   && truthy (or_ (prop first "justification")
                                  (prop first "description"))
           then
             studentsResp <- fetch_or_empty (API_URL ++ "/students") ;;
             student <- lift (match studentsResp with
                              | JArr l => find_student studentId l
                              | _ => Returned JNull
                              end) ;;
             reports <- fetch_or_empty (API_URL ++ "/reports/" ++ studentId) ;;
             ret (JObj [ ("student", student);
                         ("adaptations", or_ res (JArr []));
                         ("reports", or_ reports (JArr [])) ])
           else assemble_separately studentId
       | _ => assemble_separately studentId
       end)
    (fun err => if is_404 err then assemble_separately studentId else throw err).
End WithRemote.
End api.

(* ================================================================== *)
(** ** The forms: dual write *)
(* ================================================================== *)

(** What a form's [handleSubmit] leaves behind in the component: the error
    shown, and the argument of [onSuccess] when it was called ([None] inside
    is [undefined]). *)
Record Submission : Type := {
  error : string;
  onSuccess : option (option obj)
}.

(** The outer [try]/[catch] of a [handleSubmit]. *)
Definition submit (fallback : string) (body : M (option obj)) : World -> Submission * World :=
  fun w =>
    match body w with
    | (Returned created, w') => ({| error := ""; onSuccess := Some created |}, w')
    | (Thrown err, w') =>
        let msg := if String.eqb (message err) "" then fallback else message err in
        ({| error := msg; onSuccess := None |},
         {| ls := ls w'; clock := clock w'; sent := sent w';
            toasts := toasts w' ++ [toast_error msg] |})
    end.

Module AdaptationForm.

Record FormData : Type := {
  description : string;
  justification : string;
  date : string
}.

Definition formData_obj (formData : FormData) : obj :=
  [ ("description", JStr (description formData));
    ("justification", JStr (justification formData));
    ("date", JStr (date formData)) ].

Section WithServices.
Context `{Platform} `{Remote}.

(** [adaptation] is the [id] of the adaptation being edited, the only
    part of that property [handleSubmit] reads; [None] when the form
    creates one. *)
Definition handleSubmit (studentId : string) (adaptation : option string)
           (formData : FormData) : World -> Submission * World :=
  fun w =>
    if String.eqb (description formData) ""
       || String.eqb (justification formData) ""
       || String.eqb (date formData) ""
    then ({| error := "Por favor, preencha todos os campos"; onSuccess := None |}, w)
    else
      submit "Erro ao salvar adaptação"
        (match adaptation with
         | Some id =>
             try_catch
               (iso <- Date_of_toISOString (date formData) ;;
                api.updateAdaptation studentId id
                  (JObj (set (spread [] (formData_obj formData)) "date" (JStr iso))) ;;
                toast (toast_success "Adaptação atualizada com sucesso!"))
               (fun _ => ret tt) ;;
             iso <- Date_of_toISOString (date formData) ;;
             adaptationStorage.update id
               [ ("description", JStr (description formData));
                 ("justification", JStr (justification formData));
                 ("date", JStr iso) ]
         | None =>
             try_catch
               (iso <- Date_of_toISOString (date formData) ;;
                res <- api.createAdaptation
                         (JObj (set (set (spread [] (formData_obj formData))
                                         "studentId" (JStr studentId))
                                    "date" (JStr iso))) ;;
                created <-
                  (if truthy res && truthy (prop res "id") then
                     iso' <- Date_of_toISOString (date formData) ;;
                     adaptationStorage.create
                       [ ("id", prop res "id");
                         ("studentId", JStr studentId);
                         ("description", JStr (description formData));
                         ("justification", JStr (justification formData));
                         ("date", JStr iso') ]
                   else
                     iso' <- Date_of_toISOString (date formData) ;;
                     adaptationStorage.create
                       [ ("studentId", JStr studentId);
                         ("description", JStr (description formData));
                         ("justification", JStr (justification formData));
                         ("date", JStr iso') ]) ;;
                toast (toast_success "Adaptação registrada com sucesso!") ;;
                ret (Some created))
               (fun _ =>
                  iso <- Date_of_toISOString (date formData) ;;
                  created <- adaptationStorage.create
                               [ ("studentId", JStr studentId);
                                 ("description", JStr (description formData));
                                 ("justification", JStr (justification formData));
                                 ("date", JStr iso) ] ;;
                  toast (toast_success "Adaptação registrada localmente (offline)") ;;
                  ret (Some created))
         end) w.
End WithServices.
End AdaptationForm.

Module ReportForm.

Record FormData : Type := {
  subject : string;
  result : string;
  description : string;
  date : string
}.

Definition formData_obj (formData : FormData) : obj :=
  [ ("subject", JStr (subject formData));
    ("result", JStr (result formData));
    ("description", JStr (description formData));
    ("date", JStr (date formData)) ].

Section WithServices.
Context `{Platform} `{Remote}.

(** The variant of the form that also writes to the local store.
    [report] is the [id] of the report being edited, or [None]. *)
Definition handleSubmit (studentId : string) (report : option string)
           (formData : FormData) : World -> Submission * World :=
  fun w =>
    if String.eqb (subject formData) "" || String.eqb (description formData) ""
    then ({| error := "Por favor, preencha todos os campos obrigatórios";
             onSuccess := None |}, w)
    else if String.eqb (date formData) ""
    then ({| error := "Por favor, informe a data do relato"; onSuccess := None |}, w)
    else
      submit "Erro ao salvar relato"
        (match report with
         | Some id =>
             try_catch
               (api.updateReport studentId id (JObj (formData_obj formData)) ;;
                toast (toast_success "Relato atualizado com sucesso!"))
               (fun _ => ret tt) ;;
             iso <- (if String.eqb (date formData) "" then new_Date_toISOString
                     else Date_of_toISOString (date formData)) ;;
             reportStorage.update id
               [ ("subject", JStr (subject formData));
                 ("result", JStr (result formData));
                 ("description", JStr (description formData));
                 ("date", JStr iso) ]
         | None =>
             iso0 <- Date_of_toISOString (date formData) ;;
             let payload :=
               JObj (set (set (spread [] (formData_obj formData))
                              "studentId" (JStr studentId))
                         "date" (JStr iso0)) in
             try_catch
               (res <- api.createReport payload ;;
                created <-
                  (if truthy res && truthy (prop res "id") then
                     iso <- Date_of_toISOString (date formData) ;;
                     reportStorage.create
                       [ ("id", prop res "id");
                         ("studentId", JStr studentId);
                         ("subject", JStr (subject formData));
                         ("result", JStr (result formData));
                         ("description", JStr (description formData));
                         ("date", JStr iso) ]
                   else
                     iso <- Date_of_toISOString (date formData) ;;
                     reportStorage.create
                       [ ("studentId", JStr studentId);
                         ("subject", JStr (subject formData));
                         ("result", JStr (result formData));
                         ("description", JStr (description formData));
                         ("date", JStr iso) ]) ;;
                toast (toast_success "Relato registrado com sucesso!") ;;
                ret (Some created))
               (fun _ =>
                  iso <- Date_of_toISOString (date formData) ;;
                  created <- reportStorage.create
                               [ ("studentId", JStr studentId);
                                 ("subject", JStr (subject formData));
                                 ("result", JStr (result formData));
                                 ("description", JStr (description formData));
                                 ("date", JStr iso) ] ;;
                  toast (toast_success "Relato registrado localmente (offline)") ;;
                  ret (Some created))
         end) w.
End WithServices.
End ReportForm.

(* ================================================================== *)
(** ** StudentReport: merge on read *)
(* ================================================================== *)

Module StudentReport.

(** The view model [{ student, adaptations, reports }]. *)
Record ReportData : Type := {
  student : jsval;
  adaptations : list jsval;
  reports : list jsval
}.

(** The component's state. *)
Record State : Type := {
  data : option ReportData;
  loading : bool;
  error : string
}.

Definition asArray (v : jsval) : list jsval :=
  if negb (truthy v) then []
  else match v with
       | JArr items => items
       | JObj _ => [v]
       | _ => []
       end.

Section WithPlatform.
Context `{Platform}.

(** [String(a.id || a._localId || JSON.stringify(a))] *)
Definition key (a : jsval) : attempt Error string :=
  if nullish a then Thrown TypeError
  else Returned (String_ (or_ (or_ (prop a "id") (prop a "_localId"))
                              (JStr (JSON_stringify a)))).

(** [l.forEach(a => map.set(key(a), a))]; the [Map] is the list of its
    entries in insertion order. *)
Fixpoint forEach_set (l : list jsval) (map : obj) : attempt Error obj :=
  match l with
  | [] => Returned map
  | a :: rest =>
      match key a with
      | Thrown e => Thrown e
      | Returned k => forEach_set rest (set map k a)
      end
  end.

(** One merged collection: the remote entries, then the local ones. *)
Definition merged (remote : jsval) (local : list obj) : attempt Error (list jsval) :=
  match forEach_set (asArray remote) [] with
  | Thrown e => Thrown e
  | Returned map0 =>
      match forEach_set (List.map JObj local) map0 with
      | Thrown e => Thrown e
      | Returned map1 => Returned (List.map snd map1)
      end
  end.

(** The body of [loadReport] after the remote call: [remote] is how
    [await api.getStudentReport(studentId)] ended. *)
Definition assemble (remote : attempt Error jsval) (studentId : string) (s : Storage)
  : attempt Error ReportData :=
  let reportData :=
    match remote with
    | Returned r => r
    | Thrown _ => JObj [ ("student", JNull); ("adaptations", JArr []);
                         ("reports", JArr []) ]
    end in
  let localAdaptations := adaptationStorage.getByStudent studentId s in
  let localReports := reportStorage.getByStudent studentId s in
  match member TypeError reportData "adaptations" with
  | Thrown e => Thrown e
  | Returned remoteAdaptations =>
      match merged remoteAdaptations localAdaptations with
      | Thrown e => Thrown e
      | Returned mergedAdaptations =>
          match merged (prop reportData "reports") localReports with
          | Thrown e => Thrown e
          | Returned mergedReports =>
              Returned {| student := or_ (prop reportData "student") JNull;
                          adaptations := mergedAdaptations;
                          reports := mergedReports |}
          end
      end
  end.

(** [loadReport(createdItem)] *)
Definition loadReport (createdItem : option jsval) (remote : attempt Error jsval)
           (studentId : string) (s : Storage) (st : State) : State :=
  let reload :=
    match assemble remote studentId s with
    | Returned m => {| data := Some m; loading := false; error := "" |}
    | Thrown err =>
        {| data := data st; loading := false;
           error := if String.eqb (message err) ""
                    then "Erro ao carregar relatório" else message err |}
    end in
  match createdItem, data st with
  | Some item, Some d =>
      if truthy item then
        match prop item "result" with
        | JUndefined =>
            match prop item "justification" with
            | JUndefined => reload
            | _ => {| data := Some {| student := student d;
                                     adaptations := item :: adaptations d;
                                     reports := reports d |};
                      loading := false; error := error st |}
            end
        | _ => {| data := Some {| student := student d;
                                 adaptations := adaptations d;
                                 reports := item :: reports d |};
                  loading := false; error := error st |}
        end
      else reload
  | _, _ => reload
  end.
End WithPlatform.
End StudentReport.

(* ================================================================== *)
(** ** AuthContext: the sign-in fallback chain *)
(* ================================================================== *)

Definition set_token (t : option string) (s : Storage) : Storage :=
  {| adaptacao_users := adaptacao_users s;
     adaptacao_students := adaptacao_students s;
     adaptacao_adaptations := adaptacao_adaptations s;
     adaptacao_reports := adaptacao_reports s;
     adaptacao_current_user := adaptacao_current_user s;
     token := t; user := user s |}.

Definition set_user (u : option (item jsval)) (s : Storage) : Storage :=
  {| adaptacao_users := adaptacao_users s;
     adaptacao_students := adaptacao_students s;
     adaptacao_adaptations := adaptacao_adaptations s;
     adaptacao_reports := adaptacao_reports s;
     adaptacao_current_user := adaptacao_current_user s;
     token := token s; user := u |}.

(** [res.json()]: a [SyntaxError] when the text is not JSON. *)
Definition res_json (text : item jsval) : attempt Error jsval :=
  match text with
  | Json v => Returned v
  | Garbled _ => Thrown (new_Error "Unexpected token")
  end.

(** [v?.k] *)
Definition opt_prop (v : jsval) (k : string) : jsval :=
  if nullish v then JUndefined else prop v k.

Module AuthContext.
Section WithServices.
Context `{Platform} `{Remote}.

(** [u.email && u.email.toLowerCase() === email.toLowerCase()] *)
Definition same_email (email : string) (u : jsval) : attempt Error bool :=
  if nullish u then Thrown TypeError
  else if negb (truthy (prop u "email")) then Returned false
  else match prop u "email" with
       | JStr e => Returned (String.eqb (toLowerCase e) (toLowerCase email))
       | _ => Thrown (new_Error "u.email.toLowerCase is not a function")
       end.

(** Remote session authentication, then the profile from [/me]. *)
Definition session_stage (email password : string) : M (option jsval) :=
  match supabase_signInWithPassword email password with
  | SupabaseThrows e => throw e
  | SupabaseReturns error access_token =>
      if negb (truthy error) && truthy access_token then
        out <- send {| method := "GET"; url := API_URL ++ "/me";
                       headers := [("Authorization",
                                    ("Bearer " ++ String_ access_token)%string)];
                       body := None |} ;;
        match out with
        | NetworkError msg => throw (new_Error msg)
        | AbortError => throw (new_Error "The operation was aborted")
        | Response status _ text =>
            if ok status then
              body <- lift (res_json text) ;;
              body_user <- lift (member TypeError body "user") ;;
              let profile := or_ body_user body in
              write (set_token (Some (String_ access_token))) ;;
              write (set_user (Some (Json profile))) ;;
              ret (Some profile)
            else ret None
        end
      else ret None
  end.

(** Remote user lookup by e-mail, without a password check. *)
Definition lookup_stage (email : string) : M (option jsval) :=
  out <- send (GET (API_URL ++ "/users?email=" ++ encodeURIComponent email)) ;;
  match out with
  | NetworkError msg => throw (new_Error msg)
  | AbortError => throw (new_Error "The operation was aborted")
  | Response status _ text =>
      if ok status then
        data <- lift (res_json text) ;;
        let list :=
          if isArray data then data
          else or_ (or_ (opt_prop data "value") (opt_prop data "users")) (JArr []) in
        found <- lift (match list with
                       | JArr items => find_attempt (same_email email) items
                       | _ => Returned JNull
                       end) ;;
        if truthy found then
          write (set_token (Some ("mock-api-" ++ String_ (prop found "email"))%string)) ;;
          let profile :=
            JObj [ ("id", JStr (String_ (or_ (or_ (prop found "id")
                                                  (prop found "userId"))
                                             (prop found "email"))));
                   ("email", prop found "email");
                   ("name", or_ (or_ (prop found "name") (prop found "fullName"))
                                (JStr ""));
                   ("role", or_ (prop found "role") (JStr "professor")) ] in
          write (set_user (Some (Json profile))) ;;
          ret (Some profile)
        else ret None
      else ret None
  end.

(** [signIn]: the value returned is the user handed to [setUser]. *)
Definition signIn (email password : string) : M jsval :=
  initializeDefaultUsers ;;
  r1 <- try_catch (session_stage email password) (fun _ => ret None) ;;
  match r1 with
  | Some profile => ret profile
  | None =>
      r2 <- try_catch (lookup_stage email) (fun _ => ret None) ;;
      match r2 with
      | Some profile => ret profile
      | None =>
          u <- modify (authStorage.signIn email password) ;;
          match u with
          | None =>
              throw (new_Error "Usuário não encontrado. Verifique o e-mail ou senha.")
          | Some u =>
              write (set_token (Some ("mock-token-" ++ String_ (get u "id"))%string)) ;;
              write (set_user (Some (Json (JObj u)))) ;;
              ret (JObj u)
          end
      end
  end.
End WithServices.

(** [signOut] *)
Definition signOut (s : Storage) : Storage := set_user None (set_token None s).

(** [checkSession]: the user restored, and the store afterwards. *)
Definition checkSession (s : Storage) : option jsval * Storage :=
  match token s, user s with
  | Some t, Some storedUser =>
      if negb (String.eqb t "") && item_truthy storedUser then
        match JSON_parse storedUser with
        | Returned u => (Some u, s)
        | Thrown _ => (None, set_user None (set_token None s))
        end
      else (None, s)
  | _, _ => (None, s)
  end.
End AuthContext.

(* ================================================================== *)
(** ** Importing the users of a remote API *)
(* ================================================================== *)

Section ImportUsers.
Context `{Platform} `{Remote}.

(** [users.map(u => ({ id: u.id || u.userId || generateId(), ... }))] *)
Fixpoint normalize (users : list jsval) : M (list obj) :=
  match users with
  | [] => ret []
  | u :: rest =>
      id <- (if nullish u then throw TypeError
             else if truthy (or_ (prop u "id") (prop u "userId"))
             then ret (or_ (prop u "id") (prop u "userId"))
             else (g <- generateId ;; ret (JStr g))) ;;
      let normalized :=
        [ ("id", id);
          ("email", or_ (prop u "email") (JStr ""));
          ("name", or_ (or_ (prop u "name") (prop u "fullName")) (JStr ""));
          ("role", or_ (prop u "role") (JStr "professor")) ] in
      others <- normalize rest ;;
      ret (normalized :: others)
  end.

(** [importUsersFromApi(apiUrl)] *)
Definition importUsersFromApi (apiUrl : string) : M unit :=
  try_catch
    (out <- send (GET (apiUrl ++ "/users")) ;;
     match out with
     | NetworkError msg => throw (new_Error msg)
     | AbortError => throw (new_Error "The operation was aborted")
     | Response status _ text =>
         if negb (ok status) then ret tt
         else
           users <- lift (res_json text) ;;
           match users with
           | JArr (u :: rest) =>
               normalized <- normalize (u :: rest) ;;
               write (setToStorage USERS normalized)
           | _ => ret tt
           end
     end)
    (fun _ => ret tt).
End ImportUsers.

(* ================================================================== *)
(** ** The pages: reloading and deleting *)
(* ================================================================== *)

(** The handlers of the [StudentReport] page with their remote calls made. *)
Module StudentReportPage.
Section WithServices.
Context `{Platform} `{Remote}.

(** Whether [loadReport(createdItem)] returns from one of its optimistic
    branches, which come before the remote call. *)
Definition optimistic (createdItem : option jsval) (st : StudentReport.State) : bool :=
  match createdItem, StudentReport.data st with
  | Some item, Some _ =>
      truthy item
      && negb (match prop item "result", prop item "justification" with
               | JUndefined, JUndefined => true
               | _, _ => false
               end)
  | _, _ => false
  end.

(** [loadReport(createdItem)]: the local store is read after the remote
    call has ended. *)
Definition loadReport (createdItem : option jsval) (studentId : string)
           (st : StudentReport.State) : World -> StudentReport.State * World :=
  fun w =>
    if optimistic createdItem st then
      (StudentReport.loadReport createdItem (Returned JUndefined) studentId (ls w) st, w)
    else
      let out := api.getStudentReport studentId w in
      (StudentReport.loadReport createdItem (fst out) studentId (ls (snd out)) st,
       snd out).

(** [handleDeleteAdaptation(adaptation)]; [confirmed] is the answer to
    [window.confirm], [id] is [adaptation.id]. *)
Definition handleDeleteAdaptation (confirmed : bool) (studentId id : string)
           (st : StudentReport.State) : World -> StudentReport.State * World :=
  fun w =>
    if confirmed then
      match (modify (adaptationStorage.delete id) ;;
             try_catch (api.deleteAdaptation studentId id ;; ret tt) (fun _ => ret tt) ;;
             toast (toast_success "Adaptação excluída com sucesso!"))%js w with
      | (Returned _, w') => loadReport None studentId st w'
      | (Thrown err, w') =>
          (st, snd (toast (toast_error (if String.eqb (message err) ""
                                        then "Erro ao excluir adaptação"
                                        else message err)) w'))
      end
    else (st, w).

(** [handleDeleteReport(report)] *)
Definition handleDeleteReport (confirmed : bool) (studentId id : string)
           (st : StudentReport.State) : World -> StudentReport.State * World :=
  fun w =>
    if confirmed then
      match (modify (reportStorage.delete id) ;;
             try_catch (api.deleteReport studentId id ;; ret tt) (fun _ => ret tt) ;;
             toast (toast_success "Relato excluído com sucesso!"))%js w with
      | (Returned _, w') => loadReport None studentId st w'
      | (Thrown err, w') =>
          (st, snd (toast (toast_error (if String.eqb (message err) ""
                                        then "Erro ao excluir relato"
                                        else message err)) w'))
      end
    else (st, w).
End WithServices.
End StudentReportPage.

Module CoordinatorDashboard.
Section WithRemote.
Context `{Remote}.

(** [handleDeleteStudent(student)]: [id] is [student.id]; the number
    returned is the refresh key of the list. *)
Definition handleDeleteStudent (id : string) (refreshKey : nat) : World -> nat * World :=
  fun w =>
    match api.deleteStudent id w with
    | (Returned _, w') =>
        (S refreshKey, snd (toast (toast_success "Estudante excluído com sucesso!") w'))
    | (Thrown err, w') =>
        (refreshKey,
         snd (toast (toast_error (if String.eqb (message err) ""
                                  then "Erro ao excluir estudante"
                                  else message err)) w'))
    end.
End WithRemote.
End CoordinatorDashboard.

(* ================================================================== *)
(** ** The remote-only variants *)
(* ================================================================== *)

(** [src/contexts/AuthContext.tsx]: the provider that signs in against the
    remote user list alone.  Its [signOut] and [checkSession] are those of
    [AuthContext]. *)
Module RemoteAuthContext.
Section WithRemote.
Context `{Remote}.

(** [signIn]: the value returned is the user handed to [setUser]; the
    password is never read. *)
Definition signIn (email password : string) : M jsval :=
  out <- send (GET (API_URL ++ "/users?email=" ++ email)) ;;
  match out with
  | NetworkError msg => throw (new_Error msg)
  | AbortError => throw (new_Error "The operation was aborted")
  | Response status _ text =>
      if negb (ok status) then throw (new_Error "Erro ao conectar com a API")
      else
        data <- lift (res_json text) ;;
        let user := match data with
                    | JArr (first :: _) => first
                    | _ => JNull
                    end in
        if negb (truthy user)
        then throw (new_Error "Usuário não encontrado. Verifique o e-mail digitado.")
        else
          write (set_token (Some ("mock-token-" ++ String_ (prop user "id"))%string)) ;;
          write (set_user (Some (Json user))) ;;
          ret user
  end.
End WithRemote.
End RemoteAuthContext.

(** [src/components/ReportForm.tsx]: the report form that talks to the
    remote only. *)
Module RemoteReportForm.

(** What [handleSubmit] leaves behind: the error shown, and the argument of
    [onSuccess] when it was called. *)
Record Submitted : Type := {
  error : string;
  onSuccess : option jsval
}.

Section WithServices.
Context `{Platform} `{Remote}.

Definition handleSubmit (studentId : string) (report : option string)
           (formData : ReportForm.FormData) : World -> Submitted * World :=
  fun w =>
    if String.eqb (ReportForm.subject formData) ""
       || String.eqb (ReportForm.description formData) ""
    then ({| error := "Por favor, preencha todos os campos obrigatórios";
             onSuccess := None |}, w)
    else if String.eqb (ReportForm.date formData) ""
    then ({| error := "Por favor, informe a data do relato"; onSuccess := None |}, w)
    else
      match (match report with
             | Some id =>
                 api.updateReport studentId id (JObj (ReportForm.formData_obj formData)) ;;
                 toast (toast_success "Relato atualizado com sucesso!") ;;
                 ret JUndefined
             | None =>
                 iso <- Date_of_toISOString (ReportForm.date formData) ;;
                 created <- api.createReport
                              (JObj (set (set (spread [] (ReportForm.formData_obj formData))
                                              "studentId" (JStr studentId))
                                         "date" (JStr iso))) ;;
                 toast (toast_success "Relato registrado com sucesso!") ;;
                 ret created
             end)%js w with
      | (Returned created, w') => ({| error := ""; onSuccess := Some created |}, w')
      | (Thrown err, w') =>
          let msg := if String.eqb (message err) "" then "Erro ao salvar relato"
                     else message err in
          ({| error := msg; onSuccess := None |},
           {| ls := ls w'; clock := clock w'; sent := sent w';
              toasts := toasts w' ++ [toast_error msg] |})
      end.
End WithServices.
End RemoteReportForm.

(* ================================================================== *)
(** ** ApiStudentList: importing a student *)
(* ================================================================== *)

Module ApiStudentList.

(** The state [handleImport] works on.  A [Set] is the list of its members
    in insertion order; [onImport] counts the calls of the [onImport]
    callback, when one is given. *)
Record State : Type := {
  importingIds : list string;
  localRegistrationSet : list string;
  onImport : nat
}.

(** [new Set(s).add(x)] *)
Definition add (x : string) (s : list string) : list string :=
  if existsb (String.eqb x) s then s else (s ++ [x])%list.

(** The copy of [s] after [copy.delete(x)] *)
Definition delete (x : string) (s : list string) : list string :=
  filter (fun y => negb (String.eqb y x)) s.

Section WithServices.
Context `{Platform} `{Remote}.

(** [String(Math.random())], by the number of readings of the clock and the
    generator so far. *)
Variable Math_random_text : nat -> string.

(** [handleImport(remote)]: a [TypeError] when [remote] is [null] or
    [undefined], since [remote.id] is read before the [try]. *)
Definition handleImport (remote : jsval) (st : State)
  : World -> attempt Error State * World :=
  fun w =>
    if nullish remote then (Thrown TypeError, w)
    else
      let named := or_ (or_ (prop remote "id") (prop remote "registrationNumber"))
                       (prop remote "email") in
      let idKey := if truthy named then String_ named
                   else Math_random_text (clock w) in
      let w0 := if truthy named then w else tick w in
      let importing := add idKey (importingIds st) in
      let registrationNumber :=
        String_ (or_ (or_ (prop remote "registrationNumber") (prop remote "id"))
                     (JStr "")) in
      let studentPartial :=
        JObj [ ("name", or_ (prop remote "name") (JStr ""));
               ("course", or_ (prop remote "course") (JStr ""));
               ("class", or_ (or_ (prop remote "class") (prop remote "turma")) (JStr ""));
               ("birthDate", or_ (prop remote "birthDate") (JStr ""));
               ("registrationNumber", JStr registrationNumber);
               ("guardianName", or_ (prop remote "guardianName") (JStr ""));
               ("guardianContact", or_ (prop remote "guardianContact") (JStr "")) ] in
      match api.createStudent studentPartial w0 with
      | (Returned _, w1) =>
          (Returned
             {| importingIds := delete idKey importing;
                localRegistrationSet :=
                  add (toLowerCase (String_ (or_ (JStr registrationNumber) (JStr ""))))
                      (localRegistrationSet st);
                onImport := S (onImport st) |},
           snd (toast (toast_success "Estudante importado com sucesso") w1))
      | (Thrown err, w1) =>
          (Returned
             {| importingIds := delete idKey importing;
                localRegistrationSet := localRegistrationSet st;
                onImport := onImport st |},
           snd (toast (toast_error (if String.eqb (message err) ""
                                    then "Erro ao importar estudante"
                                    else message err)) w1))
      end.
End WithServices.
End ApiStudentList.

(* ================================================================== *)
(** ** Sample environments *)
(* ================================================================== *)

(** A browser whose clock starts at 2023-11-14T22:13:20Z and advances by a
    millisecond per reading. *)
Definition sample_platform : Platform :=
  {| Date_now := fun k => (1700000000000 + Z.of_nat k)%Z;
     Math_random36 := fun k => "k3j9x2m1q";
     Date_toISOString := fun t => if (t =? 1709251200000)%Z
                                  then "2024-03-01T00:00:00.000Z"
                                  else ("2023-11-14T22:13:20.00"
                                          ++ decimal (t mod 10) ++ "Z")%string;
     Date_parse := fun s => if String.eqb s "2024-03-01" then Some 1709251200000%Z
                            else None;
     JSON_stringify := String_;
     toLowerCase := fun s => s;
     encodeURIComponent := fun s => s |}.

(** Every remote endpoint is unreachable. *)
Definition offline : Remote :=
  {| fetch := fun _ _ => NetworkError "Failed to fetch";
     supabase_signInWithPassword :=
       fun _ _ => SupabaseThrows (new_Error "Failed to fetch") |}.

(** A server that answers every request with [201] and [{ id: "srv-42" }]. *)
Definition assigning_ids : Remote :=
  {| fetch := fun _ _ => Response 201 "Created" (Json (JObj [("id", JStr "srv-42")]));
     supabase_signInWithPassword :=
       fun _ _ => SupabaseThrows (new_Error "Failed to fetch") |}.

(** A server without any route: every request is answered [404]. *)
Definition not_found : Remote :=
  {| fetch := fun _ _ => Response 404 "Not Found" (Garbled "");
     supabase_signInWithPassword :=
       fun _ _ => SupabaseThrows (new_Error "Failed to fetch") |}.

Definition fresh_world : World :=
  {| ls := empty_storage; clock := 0; sent := []; toasts := [] |}.

Definition sample_adaptation_form : AdaptationForm.FormData :=
  {| AdaptationForm.description := "Tempo extra";
     AdaptationForm.justification := "Laudo";
     AdaptationForm.date := "2024-03-01" |}.

(* ================================================================== *)
(** ** Notions used by the properties *)
(* ================================================================== *)

(** Induction on a value together with the values nested in it. *)
Section jsval_nested_ind.
Variable P : jsval -> Prop.
Hypothesis P_undefined : P JUndefined.
Hypothesis P_null : P JNull.
Hypothesis P_bool : forall b, P (JBool b).
Hypothesis P_num : forall n, P (JNum n).
Hypothesis P_str : forall s, P (JStr s).
Hypothesis P_arr : forall items, Forall P items -> P (JArr items).
Hypothesis P_obj : forall props, Forall (fun kv => P (snd kv)) props -> P (JObj props).

Fixpoint jsval_nested_ind (v : jsval) : P v :=
  match v with
  | JUndefined => P_undefined
  | JNull => P_null
  | JBool b => P_bool b
  | JNum n => P_num n
  | JStr s => P_str s
  | JArr items =>
      P_arr ((fix all (l : list jsval) : Forall P l :=
                match l with
                | [] => Forall_nil _
                | x :: rest => Forall_cons x (jsval_nested_ind x) (all rest)
                end) items)
  | JObj props =>
      P_obj ((fix all (l : obj) : Forall (fun kv => P (snd kv)) l :=
                match l with
                | [] => Forall_nil _
                | (k, x) :: rest =>
                    Forall_cons (k, x) (jsval_nested_ind x) (all rest)
                end) props)
  end.
End jsval_nested_ind.

(** A slot that was never written, or holds text that is not JSON. *)
Definition unreadable {T} (slot : option (item T)) : bool :=
  match slot with
  | None => true
  | Some (Garbled _) => true
  | Some (Json _) => false
  end.

(** The collection stored under each key, as the matching [getAll] reads it. *)
Definition collection (k : STORAGE_KEYS) (s : Storage) : list obj :=
  match k with
  | USERS => getLocalUsers s
  | STUDENTS => studentStorage.getAll s
  | ADAPTATIONS => adaptationStorage.getAll s
  | REPORTS => reportStorage.getAll s
  end.

(** A store whose students key holds text that is not JSON. *)
Definition corrupted_storage : Storage :=
  {| adaptacao_users := None;
     adaptacao_students := Some (Garbled "[{");
     adaptacao_adaptations := None; adaptacao_reports := None;
     adaptacao_current_user := None; token := None; user := None |}.

(** The record [update] builds, for adaptations and reports:
    [{ ...old, ...updates, id, updatedAt }] at the time of world [w]. *)
Definition stamped `{Platform} (id : string) (updates : obj) (w : World) (old : obj) : obj :=
  set (set (spread old updates) "id" (JStr id))
      "updatedAt" (JStr (Date_toISOString (Date_now (clock w)))).

(** The record [studentStorage.update] builds for the student at index [i]. *)
Definition student_updated `{Platform} (id : string) (updates : obj) (w : World) (i : nat)
  : obj :=
  set (stamped id updates w (nth i (studentStorage.getAll (ls w)) []))
      "updatedBy" (opt_get (authStorage.getCurrentUser (ls w)) "id").

(** What an updated record must hold in field [k]: the id it was looked up
    by, the stamps, else the partial's value when the partial has the field,
    else the stored value.  [by_] is the [updatedBy] stamp, which only
    students carry ([None] for the other entities). *)
Definition expected_field `{Platform} (id : string) (updates : obj) (w : World) (old : obj)
           (by_ : option jsval) (k : string) : jsval :=
  if String.eqb k "id" then JStr id
  else if String.eqb k "updatedAt" then JStr (Date_toISOString (Date_now (clock w)))
  else if String.eqb k "updatedBy" then
         match by_ with
         | Some stamp => stamp
         | None => if has updates k then get updates k else get old k
         end
  else if has updates k then get updates k else get old k.

Definition same_key (k k' : STORAGE_KEYS) : bool :=
  match k, k' with
  | USERS, USERS | STUDENTS, STUDENTS | ADAPTATIONS, ADAPTATIONS | REPORTS, REPORTS => true
  | _, _ => false
  end.

(** What [update(id, updates)] on the collection [key] must do in world [w],
    [res] being what it did.  When some stored record has that id, the
    collection reads [before ++ old :: after] with [old] the first such
    record: [update] returns a record holding [expected_field] in every
    field, the collection afterwards holds that record, serialised, in the
    place of [old] and is otherwise as before, and nothing else in the store
    changes.  When no stored record has that id, it returns [null] and
    changes nothing. *)
Definition updated_as_specified `{Platform} (key : STORAGE_KEYS) (by_ : option jsval)
           (id : string) (updates : obj) (w : World)
           (res : attempt Error (option obj) * World) : Prop :=
  if existsb (fun x => is_str (get x "id") id) (collection key (ls w)) then
    exists before old after r w',
      collection key (ls w) = (before ++ old :: after)%list
      /\ is_str (get old "id") id = true
      /\ Forall (fun x => is_str (get x "id") id = false) before
      /\ res = (Returned (Some r), w')
      /\ (forall k, get r k = expected_field id updates w old by_ k)
      /\ collection key (ls w') = (before ++ json_obj r :: after)%list
      /\ (forall k', same_key key k' = false -> getItem k' (ls w') = getItem k' (ls w))
      /\ adaptacao_current_user (ls w') = adaptacao_current_user (ls w)
      /\ token (ls w') = token (ls w) /\ user (ls w') = user (ls w)
  else res = (Returned None, w).

(** The two initializers, in the order the [AuthProvider] runs them on
    start-up. *)
Definition initializers `{Platform} : M unit :=
  initializeDefaultUsers ;; initializeDefaultData.

(** [l] is an initial segment of [l']. *)
Definition prefix (l l' : list obj) : Prop := exists extra, l' = l ++ extra.

(** What [generateId] returns when the clock and the generator have been
    read [c] times. *)
Definition generatedId `{Platform} (c : nat) : string :=
  (decimal (Date_now c) ++ "-" ++ Math_random36 (S c))%string.

(** What [new Date().toISOString()] returns at that point. *)
Definition isoNow `{Platform} (c : nat) : string := Date_toISOString (Date_now c).

Definition ticks (n : nat) (w : World) : World :=
  {| ls := ls w; clock := n + clock w; sent := sent w; toasts := toasts w |}.

Definition with_ls (s : Storage) (w : World) : World :=
  {| ls := s; clock := clock w; sent := sent w; toasts := toasts w |}.

(** The store [initializeDefaultData] leaves when it finds no student, the
    clock having been read [c] times before. *)
Definition seeded_data `{Platform} (c : nat) (s : Storage) : Storage :=
  let users := getLocalUsers s in
  let coordinator := find (fun u => is_str (get u "role") "coordenador") users in
  let professor := find (fun u => is_str (get u "role") "professor") users in
  let students :=
    sampleStudents (generatedId c) (isoNow (2 + c)) (generatedId (3 + c))
                   (isoNow (5 + c)) coordinator in
  let s1 := setToStorage STUDENTS students s in
  let s2 := setToStorage ADAPTATIONS
              (adaptationStorage.getAll s1 ++
               [ sampleAdaptation (generatedId (6 + c)) (get (nth 0 students []) "id")
                                  (isoNow (8 + c)) (isoNow (9 + c)) coordinator ]) s1 in
  setToStorage REPORTS
    (reportStorage.getAll s2 ++
     [ sampleReport (generatedId (10 + c)) (get (nth 0 students []) "id")
                    (isoNow (12 + c)) (isoNow (13 + c)) professor ]) s2.

(** The pair is one of the two of the local credential table. *)
Definition known_locally (email password : string) : bool :=
  (String.eqb email "coordenador@escola.com" && String.eqb password "coord123")
  || (String.eqb email "professor@escola.com" && String.eqb password "prof123").

(** The error [signIn] ends with when no stage produced a session. *)
Definition authentication_error : Error :=
  new_Error "Usuário não encontrado. Verifique o e-mail ou senha.".

(** Every remote endpoint is unreachable: each request is rejected and the
    session service throws. *)
Definition unreachable_remote (R : Remote) : Prop :=
  (forall before req, exists msg, @fetch R before req = NetworkError msg)
  /\ (forall email password,
         exists e, @supabase_signInWithPassword R email password = SupabaseThrows e).

(** The session [signIn] persists on the local fallback path for user [u]. *)
Definition local_session (u : obj) (s : Storage) : Storage :=
  set_user (Some (Json (JObj u)))
    (set_token (Some ("mock-token-" ++ String_ (get u "id"))%string)
       (set_current_user (Some (Json (Some u))) s)).

(** The world once request [req] has been sent. *)
Definition after_request (req : Request) (w : World) : World :=
  {| ls := ls w; clock := clock w; sent := sent w ++ [req]; toasts := toasts w |}.

(** The body [{ ...formData, date }] of the update request of the adaptation
    form. *)
Definition adaptation_update_payload (formData : AdaptationForm.FormData) (iso : string)
  : jsval :=
  JObj [ ("description", JStr (AdaptationForm.description formData));
         ("justification", JStr (AdaptationForm.justification formData));
         ("date", JStr iso) ].

(** [PUT /adaptations/{id}] *)
Definition flat_put (id : string) (payload : jsval) : Request :=
  json_request "PUT" (API_URL ++ "/adaptations/" ++ id) payload.

(** [PUT /adaptations/{studentId}/{id}] *)
Definition nested_put (studentId id : string) (payload : jsval) : Request :=
  json_request "PUT" (API_URL ++ "/adaptations/" ++ studentId ++ "/" ++ id) payload.

(** The fields the adaptation form writes to the local copy. *)
Definition adaptation_local_fields (formData : AdaptationForm.FormData) (iso : string)
  : obj :=
  [ ("description", JStr (AdaptationForm.description formData));
    ("justification", JStr (AdaptationForm.justification formData));
    ("date", JStr iso) ].

(** The body [apiFetch] extracts from the text of a response. *)
Definition response_data (text : item jsval) : jsval :=
  match text with
  | Json v => v
  | Garbled raw => if String.eqb raw "" then JNull else JStr raw
  end.

(** What [apiFetch] throws for a response that is not [ok]. *)
Definition response_error (status : Z) (statusText : string) (text : item jsval) : Error :=
  {| message :=
       String_ (or_ (or_ (if truthy (response_data text)
                          then or_ (prop (response_data text) "error")
                                   (prop (response_data text) "message")
                          else response_data text)
                         (JStr statusText))
                    (JStr "Erro na requisição"));
     err_status := Some status;
     err_body := response_data text |}.

(** A request that does not come back with a successful response. *)
Definition fails (out : FetchOutcome) : bool :=
  match out with
  | Response status _ _ => negb (ok status)
  | NetworkError _ | AbortError => true
  end.

(** The record [adaptationStorage.create(data)] builds in world [w] when
    [data] carries a date. *)
Definition created_adaptation `{Platform} (data : obj) (w : World) : obj :=
  [ ("id", JStr (generatedId (clock w)));
    ("studentId", or_ (get data "studentId") (JStr ""));
    ("description", or_ (get data "description") (JStr ""));
    ("justification", or_ (get data "justification") (JStr ""));
    ("date", get data "date");
    ("createdAt", JStr (isoNow (2 + clock w)));
    ("createdBy", or_ (opt_get (authStorage.getCurrentUser (ls w)) "id") (JStr "")) ].

(** The record [reportStorage.create(data)] builds in world [w] when [data]
    carries a date. *)
Definition created_report `{Platform} (data : obj) (w : World) : obj :=
  [ ("id", JStr (generatedId (clock w)));
    ("studentId", or_ (get data "studentId") (JStr ""));
    ("teacherId", or_ (opt_get (authStorage.getCurrentUser (ls w)) "id") (JStr ""));
    ("teacherName", or_ (opt_get (authStorage.getCurrentUser (ls w)) "name") (JStr ""));
    ("subject", or_ (get data "subject") (JStr ""));
    ("date", get data "date");
    ("result", or_ (get data "result") (JStr "neutro"));
    ("description", or_ (get data "description") (JStr ""));
    ("createdAt", JStr (isoNow (2 + clock w))) ].

(** The record [studentStorage.create(data)] builds in world [w]. *)
Definition created_student `{Platform} (data : obj) (w : World) : obj :=
  [ ("id", JStr (generatedId (clock w)));
    ("name", or_ (get data "name") (JStr ""));
    ("course", or_ (get data "course") (JStr ""));
    ("class", or_ (get data "class") (JStr ""));
    ("birthDate", or_ (get data "birthDate") (JStr ""));
    ("registrationNumber", or_ (get data "registrationNumber") (JStr ""));
    ("guardianName", get data "guardianName");
    ("guardianContact", get data "guardianContact");
    ("createdAt", JStr (isoNow (2 + clock w)));
    ("createdBy", or_ (opt_get (authStorage.getCurrentUser (ls w)) "id") (JStr "")) ].

(** The fields of a student a caller submits. *)
Definition student_fields : list string :=
  [ "name"; "course"; "class"; "birthDate"; "registrationNumber";
    "guardianName"; "guardianContact" ].

(** [POST /adaptations] with the payload of the adaptation form. *)
Definition adaptation_post (studentId : string) (formData : AdaptationForm.FormData)
           (iso : string) : Request :=
  json_request "POST" (API_URL ++ "/adaptations")
    (JObj [ ("description", JStr (AdaptationForm.description formData));
            ("justification", JStr (AdaptationForm.justification formData));
            ("date", JStr iso);
            ("studentId", JStr studentId) ]).

(** [POST /reports] with the payload of the report form. *)
Definition report_post (studentId : string) (formData : ReportForm.FormData)
           (iso : string) : Request :=
  json_request "POST" (API_URL ++ "/reports")
    (JObj [ ("subject", JStr (ReportForm.subject formData));
            ("result", JStr (ReportForm.result formData));
            ("description", JStr (ReportForm.description formData));
            ("date", JStr iso);
            ("studentId", JStr studentId) ]).

(** What the adaptation form hands to [adaptationStorage.create] when it
    has no remote identifier. *)
Definition adaptation_data (studentId : string) (formData : AdaptationForm.FormData)
           (iso : string) : obj :=
  [ ("studentId", JStr studentId);
    ("description", JStr (AdaptationForm.description formData));
    ("justification", JStr (AdaptationForm.justification formData));
    ("date", JStr iso) ].

(** What the report form hands to [reportStorage.create] when it has no
    remote identifier. *)
Definition report_data (studentId : string) (formData : ReportForm.FormData)
           (iso : string) : obj :=
  [ ("studentId", JStr studentId);
    ("subject", JStr (ReportForm.subject formData));
    ("result", JStr (ReportForm.result formData));
    ("description", JStr (ReportForm.description formData));
    ("date", JStr iso) ].

(** Following the specification's wording for the list operations: a bare
    array is returned as it is, an object whose [value] field or whose
    entity-named field is an array is unwrapped to that array, any other
    shape gives the empty sequence. *)
Definition unwrap (field : string) (res : jsval) : jsval :=
  match res with
  | JArr _ => res
  | JObj o =>
      if isArray (get o "value") then get o "value"
      else if isArray (get o field) then get o field
      else JArr []
  | _ => JArr []
  end.

(** What [apiFetch] throws when the timer aborts the request. *)
Definition timeout_error : Error :=
  {| message := "Tempo de requisição esgotado";
     err_status := Some 408%Z; err_body := JUndefined |}.

(** What a list operation makes of the outcome of its request.  A
    [tolerant] operation turns a [404] into the empty sequence. *)
Definition list_outcome (field : string) (tolerant : bool) (out : FetchOutcome)
  : attempt Error jsval :=
  match out with
  | NetworkError msg => Thrown (new_Error msg)
  | AbortError => Thrown timeout_error
  | Response status statusText text =>
      if ok status then Returned (unwrap field (response_data text))
      else if tolerant && (status =? 404)%Z then Returned (JArr [])
      else Thrown (response_error status statusText text)
  end.

(** The merge key of an entry that is neither [null] nor [undefined]. *)
Definition key_of `{Platform} (a : jsval) : string :=
  String_ (or_ (or_ (prop a "id") (prop a "_localId")) (JStr (JSON_stringify a))).

(** [forEach_set] when no key throws. *)
Definition set_all `{Platform} (l : list jsval) (map : obj) : obj :=
  fold_left (fun m a => set m (key_of a) a) l map.

(** The entry the [Map] holds under key [k] once the entries of [l] have
    been set in order, [d] being what it held before: the last entry of [l]
    with that key, if any. *)
Fixpoint override `{Platform} (l : list jsval) (k : string) (d : jsval) : jsval :=
  match l with
  | [] => d
  | a :: rest => override rest k (if String.eqb (key_of a) k then a else d)
  end.

(** A view model handed back as if it were the remote result. *)
Definition as_remote (m : StudentReport.ReportData) : jsval :=
  JObj [ ("student", StudentReport.student m);
         ("adaptations", JArr (StudentReport.adaptations m));
         ("reports", JArr (StudentReport.reports m)) ].

(** Every entry of the [Map] sits under its own key. *)
Definition keyed `{Platform} (m : obj) : Prop :=
  Forall (fun kv => key_of (snd kv) = fst kv /\ nullish (snd kv) = false) m.

(** A store holding one adaptation of student [stu-1]. *)
Definition stored_adaptation : obj :=
  [ ("id", JStr "a-1");
    ("studentId", JStr "stu-1");
    ("description", JStr "Mais tempo");
    ("justification", JStr "Parecer");
    ("date", JStr "2024-02-01T00:00:00.000Z");
    ("createdAt", JStr "2024-02-01T12:00:00.000Z");
    ("createdBy", JStr "") ].

Definition world_with_adaptation : World :=
  {| ls := setToStorage ADAPTATIONS [stored_adaptation] empty_storage;
     clock := 0; sent := []; toasts := [] |}.

(** A remote result with one adaptation also stored locally and one that is
    not. *)
Definition sample_remote_report : jsval :=
  JObj [ ("student", JObj [("id", JStr "stu-1"); ("name", JStr "Ana Pereira")]);
         ("adaptations",
          JArr [ JObj [("id", JStr "a-1"); ("description", JStr "remote")];
                 JObj [("id", JStr "a-9"); ("description", JStr "remote only")] ]);
         ("reports", JArr []) ].

(** What the merge makes of it on the store of [world_with_adaptation]. *)
Definition sample_merged_report : StudentReport.ReportData :=
  {| StudentReport.student := JObj [("id", JStr "stu-1"); ("name", JStr "Ana Pereira")];
     StudentReport.adaptations :=
       [ JObj stored_adaptation;
         JObj [("id", JStr "a-9"); ("description", JStr "remote only")] ];
     StudentReport.reports := [] |}.

(** The request was answered, with status [404]. *)
Definition answered_404 (out : FetchOutcome) : bool :=
  match out with
  | Response status _ _ => (status =? 404)%Z
  | NetworkError _ | AbortError => false
  end.

(** The requests [api.getStudentReport] may send after the first one. *)
Definition separate_requests (studentId : string) : list Request :=
  [ GET (API_URL ++ "/students");
    GET (API_URL ++ "/adaptations/" ++ studentId);
    GET (API_URL ++ "/reports/" ++ studentId) ].

(** [m] only sends requests: at most [n], all among [allowed]; it leaves the
    store, the clock and the notifications alone; and if it throws, it
    throws the [TypeError] of a property read on [null] or [undefined]. *)
Definition sends_at_most `{Remote} {A} (n : nat) (allowed : list Request) (m : M A)
  : Prop :=
  forall w, exists more,
    ls (snd (m w)) = ls w /\ clock (snd (m w)) = clock w
    /\ toasts (snd (m w)) = toasts w
    /\ sent (snd (m w)) = sent w ++ more
    /\ (length more <= n)%nat /\ incl more allowed
    /\ (forall e, fst (m w) = Thrown e -> e = TypeError).

(** Whatever [m] returns satisfies [P]. *)
Definition yields {A} (P : A -> Prop) (m : M A) : Prop :=
  forall w a, fst (m w) = Returned a -> P a.

(** The aggregate [{ student, adaptations, reports }] with both lists
    neither [null] nor [undefined]. *)
Definition aggregate (v : jsval) : Prop :=
  exists student adaptations reports,
    v = JObj [ ("student", student); ("adaptations", adaptations); ("reports", reports) ]
    /\ nullish adaptations = false /\ nullish reports = false.

(** A specification of an effectful step: started in a world satisfying
    [P], [m] ends either returning [a] in a world satisfying [Q a], or
    throwing [e] in a world satisfying [E e]. *)
Definition triple {A} (P : World -> Prop) (m : M A) (Q : A -> World -> Prop)
           (E : Error -> World -> Prop) : Prop :=
  forall w, P w ->
    match fst (m w) with
    | Returned a => Q a (snd (m w))
    | Thrown e => E e (snd (m w))
    end.

(** The store and the clock are those of [w0]. *)
Definition same_local (w0 w : World) : Prop := ls w = ls w0 /\ clock w = clock w0.

(** Store [s'] is the store of [w] with [created] appended to the collection
    [key], [created] being a record of [studentId] under the identifier
    generated in [w]. *)
Definition appended `{Platform} (key : STORAGE_KEYS) (w : World) (studentId : string)
           (created : obj) (s' : Storage) : Prop :=
  collection key s' = (collection key (ls w) ++ [json_obj created])%list
  /\ get created "id" = JStr (generatedId (clock w))
  /\ get created "studentId" = JStr studentId
  /\ (forall k, same_key key k = false -> getItem k s' = getItem k (ls w)).

(** Store [s] holds a session for user [u]: a token that is not empty, and
    [u] under the key [user]. *)
Definition signed_in (u : jsval) (s : Storage) : Prop :=
  exists t, token s = Some t /\ t <> "" /\ user s = Some (Json u).

(** The session keys of [w] are those of [w0]. *)
Definition same_session (w0 w : World) : Prop :=
  token (ls w) = token (ls w0) /\ user (ls w) = user (ls w0).

(** A remote whose authentication service accepts every pair and whose
    [/me] endpoint answers with a profile. *)
Definition signing_in : Remote :=
  {| fetch := fun _ _ =>
       Response 200 "OK"
         (Json (JObj [("user", JObj [ ("id", JStr "u-1");
                                      ("email", JStr "ana@escola.com");
                                      ("name", JStr "Ana");
                                      ("role", JStr "professor") ])]));
     supabase_signInWithPassword := fun _ _ => SupabaseReturns JNull (JStr "jwt-1") |}.

(** A remote without an authentication service whose user list knows one
    e-mail address. *)
Definition listing_users : Remote :=
  {| fetch := fun _ _ =>
       Response 200 "OK"
         (Json (JArr [ JObj [ ("id", JNum 7);
                              ("email", JStr "ana@escola.com");
                              ("fullName", JStr "Ana Lima") ] ]));
     supabase_signInWithPassword :=
       fun _ _ => SupabaseThrows (new_Error "Failed to fetch") |}.

(** The profile the remote lookup stores for the user [found]. *)
Definition looked_up (found : jsval) : jsval :=
  JObj [ ("id", JStr (String_ (or_ (or_ (prop found "id") (prop found "userId"))
                                   (prop found "email"))));
         ("email", prop found "email");
         ("name", or_ (or_ (prop found "name") (prop found "fullName")) (JStr ""));
         ("role", or_ (prop found "role") (JStr "professor")) ].

(** [local] is the user record [importUsersFromApi] makes of the remote
    user [u]. *)
Definition normalized_from (u : jsval) (local : obj) : Prop :=
  map fst local = ["id"; "email"; "name"; "role"]
  /\ truthy (get local "id") = true
  /\ (truthy (or_ (prop u "id") (prop u "userId")) = true ->
      get local "id" = or_ (prop u "id") (prop u "userId"))
  /\ get local "email" = or_ (prop u "email") (JStr "")
  /\ get local "name" = or_ (or_ (prop u "name") (prop u "fullName")) (JStr "")
  /\ get local "role" = or_ (prop u "role") (JStr "professor").

Definition sample_report_form : ReportForm.FormData :=
  {| ReportForm.subject := "Matemática";
     ReportForm.result := "positivo";
     ReportForm.description := "Boa evolução";
     ReportForm.date := "2024-03-01" |}.

(** A student as the remote API lists it. *)
Definition sample_remote_student : jsval :=
  JObj [ ("id", JNum 7);
         ("name", JStr "Ana Pereira");
         ("course", JStr "Ensino Médio");
         ("turma", JStr "2A");
         ("registrationNumber", JStr "2021001") ].

(* ================================================================== *)
(** * Properties *)
(* ================================================================== *)

(** ** Values and objects *)

Lemma json_not_undefined (v : jsval) : json v <> JUndefined.
Proof. destruct v; simpl; discriminate. Qed.

Lemma json_obj_nil : json_obj [] = [].
Proof. reflexivity. Qed.

Lemma json_obj_cons (k : string) (v : jsval) (rest : obj) :
  json_obj ((k, v) :: rest) =
  match v with
  | JUndefined => json_obj rest
  | _ => (k, json v) :: json_obj rest
  end.
Proof. unfold json_obj; simpl; destruct v; reflexivity. Qed.

Lemma json_obj_cons_defined (k : string) (v : jsval) (rest : obj) :
  v <> JUndefined -> json_obj ((k, v) :: rest) = (k, json v) :: json_obj rest.
Proof. intros Hv. rewrite json_obj_cons. destruct v; congruence. Qed.

Lemma json_JObj (o : obj) : json (JObj o) = JObj (json_obj o).
Proof. reflexivity. Qed.

(** Serialising what was parsed gives the same text back. *)
Lemma json_idempotent (v : jsval) : json (json v) = json v.
Proof.
  induction v as [ | | b | n | s | items IH | props IH ] using jsval_nested_ind;
    try reflexivity.
  - simpl. f_equal. rewrite map_map.
    induction IH as [ | x rest Hx _ IHrest ]; simpl; [ reflexivity | ].
    rewrite Hx, IHrest. reflexivity.
  - rewrite !json_JObj. f_equal.
    induction IH as [ | [k x] rest Hx _ IHrest ]; [ reflexivity | ].
    simpl in Hx.
    assert (Hcases : x = JUndefined \/ x <> JUndefined)
      by (destruct x; (now left) || (right; discriminate)).
    destruct Hcases as [-> | Hdef].
    + rewrite json_obj_cons. exact IHrest.
    + rewrite (json_obj_cons_defined k rest Hdef).
      rewrite (json_obj_cons_defined k _ (json_not_undefined x)).
      now rewrite Hx, IHrest.
Qed.

Lemma json_obj_idempotent (o : obj) : json_obj (json_obj o) = json_obj o.
Proof.
  pose proof (json_idempotent (JObj o)) as Hj.
  rewrite !json_JObj in Hj. now injection Hj.
Qed.

Lemma roundtrip_objs_idempotent (l : list obj) :
  map json_obj (map json_obj l) = map json_obj l.
Proof.
  rewrite map_map. apply map_ext. intros o. apply json_obj_idempotent.
Qed.

(** A property that is defined survives serialisation. *)
Lemma get_json_obj (o : obj) (k : string) :
  get o k <> JUndefined -> get (json_obj o) k = json (get o k).
Proof.
  induction o as [ | [k' v] rest IH ]; simpl; intros Hget.
  - now contradiction Hget.
  - rewrite json_obj_cons.
    destruct (String.eqb k' k) eqn:Ek.
    + destruct v; try (simpl; rewrite Ek; reflexivity).
      now contradiction Hget.
    + destruct v; try (simpl; rewrite Ek); apply IH; exact Hget.
Qed.

Lemma get_set_same (o : obj) (k : string) (v : jsval) : get (set o k v) k = v.
Proof.
  induction o as [ | [k' v'] rest IH ]; simpl.
  - now rewrite String.eqb_refl.
  - destruct (String.eqb k' k) eqn:Ek; simpl; rewrite Ek; [ reflexivity | exact IH ].
Qed.

Lemma get_set_other (o : obj) (k k' : string) (v : jsval) :
  String.eqb k k' = false -> get (set o k v) k' = get o k'.
Proof.
  intros Hne. induction o as [ | [k0 v0] rest IH ]; simpl.
  - now rewrite Hne.
  - destruct (String.eqb k0 k) eqn:Ek; simpl.
    + apply String.eqb_eq in Ek. subst k0. now rewrite Hne.
    + destruct (String.eqb k0 k'); [ reflexivity | exact IH ].
Qed.

Lemma get_set (o : obj) (k k' : string) (v : jsval) :
  get (set o k v) k' = if String.eqb k k' then v else get o k'.
Proof.
  destruct (String.eqb k k') eqn:E.
  - apply String.eqb_eq in E. subst. apply get_set_same.
  - now apply get_set_other.
Qed.

Lemma has_existsb (o : obj) (k : string) :
  has o k = existsb (fun k' => String.eqb k' k) (map fst o).
Proof.
  induction o as [ | [k' v] rest IH ]; simpl; [ reflexivity | now rewrite IH ].
Qed.

Lemma get_assignments (b : obj) (ks : list string) (acc : obj) (k : string) :
  get (fold_left (fun acc k => set acc k (get b k)) ks acc) k =
  if existsb (fun k' => String.eqb k' k) ks then get b k else get acc k.
Proof.
  revert acc. induction ks as [ | k0 ks IH ]; intros acc; simpl; [ reflexivity | ].
  rewrite IH, get_set.
  destruct (String.eqb k0 k) eqn:E; simpl.
  - apply String.eqb_eq in E. subst k0.
    now destruct (existsb _ ks).
  - reflexivity.
Qed.

(** A spread takes each property from the right operand when it has it. *)
Lemma get_spread (a b : obj) (k : string) :
  get (spread a b) k = if has b k then get b k else get a k.
Proof. unfold spread. now rewrite get_assignments, has_existsb. Qed.

(** ** Reads of the local store *)

Lemma getFromStorage_unreadable {T} `{Serializable T} (slot : option (item T)) (d : T) :
  unreadable slot = true -> getFromStorage slot d = d.
Proof.
  destruct slot as [ [raw | v] | ]; simpl; intros Hu; try discriminate.
  - now destruct (negb (String.eqb raw "")).
  - reflexivity.
Qed.

(** What a collection read returns is already in serialised form. *)
Lemma collection_normal (slot : option (item (list obj))) :
  map json_obj (getFromStorage slot []) = getFromStorage slot [].
Proof.
  destruct slot as [ [raw | v] | ]; simpl.
  - now destruct (negb (String.eqb raw "")).
  - apply roundtrip_objs_idempotent.
  - reflexivity.
Qed.

Lemma getItem_setItem (k k' : STORAGE_KEYS) (it : item (list obj)) (s : Storage) :
  getItem k' (setItem k it s) =
  match k, k' with
  | USERS, USERS | STUDENTS, STUDENTS | ADAPTATIONS, ADAPTATIONS | REPORTS, REPORTS => Some it
  | _, _ => getItem k' s
  end.
Proof. destruct k, k'; reflexivity. Qed.

Lemma read_after_setToStorage (k : STORAGE_KEYS) (value : list obj) (s : Storage) :
  getFromStorage (getItem k (setToStorage k value s)) [] = map json_obj value.
Proof. destruct k; reflexivity. Qed.

Lemma filter_normal (p : obj -> bool) (l : list obj) :
  map json_obj l = l -> map json_obj (filter p l) = filter p l.
Proof.
  induction l as [ | o rest IH ]; simpl; intros Hn; [ reflexivity | ].
  injection Hn as Ho Hrest.
  destruct (p o); simpl; [ rewrite Ho | ]; now rewrite IH.
Qed.

(** C10. Reads of the local store never throw: when the stored value is
    missing or is not parseable JSON, every [getAll] falls back to the empty
    collection, and so [getById] finds nothing, as do the reads by student
    and the read of the current user. *)
Theorem reads_fall_back_to_default (s : Storage) (k : STORAGE_KEYS) (id : string) :
  unreadable (getItem k s) = true ->
  collection k s = []
  /\ match k with
     | USERS => True
     | STUDENTS =>
         studentStorage.getById id s = None /\ getStudentReport id s = None
     | ADAPTATIONS => adaptationStorage.getByStudent id s = []
     | REPORTS => reportStorage.getByStudent id s = []
     end.
Proof.
  intros Hu.
  assert (Hall : collection k s = []).
  { destruct k; apply (getFromStorage_unreadable _ _ Hu). }
  split; [ exact Hall | ].
  destruct k; simpl in Hall.
  - exact I.
  - unfold getStudentReport, studentStorage.getById. rewrite Hall. now split.
  - unfold adaptationStorage.getByStudent. now rewrite Hall.
  - unfold reportStorage.getByStudent. now rewrite Hall.
Qed.

Lemma reads_fall_back_to_default_witness :
  unreadable (getItem STUDENTS corrupted_storage) = true
  /\ collection STUDENTS corrupted_storage = []
  /\ studentStorage.getById "1" corrupted_storage = None.
Proof.
  split; [ reflexivity | ].
  destruct (reads_fall_back_to_default corrupted_storage STUDENTS "1" eq_refl)
    as [Hall [Hby _]].
  split; assumption.
Defined.

(** ** Deleting a student *)

Lemma filter_length_all {A} (p : A -> bool) (l : list A) :
  (length (filter p l) =? length l)%nat = forallb p l.
Proof.
  induction l as [ | x rest IH ]; simpl; [ reflexivity | ].
  destruct (p x); simpl; [ exact IH | ].
  pose proof (filter_length_le p rest) as Hle.
  apply Nat.eqb_neq. lia.
Qed.

Lemma forallb_negb_existsb {A} (p : A -> bool) (l : list A) :
  forallb (fun x => negb (p x)) l = negb (existsb p l).
Proof.
  induction l as [ | x rest IH ]; simpl; [ reflexivity | ].
  rewrite IH. now destruct (p x).
Qed.

Lemma find_filter_negb {A} (p : A -> bool) (l : list A) :
  find p (filter (fun x => negb (p x)) l) = None.
Proof.
  induction l as [ | x rest IH ]; simpl; [ reflexivity | ].
  destruct (p x) eqn:E; simpl; [ exact IH | now rewrite E ].
Qed.

Lemma filter_filter_negb {A} (p : A -> bool) (l : list A) :
  filter p (filter (fun x => negb (p x)) l) = [].
Proof.
  induction l as [ | x rest IH ]; simpl; [ reflexivity | ].
  destruct (p x) eqn:E; simpl; [ exact IH | now rewrite E ].
Qed.

(** C3. Deleting a student from the local store returns [true] exactly when
    a student with that id was stored.  In that case the student, every
    adaptation and every report whose [studentId] is that id are removed,
    and nothing else is; otherwise the store is left as it was.  The
    operation reads and writes the local store only. *)
Theorem delete_student_cascades (s : Storage) (id : string) :
  let deleted := fst (studentStorage.delete id s) in
  let s' := snd (studentStorage.delete id s) in
  deleted = existsb (fun st => is_str (get st "id") id) (studentStorage.getAll s)
  /\ if deleted then
       studentStorage.getAll s' =
         filter (fun st => negb (is_str (get st "id") id)) (studentStorage.getAll s)
       /\ adaptationStorage.getAll s' =
            filter (fun a => negb (is_str (get a "studentId") id))
                   (adaptationStorage.getAll s)
       /\ reportStorage.getAll s' =
            filter (fun r => negb (is_str (get r "studentId") id))
                   (reportStorage.getAll s)
       /\ studentStorage.getById id s' = None
       /\ adaptationStorage.getByStudent id s' = []
       /\ reportStorage.getByStudent id s' = []
       /\ getLocalUsers s' = getLocalUsers s
       /\ adaptacao_current_user s' = adaptacao_current_user s
       /\ token s' = token s /\ user s' = user s
     else s' = s.
Proof.
  cbv zeta. unfold studentStorage.delete.
  rewrite filter_length_all, forallb_negb_existsb.
  destruct (existsb _ (studentStorage.getAll s)) eqn:Hex; cbn [negb fst snd].
  - split; [ reflexivity | ].
    assert (Hst : studentStorage.getAll
                    (reportStorage.deleteByStudent id
                       (adaptationStorage.deleteByStudent id
                          (setToStorage STUDENTS
                             (filter (fun st => negb (is_str (get st "id") id))
                                     (studentStorage.getAll s)) s))) =
                  filter (fun st => negb (is_str (get st "id") id))
                         (studentStorage.getAll s)).
    { unfold studentStorage.getAll at 1. simpl.
      apply filter_normal, collection_normal. }
    assert (Had : adaptationStorage.getAll
                    (reportStorage.deleteByStudent id
                       (adaptationStorage.deleteByStudent id
                          (setToStorage STUDENTS
                             (filter (fun st => negb (is_str (get st "id") id))
                                     (studentStorage.getAll s)) s))) =
                  filter (fun a => negb (is_str (get a "studentId") id))
                         (adaptationStorage.getAll s)).
    { unfold adaptationStorage.getAll at 1. simpl.
      apply filter_normal, collection_normal. }
    assert (Hre : reportStorage.getAll
                    (reportStorage.deleteByStudent id
                       (adaptationStorage.deleteByStudent id
                          (setToStorage STUDENTS
                             (filter (fun st => negb (is_str (get st "id") id))
                                     (studentStorage.getAll s)) s))) =
                  filter (fun r => negb (is_str (get r "studentId") id))
                         (reportStorage.getAll s)).
    { unfold reportStorage.getAll at 1. simpl.
      apply filter_normal, collection_normal. }
    repeat split; try assumption.
    + unfold studentStorage.getById. rewrite Hst.
      apply (find_filter_negb (fun st => is_str (get st "id") id)).
    + unfold adaptationStorage.getByStudent. rewrite Had.
      apply (filter_filter_negb (fun a => is_str (get a "studentId") id)).
    + unfold reportStorage.getByStudent. rewrite Hre.
      apply (filter_filter_negb (fun r => is_str (get r "studentId") id)).
  - split; reflexivity.
Qed.

(** ** Updating a record *)

Lemma findIndex_Some {A} (p : A -> bool) (l : list A) (i : nat) (d : A) :
  findIndex p l = Some i -> (i < length l)%nat /\ p (nth i l d) = true.
Proof.
  revert i. induction l as [ | x rest IH ]; simpl; intros i Hf; [ discriminate | ].
  destruct (p x) eqn:Epx.
  - injection Hf as <-. split; [ lia | exact Epx ].
  - destruct (findIndex p rest) as [ j | ]; [ | discriminate ].
    injection Hf as <-. destruct (IH j eq_refl) as [Hlt Hp].
    split; [ lia | exact Hp ].
Qed.

Lemma findIndex_None {A} (p : A -> bool) (l : list A) :
  findIndex p l = None -> existsb p l = false.
Proof.
  induction l as [ | x rest IH ]; simpl; intros Hf; [ reflexivity | ].
  destruct (p x); [ discriminate | ].
  destruct (findIndex p rest); [ discriminate | ]. now apply IH.
Qed.

Lemma map_assign {A B} (f : A -> B) (l : list A) (i : nat) (x : A) :
  map f (assign l i x) = assign (map f l) i (f x).
Proof.
  revert i. induction l as [ | y rest IH ]; intros [ | i ]; simpl;
    try reflexivity.
  now rewrite IH.
Qed.

Lemma nth_assign {A} (l : list A) (i : nat) (x d : A) :
  (i < length l)%nat -> nth i (assign l i x) d = x.
Proof.
  revert i. induction l as [ | y rest IH ]; intros [ | i ]; simpl; intros Hlt;
    try lia; [ reflexivity | apply IH; lia ].
Qed.

Lemma length_assign {A} (l : list A) (i : nat) (x : A) :
  length (assign l i x) = length l.
Proof.
  revert i. induction l as [ | y rest IH ]; intros [ | i ]; simpl;
    try reflexivity.
  now rewrite IH.
Qed.

Section Updates.
Context `{Platform}.

Lemma student_update_found (id : string) (updates : obj) (w : World) (i : nat) :
  findIndex (fun st => is_str (get st "id") id) (studentStorage.getAll (ls w)) = Some i ->
  studentStorage.update id updates w =
  (Returned (Some (student_updated id updates w i)),
   {| ls := setToStorage STUDENTS
              (assign (studentStorage.getAll (ls w)) i (student_updated id updates w i))
              (ls w);
      clock := S (clock w); sent := sent w; toasts := toasts w |}).
Proof.
  intros Hi. unfold studentStorage.update, bind, read. cbn [ls].
  rewrite Hi. reflexivity.
Qed.

Lemma adaptation_update_found (id : string) (updates : obj) (w : World) (i : nat) :
  findIndex (fun a => is_str (get a "id") id) (adaptationStorage.getAll (ls w)) = Some i ->
  adaptationStorage.update id updates w =
  (Returned (Some (stamped id updates w (nth i (adaptationStorage.getAll (ls w)) []))),
   {| ls := setToStorage ADAPTATIONS
              (assign (adaptationStorage.getAll (ls w)) i
                      (stamped id updates w (nth i (adaptationStorage.getAll (ls w)) [])))
              (ls w);
      clock := S (clock w); sent := sent w; toasts := toasts w |}).
Proof.
  intros Hi. unfold adaptationStorage.update, bind, read. cbn [ls].
  rewrite Hi. reflexivity.
Qed.

Lemma report_update_found (id : string) (updates : obj) (w : World) (i : nat) :
  findIndex (fun r => is_str (get r "id") id) (reportStorage.getAll (ls w)) = Some i ->
  reportStorage.update id updates w =
  (Returned (Some (stamped id updates w (nth i (reportStorage.getAll (ls w)) []))),
   {| ls := setToStorage REPORTS
              (assign (reportStorage.getAll (ls w)) i
                      (stamped id updates w (nth i (reportStorage.getAll (ls w)) [])))
              (ls w);
      clock := S (clock w); sent := sent w; toasts := toasts w |}).
Proof.
  intros Hi. unfold reportStorage.update, bind, read. cbn [ls].
  rewrite Hi. reflexivity.
Qed.

Lemma get_stamped (id : string) (updates : obj) (w : World) (old : obj) (k : string) :
  get (stamped id updates w old) k = expected_field id updates w old None k.
Proof.
  unfold stamped, expected_field.
  rewrite !get_set, get_spread.
  rewrite (String.eqb_sym k "id"), (String.eqb_sym k "updatedAt"),
    (String.eqb_sym k "updatedBy").
  destruct (String.eqb "id" k) eqn:E2;
    [ apply String.eqb_eq in E2; subst k; reflexivity | ].
  destruct (String.eqb "updatedAt" k) eqn:E1;
    [ apply String.eqb_eq in E1; subst k; reflexivity | ].
  destruct (String.eqb "updatedBy" k) eqn:E3;
    [ apply String.eqb_eq in E3; subst k | ]; reflexivity.
Qed.

Lemma get_student_updated (id : string) (updates : obj) (w : World) (i : nat) (k : string) :
  get (student_updated id updates w i) k =
  expected_field id updates w (nth i (studentStorage.getAll (ls w)) [])
                 (Some (opt_get (authStorage.getCurrentUser (ls w)) "id")) k.
Proof.
  unfold student_updated, stamped, expected_field.
  rewrite !get_set, get_spread.
  rewrite (String.eqb_sym k "id"), (String.eqb_sym k "updatedAt"),
    (String.eqb_sym k "updatedBy").
  destruct (String.eqb "id" k) eqn:E2;
    [ apply String.eqb_eq in E2; subst k; reflexivity | ].
  destruct (String.eqb "updatedAt" k) eqn:E1;
    [ apply String.eqb_eq in E1; subst k; reflexivity | ].
  destruct (String.eqb "updatedBy" k) eqn:E3;
    [ apply String.eqb_eq in E3; subst k | ]; reflexivity.
Qed.

End Updates.

Lemma collection_after_assign (key : STORAGE_KEYS) (s : Storage) (i : nat) (r : obj) :
  collection key (setToStorage key (assign (collection key s) i r) s) =
  assign (collection key s) i (json_obj r).
Proof.
  assert (Hn : map json_obj (collection key s) = collection key s)
    by (destruct key; apply collection_normal).
  assert (Hread : collection key (setToStorage key (assign (collection key s) i r) s) =
                  map json_obj (assign (collection key s) i r))
    by (destruct key; reflexivity).
  rewrite Hread, map_assign, Hn. reflexivity.
Qed.

Lemma getItem_other (key k' : STORAGE_KEYS) (value : list obj) (s : Storage) :
  same_key key k' = false -> getItem k' (setToStorage key value s) = getItem k' s.
Proof. destruct key, k'; simpl; intros Hk; (discriminate || reflexivity). Qed.

(** The first record satisfying [p], found by position: the list splits
    around it. *)
Lemma findIndex_split {A} (p : A -> bool) (l : list A) (i : nat) (d : A) :
  findIndex p l = Some i ->
  exists before after,
    l = (before ++ nth i l d :: after)%list
    /\ p (nth i l d) = true
    /\ Forall (fun x => p x = false) before
    /\ (forall v, assign l i v = (before ++ v :: after)%list)
    /\ existsb p l = true.
Proof.
  revert i. induction l as [ | x rest IH ]; simpl; intros i Hf; [ discriminate | ].
  destruct (p x) eqn:Epx.
  - injection Hf as <-. exists [], rest. simpl. now repeat split.
  - destruct (findIndex p rest) as [ j | ]; [ | discriminate ].
    injection Hf as <-. destruct (IH j eq_refl) as [before [after [Hl [Hp [Hb [Ha He]]]]]].
    exists (x :: before), after. simpl.
    split; [ now rewrite <- Hl | ].
    split; [ exact Hp | ].
    split; [ now constructor | ].
    split; [ intros v; now rewrite Ha | exact He ].
Qed.

(** C9. [update(id, partial)] of each local collection: when a record with
    that id is stored, the record returned has identifier [id] whatever the
    partial says, carries the [updatedAt] stamp (and, for a student, the
    [updatedBy] stamp, the id of the current user), holds the partial's
    value in every other field the partial has and the stored value in every
    field it has not, and replaces the first stored record of that id in
    place; when no record has that id, [update] returns [null] and the store
    is unchanged. *)
Theorem update_keeps_id_and_frame `{Platform} (id : string) (updates : obj) (w : World) :
  updated_as_specified STUDENTS
    (Some (opt_get (authStorage.getCurrentUser (ls w)) "id")) id updates w
    (studentStorage.update id updates w)
  /\ updated_as_specified ADAPTATIONS None id updates w
       (adaptationStorage.update id updates w)
  /\ updated_as_specified REPORTS None id updates w
       (reportStorage.update id updates w).
Proof.
  unfold updated_as_specified. split; [ | split ].
  - destruct (findIndex (fun x => is_str (get x "id") id) (collection STUDENTS (ls w)))
      as [ i | ] eqn:Hi.
    + destruct (findIndex_split _ _ [] Hi) as [before [after [Hl [Hp [Hb [Ha He]]]]]].
      rewrite He.
      exists before, (nth i (collection STUDENTS (ls w)) []), after,
        (student_updated id updates w i).
      eexists.
      split; [ exact Hl | ]. split; [ exact Hp | ]. split; [ exact Hb | ].
      split; [ apply (student_update_found id updates w Hi) | ].
      split; [ intros k; apply get_student_updated | ].
      cbn [ls].
      split; [ rewrite <- Ha; apply (collection_after_assign STUDENTS) | ].
      split; [ intros k' Hk; now apply getItem_other | ].
      repeat split.
    + rewrite (findIndex_None _ _ Hi).
      unfold studentStorage.update, bind, read. cbn [ls].
      unfold collection in Hi. now rewrite Hi.
  - destruct (findIndex (fun x => is_str (get x "id") id) (collection ADAPTATIONS (ls w)))
      as [ i | ] eqn:Hi.
    + destruct (findIndex_split _ _ [] Hi) as [before [after [Hl [Hp [Hb [Ha He]]]]]].
      rewrite He.
      exists before, (nth i (collection ADAPTATIONS (ls w)) []), after.
      eexists. eexists.
      split; [ exact Hl | ]. split; [ exact Hp | ]. split; [ exact Hb | ].
      split; [ apply (adaptation_update_found id updates w Hi) | ].
      split; [ intros k; apply get_stamped | ].
      cbn [ls].
      split; [ rewrite <- Ha; apply (collection_after_assign ADAPTATIONS) | ].
      split; [ intros k' Hk; now apply getItem_other | ].
      repeat split.
    + rewrite (findIndex_None _ _ Hi).
      unfold adaptationStorage.update, bind, read. cbn [ls].
      unfold collection in Hi. now rewrite Hi.
  - destruct (findIndex (fun x => is_str (get x "id") id) (collection REPORTS (ls w)))
      as [ i | ] eqn:Hi.
    + destruct (findIndex_split _ _ [] Hi) as [before [after [Hl [Hp [Hb [Ha He]]]]]].
      rewrite He.
      exists before, (nth i (collection REPORTS (ls w)) []), after.
      eexists. eexists.
      split; [ exact Hl | ]. split; [ exact Hp | ]. split; [ exact Hb | ].
      split; [ apply (report_update_found id updates w Hi) | ].
      split; [ intros k; apply get_stamped | ].
      cbn [ls].
      split; [ rewrite <- Ha; apply (collection_after_assign REPORTS) | ].
      split; [ intros k' Hk; now apply getItem_other | ].
      repeat split.
    + rewrite (findIndex_None _ _ Hi).
      unfold reportStorage.update, bind, read. cbn [ls].
      unfold collection in Hi. now rewrite Hi.
Qed.

(** ** Seeding *)

Section SeedingProperties.
Context `{Platform}.

Lemma users_seeded (w : World) :
  getLocalUsers (ls w) = [] ->
  initializeDefaultUsers w =
  (Returned tt,
   with_ls (setToStorage USERS
              (defaultUsers (generatedId (clock w)) (generatedId (2 + clock w)))
              (ls w))
           (ticks 4 w)).
Proof.
  intros Hempty. unfold initializeDefaultUsers, bind, read.
  unfold getLocalUsers in Hempty. rewrite Hempty. reflexivity.
Qed.

Lemma users_kept (w : World) :
  getLocalUsers (ls w) <> [] -> initializeDefaultUsers w = (Returned tt, w).
Proof.
  intros Hsome. unfold initializeDefaultUsers, bind, read.
  unfold getLocalUsers in Hsome.
  destruct (getFromStorage (getItem USERS (ls w)) []); [ now contradiction Hsome | ].
  reflexivity.
Qed.

Lemma data_seeded (w : World) :
  studentStorage.getAll (ls w) = [] ->
  initializeDefaultData w =
  (Returned tt, with_ls (seeded_data (clock w) (ls w)) (ticks 14 w)).
Proof.
  intros Hempty. unfold initializeDefaultData, bind, read.
  unfold studentStorage.getAll in Hempty. rewrite Hempty. reflexivity.
Qed.

Lemma data_kept (w : World) :
  studentStorage.getAll (ls w) <> [] -> initializeDefaultData w = (Returned tt, w).
Proof.
  intros Hsome. unfold initializeDefaultData, bind, read.
  unfold studentStorage.getAll in Hsome.
  destruct (getFromStorage (getItem STUDENTS (ls w)) []); [ now contradiction Hsome | ].
  reflexivity.
Qed.

End SeedingProperties.

Section SeedingResults.
Context `{Platform}.

Lemma generatedId_truthy (c : nat) (d : jsval) :
  or_ (JStr (generatedId c)) d = JStr (generatedId c).
Proof. unfold or_, generatedId. simpl. now destruct (decimal _). Qed.

Lemma seeded_data_users (c : nat) (s : Storage) :
  getLocalUsers (seeded_data c s) = getLocalUsers s.
Proof. reflexivity. Qed.

Lemma seeded_data_students (c : nat) (s : Storage) :
  studentStorage.getAll (seeded_data c s) =
  map json_obj
      (sampleStudents (generatedId c) (isoNow (2 + c)) (generatedId (3 + c))
         (isoNow (5 + c))
         (find (fun u => is_str (get u "role") "coordenador") (getLocalUsers s))).
Proof. reflexivity. Qed.

Lemma seeded_data_adaptations (c : nat) (s : Storage) :
  adaptationStorage.getAll (seeded_data c s) =
  adaptationStorage.getAll s ++
  [ json_obj
      (sampleAdaptation (generatedId (6 + c)) (JStr (generatedId c))
         (isoNow (8 + c)) (isoNow (9 + c))
         (find (fun u => is_str (get u "role") "coordenador") (getLocalUsers s))) ].
Proof.
  unfold seeded_data.
  change (adaptationStorage.getAll
            (setToStorage REPORTS ?v (setToStorage ADAPTATIONS ?a ?s1)))
    with (map json_obj a).
  rewrite map_app.
  change (adaptationStorage.getAll (setToStorage STUDENTS ?v s))
    with (adaptationStorage.getAll s).
  unfold adaptationStorage.getAll. rewrite collection_normal. reflexivity.
Qed.

Lemma seeded_data_reports (c : nat) (s : Storage) :
  reportStorage.getAll (seeded_data c s) =
  reportStorage.getAll s ++
  [ json_obj
      (sampleReport (generatedId (10 + c)) (JStr (generatedId c))
         (isoNow (12 + c)) (isoNow (13 + c))
         (find (fun u => is_str (get u "role") "professor") (getLocalUsers s))) ].
Proof.
  unfold seeded_data.
  change (reportStorage.getAll (setToStorage REPORTS ?v ?s2)) with (map json_obj v).
  rewrite map_app.
  change (reportStorage.getAll (setToStorage ADAPTATIONS ?a (setToStorage STUDENTS ?v s)))
    with (reportStorage.getAll s).
  unfold reportStorage.getAll. rewrite collection_normal. reflexivity.
Qed.

End SeedingResults.

Section SeedingTheorem.
Context `{Platform}.

Lemma initializers_run (w : World) :
  initializers w = initializeDefaultData (snd (initializeDefaultUsers w)).
Proof.
  unfold initializers, bind.
  destruct (getLocalUsers (ls w)) as [ | u us ] eqn:Hu.
  - now rewrite (users_seeded w Hu).
  - rewrite (users_kept w); [ reflexivity | congruence ].
Qed.

Lemma users_after_seeding (w : World) :
  getLocalUsers (ls (snd (initializeDefaultUsers w))) <> []
  /\ prefix (getLocalUsers (ls w)) (getLocalUsers (ls (snd (initializeDefaultUsers w))))
  /\ (forall k, same_key USERS k = false ->
                collection k (ls (snd (initializeDefaultUsers w))) = collection k (ls w)).
Proof.
  destruct (getLocalUsers (ls w)) as [ | u us ] eqn:Hu.
  - rewrite (users_seeded w Hu). cbn [snd].
    split; [ discriminate | ].
    split; [ eexists; reflexivity | ].
    intros k Hk. destruct k; (discriminate || reflexivity).
  - rewrite (users_kept w) by congruence. cbn [snd]. rewrite Hu.
    split; [ discriminate | ].
    split; [ exists []; now rewrite app_nil_r | reflexivity ].
Qed.

Lemma data_after_seeding (w : World) :
  studentStorage.getAll (ls (snd (initializeDefaultData w))) <> []
  /\ (forall k, prefix (collection k (ls w))
                       (collection k (ls (snd (initializeDefaultData w))))).
Proof.
  destruct (studentStorage.getAll (ls w)) as [ | st sts ] eqn:Hs.
  - rewrite (data_seeded w Hs). cbn [snd with_ls ls].
    split; [ rewrite seeded_data_students; discriminate | ].
    intros k. destruct k; unfold collection.
    + rewrite seeded_data_users. exists []. now rewrite app_nil_r.
    + rewrite Hs. eexists. reflexivity.
    + rewrite seeded_data_adaptations. eexists. reflexivity.
    + rewrite seeded_data_reports. eexists. reflexivity.
  - rewrite (data_kept w) by congruence. cbn [snd]. rewrite Hs.
    split; [ discriminate | ].
    intros k. exists []. now rewrite app_nil_r.
Qed.

Lemma prefix_trans (a b c : list obj) : prefix a b -> prefix b c -> prefix a c.
Proof.
  intros [x ->] [y ->]. exists (x ++ y). now rewrite app_assoc.
Qed.

(** C8. From an empty store the initializers leave exactly two users, one
    coordinator and one teacher, two students, one adaptation and one
    report; the adaptation and the report belong to the first student, and
    the records name the seeded users as their authors.  On any store, each
    seeding runs only when its collection is empty, no stored record is lost
    or altered, and running the initializers a second time changes nothing. *)
Theorem seeding_is_complete_and_idempotent
        (c : nat) (q : list Request) (t : list Toast) (w : World) :
  let s0 :=
    ls (snd (initializers {| ls := empty_storage; clock := c; sent := q; toasts := t |})) in
  (exists coordinator professor student1 student2 adaptation report,
      getLocalUsers s0 = [coordinator; professor]
      /\ get coordinator "role" = JStr "coordenador"
      /\ get professor "role" = JStr "professor"
      /\ studentStorage.getAll s0 = [student1; student2]
      /\ adaptationStorage.getAll s0 = [adaptation]
      /\ reportStorage.getAll s0 = [report]
      /\ get adaptation "studentId" = get student1 "id"
      /\ get report "studentId" = get student1 "id"
      /\ get student1 "createdBy" = get coordinator "id"
      /\ get student2 "createdBy" = get coordinator "id"
      /\ get adaptation "createdBy" = get coordinator "id"
      /\ get report "teacherId" = get professor "id"
      /\ truthy (get coordinator "id") = true
      /\ truthy (get professor "id") = true
      /\ truthy (get student1 "id") = true)
  /\ (getLocalUsers (ls w) = [] \/ initializeDefaultUsers w = (Returned tt, w))
  /\ (studentStorage.getAll (ls w) = [] \/ initializeDefaultData w = (Returned tt, w))
  /\ (forall k, prefix (collection k (ls w)) (collection k (ls (snd (initializers w)))))
  /\ initializers (snd (initializers w)) = (Returned tt, snd (initializers w)).
Proof.
  cbv zeta. split; [ | split; [ | split; [ | split ] ] ].
  - unfold initializers, bind.
    rewrite users_seeded by reflexivity.
    rewrite data_seeded by reflexivity.
    cbn [snd ls with_ls ticks clock].
    rewrite seeded_data_users, seeded_data_students, seeded_data_adaptations,
      seeded_data_reports.
    change (getLocalUsers (setToStorage USERS ?v empty_storage)) with (map json_obj v).
    do 6 eexists.
    split; [ reflexivity | ].
    split; [ reflexivity | ].
    split; [ reflexivity | ].
    split; [ reflexivity | ].
    split; [ reflexivity | ].
    split; [ reflexivity | ].
    split; [ reflexivity | ].
    split; [ reflexivity | ].
    change (find (fun u => is_str (get u "role") "coordenador")
                 (map json_obj (defaultUsers (generatedId c) (generatedId (2 + c)))))
      with (Some (nth 0 (defaultUsers (generatedId c) (generatedId (2 + c))) [])).
    change (find (fun u => is_str (get u "role") "professor")
                 (map json_obj (defaultUsers (generatedId c) (generatedId (2 + c)))))
      with (Some (nth 1 (defaultUsers (generatedId c) (generatedId (2 + c))) [])).
    unfold sampleStudents, sampleAdaptation, sampleReport, defaultUsers.
    cbn [nth opt_get].
    change (get (?p :: ?rest) "id") with (snd p).
    cbn [snd].
    rewrite !generatedId_truthy.
    repeat split; try reflexivity;
      unfold generatedId; simpl; now destruct (decimal _).
  - destruct (getLocalUsers (ls w)) as [ | u us ] eqn:Hu; [ now left | right ].
    apply users_kept. congruence.
  - destruct (studentStorage.getAll (ls w)) as [ | st sts ] eqn:Hs; [ now left | right ].
    apply data_kept. congruence.
  - intros k. rewrite initializers_run.
    destruct (users_after_seeding w) as [_ [Hpre Hother]].
    destruct (data_after_seeding (snd (initializeDefaultUsers w))) as [_ Hdata].
    apply prefix_trans with (collection k (ls (snd (initializeDefaultUsers w))));
      [ | apply Hdata ].
    destruct k; try (rewrite Hother by reflexivity; exists []; now rewrite app_nil_r).
    exact Hpre.
  - rewrite (initializers_run w).
    destruct (users_after_seeding w) as [Husers [_ Hother]].
    destruct (data_after_seeding (snd (initializeDefaultUsers w))) as [Hstudents Hdata].
    set (w2 := snd (initializeDefaultData (snd (initializeDefaultUsers w)))) in *.
    assert (Husers2 : getLocalUsers (ls w2) <> []).
    { destruct (Hdata USERS) as [extra Hx]. simpl in Hx. rewrite Hx.
      destruct (getLocalUsers (ls (snd (initializeDefaultUsers w))));
        [ now contradiction Husers | discriminate ]. }
    rewrite (initializers_run w2), (users_kept w2 Husers2). cbn [snd].
    now apply data_kept.
Qed.

End SeedingTheorem.

(** ** Sign-in *)

Lemma known_locally_valid (email password : string) :
  existsb (fun cred => String.eqb (fst cred) email && String.eqb (snd cred) password)
          authStorage.validCredentials
  = known_locally email password.
Proof.
  unfold known_locally, authStorage.validCredentials. cbn [existsb fst snd].
  rewrite (String.eqb_sym "coordenador@escola.com"), (String.eqb_sym "coord123"),
    (String.eqb_sym "professor@escola.com"), (String.eqb_sym "prof123").
  now rewrite orb_false_r.
Qed.

Lemma authStorage_signIn_spec (email password : string) (s : Storage) :
  authStorage.signIn email password s =
  if known_locally email password then
    match find (fun u => is_str (get u "email") email) (getLocalUsers s) with
    | Some u => (Some u, set_current_user (Some (Json (Some u))) s)
    | None => (None, s)
    end
  else (None, s).
Proof.
  unfold authStorage.signIn. rewrite known_locally_valid.
  now destruct (known_locally email password).
Qed.

Section SignIn.
Context `{Platform} `{Remote}.

(** A stage that did not produce a session left the store as it was. *)
Lemma session_stage_failed (email password : string) (w w' : World) :
  try_catch (AuthContext.session_stage email password) (fun _ => ret None) w
    = (Returned None, w') ->
  ls w' = ls w.
Proof.
  unfold try_catch, AuthContext.session_stage.
  destruct (supabase_signInWithPassword email password) as [ e | err tok ].
  - unfold throw, ret. intros Heq. now injection Heq as <-.
  - destruct (negb (truthy err) && truthy tok).
    + unfold bind, send.
      destruct (fetch (sent w) _) as [ msg | | status statusText text ].
      * unfold throw, ret. intros Heq. now injection Heq as <-.
      * unfold throw, ret. intros Heq. now injection Heq as <-.
      * destruct (ok status).
        -- unfold lift. destruct (res_json text) as [ body | e ].
           ++ destruct (member TypeError body "user") as [ body_user | e ].
              ** unfold write, ret. intros Heq. discriminate.
              ** unfold ret. intros Heq. now injection Heq as <-.
           ++ unfold ret. intros Heq. now injection Heq as <-.
        -- unfold ret. intros Heq. now injection Heq as <-.
    + unfold ret. intros Heq. now injection Heq as <-.
Qed.

Lemma lookup_stage_failed (email : string) (w w' : World) :
  try_catch (AuthContext.lookup_stage email) (fun _ => ret None) w
    = (Returned None, w') ->
  ls w' = ls w.
Proof.
  unfold try_catch, AuthContext.lookup_stage, bind, send.
  destruct (fetch (sent w) _) as [ msg | | status statusText text ].
  - unfold throw, ret. intros Heq. now injection Heq as <-.
  - unfold throw, ret. intros Heq. now injection Heq as <-.
  - destruct (ok status).
    + unfold lift. destruct (res_json text) as [ data | e ].
      * match goal with
        | |- context [match ?l with JArr items => _ | _ => _ end] =>
            destruct l as [ | | | | | items | ]
        end;
          try (cbn [truthy]; unfold ret; intros Heq; now injection Heq as <-).
        destruct (find_attempt (AuthContext.same_email email) items) as [ found | e ].
        -- destruct (truthy found).
           ++ unfold write, ret. intros Heq. discriminate.
           ++ unfold ret. intros Heq. now injection Heq as <-.
        -- unfold ret. intros Heq. now injection Heq as <-.
      * unfold ret. intros Heq. now injection Heq as <-.
    + unfold ret. intros Heq. now injection Heq as <-.
Qed.

End SignIn.

Section SignInFallback.
Context `{Platform} `{Remote}.

Lemma initializeDefaultUsers_returns (w : World) :
  initializeDefaultUsers w = (Returned tt, snd (initializeDefaultUsers w)).
Proof.
  destruct (getLocalUsers (ls w)) as [ | u us ] eqn:Hu.
  - now rewrite (users_seeded w Hu).
  - rewrite (users_kept w); [ reflexivity | congruence ].
Qed.

(** With every endpoint unreachable, neither remote stage yields a session. *)
Lemma unreachable_stages_fail (email password : string) (w : World) :
  unreachable_remote _ ->
  exists w2 w3,
    try_catch (AuthContext.session_stage email password) (fun _ => ret None) w
      = (Returned None, w2)
    /\ try_catch (AuthContext.lookup_stage email) (fun _ => ret None) w2
       = (Returned None, w3).
Proof.
  intros [Hfetch Hsession].
  destruct (Hsession email password) as [e He].
  exists w.
  destruct (Hfetch (sent w)
                   (GET (API_URL ++ "/users?email=" ++ encodeURIComponent email)))
    as [msg Hmsg].
  eexists. split.
  - unfold try_catch, AuthContext.session_stage. now rewrite He.
  - unfold try_catch, AuthContext.lookup_stage, bind, send. rewrite Hmsg. reflexivity.
Qed.

(** C7. When neither remote stage yields a session (as when every endpoint
    is unreachable), [signIn] decides on the local credential table alone:
    for a pair of the table whose user record is stored it returns that user
    and persists the session [mock-token-<id>] with it; for a pair of the
    table with no stored user, and for every other pair, it fails with the
    authentication error and persists nothing. *)
Theorem signIn_falls_back_to_local_credentials
        (email password : string) (w w2 w3 : World) :
  try_catch (AuthContext.session_stage email password) (fun _ => ret None)
            (snd (initializeDefaultUsers w)) = (Returned None, w2) ->
  try_catch (AuthContext.lookup_stage email) (fun _ => ret None) w2
    = (Returned None, w3) ->
  ls w3 = ls (snd (initializeDefaultUsers w))
  /\ if known_locally email password then
       match find (fun u => is_str (get u "email") email)
                  (getLocalUsers (ls (snd (initializeDefaultUsers w)))) with
       | Some u =>
           AuthContext.signIn email password w =
           (Returned (JObj u), with_ls (local_session u (ls w3)) w3)
           /\ token (local_session u (ls w3))
              = Some ("mock-token-" ++ String_ (get u "id"))%string
           /\ user (local_session u (ls w3)) = Some (Json (JObj u))
       | None => AuthContext.signIn email password w = (Thrown authentication_error, w3)
       end
     else AuthContext.signIn email password w = (Thrown authentication_error, w3).
Proof.
  intros Hsession Hlookup.
  assert (Hls : ls w3 = ls (snd (initializeDefaultUsers w))).
  { rewrite (lookup_stage_failed _ _ Hlookup).
    apply (session_stage_failed _ _ _ Hsession). }
  split; [ exact Hls | ].
  assert (Hrun : AuthContext.signIn email password w =
                 match authStorage.signIn email password (ls w3) with
                 | (Some u, s) =>
                     (Returned (JObj u),
                      with_ls (set_user (Some (Json (JObj u)))
                                 (set_token
                                    (Some ("mock-token-" ++ String_ (get u "id"))%string)
                                    s)) w3)
                 | (None, s) => (Thrown authentication_error, with_ls s w3)
                 end).
  { unfold AuthContext.signIn, bind.
    rewrite (initializeDefaultUsers_returns w), Hsession, Hlookup.
    unfold modify.
    destruct (authStorage.signIn email password (ls w3)) as [ [ u | ] s ];
      reflexivity. }
  rewrite Hrun, authStorage_signIn_spec, <- Hls.
  destruct (known_locally email password).
  - destruct (find _ (getLocalUsers (ls w3))) as [ u | ].
    + repeat split.
    + now destruct w3.
  - now destruct w3.
Qed.

End SignInFallback.

(** The scenario of the specification: nothing stored yet, every endpoint
    unreachable, the teacher signs in with the local password. *)
Lemma signIn_falls_back_to_local_credentials_witness :
  exists u w',
    @AuthContext.signIn sample_platform offline
                        "professor@escola.com" "prof123" fresh_world
      = (Returned (JObj u), w')
    /\ get u "role" = JStr "professor"
    /\ token (ls w') = Some ("mock-token-" ++ String_ (get u "id"))%string
    /\ user (ls w') = Some (Json (JObj u)).
Proof.
  pose proof (@signIn_falls_back_to_local_credentials sample_platform offline
                "professor@escola.com" "prof123" fresh_world
                _ _ eq_refl eq_refl) as [_ Hsigned].
  cbv beta iota in Hsigned.
  destruct Hsigned as [Hrun [Htoken Huser]].
  eexists. eexists.
  split; [ exact Hrun | ].
  split; [ reflexivity | ].
  split; [ exact Htoken | exact Huser ].
Defined.

(** ** The API client *)

Section ApiClient.
Context `{Remote}.

(** A call of [apiFetch] sends exactly one request and touches nothing else. *)
Lemma apiFetch_world (req : Request) (w : World) :
  snd (apiFetch req w) = after_request req w.
Proof.
  unfold apiFetch, bind, send.
  destruct (fetch (sent w) req) as [ msg | | status statusText text ];
    try reflexivity.
  now destruct (negb (ok status)).
Qed.

Lemma apiFetch_run (req : Request) (w : World) :
  apiFetch req w = (fst (apiFetch req w), after_request req w).
Proof. rewrite <- apiFetch_world. now destruct (apiFetch req w). Qed.

Lemma apiFetch_response (req : Request) (w : World) (status : Z) (statusText : string)
      (text : item jsval) :
  fetch (sent w) req = Response status statusText text ->
  apiFetch req w =
  (if ok status then Returned (response_data text)
   else Thrown (response_error status statusText text),
   after_request req w).
Proof.
  intros Hout. unfold apiFetch, bind, send. rewrite Hout.
  now destruct (ok status).
Qed.

End ApiClient.

(** ** Updating an adaptation from the form *)

Section AdaptationUpdate.
Context `{Platform} `{Remote}.

(** The local update depends on the store and the clock only. *)
Lemma adaptation_update_local (id : string) (updates : obj) (w w' : World) :
  ls w' = ls w -> clock w' = clock w ->
  fst (adaptationStorage.update id updates w') = fst (adaptationStorage.update id updates w)
  /\ ls (snd (adaptationStorage.update id updates w'))
     = ls (snd (adaptationStorage.update id updates w))
  /\ clock (snd (adaptationStorage.update id updates w'))
     = clock (snd (adaptationStorage.update id updates w))
  /\ sent (snd (adaptationStorage.update id updates w')) = sent w'
  /\ toasts (snd (adaptationStorage.update id updates w')) = toasts w'.
Proof.
  intros Hls Hclock.
  destruct (findIndex (fun a => is_str (get a "id") id)
                      (adaptationStorage.getAll (ls w))) as [ i | ] eqn:Hi.
  - assert (Hi' : findIndex (fun a => is_str (get a "id") id)
                            (adaptationStorage.getAll (ls w')) = Some i)
      by now rewrite Hls.
    rewrite (adaptation_update_found id updates w Hi),
      (adaptation_update_found id updates w' Hi').
    unfold stamped. cbn [fst snd ls clock sent toasts].
    rewrite Hls, Hclock. repeat split.
  - assert (Hnone : forall v : World,
               ls v = ls w -> adaptationStorage.update id updates v = (Returned None, v)).
    { intros v Hv. unfold adaptationStorage.update, bind, read. cbn [ls].
      rewrite Hv, Hi. reflexivity. }
    rewrite (Hnone w eq_refl), (Hnone w' Hls). cbn [fst snd].
    repeat split; assumption.
Qed.

(** The remote half of an update whose flat [PUT] is answered [404]: the
    nested path is tried once, and whatever it answers nothing is thrown. *)
Lemma update_retried_on_nested_path
      (studentId id : string) (formData : AdaptationForm.FormData) (w : World)
      (t : Z) (statusText : string) (text : item jsval) :
  Date_parse (AdaptationForm.date formData) = Some t ->
  fetch (sent w)
        (flat_put id (adaptation_update_payload formData (Date_toISOString t)))
    = Response 404 statusText text ->
  exists w',
    try_catch
      (iso <- Date_of_toISOString (AdaptationForm.date formData) ;;
       api.updateAdaptation studentId id
         (JObj (set (spread [] (AdaptationForm.formData_obj formData))
                    "date" (JStr iso))) ;;
       toast (toast_success "Adaptação atualizada com sucesso!"))
      (fun _ => ret tt) w = (Returned tt, w')
    /\ ls w' = ls w /\ clock w' = clock w
    /\ sent w' =
       sent w ++
       [ flat_put id (adaptation_update_payload formData (Date_toISOString t));
         nested_put studentId id
                    (adaptation_update_payload formData (Date_toISOString t)) ].
Proof.
  intros Hparse Hflat.
  unfold try_catch, bind at 1, Date_of_toISOString. rewrite Hparse. unfold ret at 1.
  change (JObj (set (spread [] (AdaptationForm.formData_obj formData))
                    "date" (JStr (Date_toISOString t))))
    with (adaptation_update_payload formData (Date_toISOString t)).
  unfold bind, api.updateAdaptation, try_catch.
  fold (flat_put id (adaptation_update_payload formData (Date_toISOString t))).
  fold (nested_put studentId id (adaptation_update_payload formData (Date_toISOString t))).
  rewrite (apiFetch_response _ _ Hflat).
  change (ok 404) with false. cbv iota.
  change (is_404 (response_error 404 statusText text)) with true. cbv iota.
  rewrite (apiFetch_run (nested_put _ _ _)).
  destruct (fst (apiFetch (nested_put studentId id _) _)) as [ res | e ].
  - eexists. split; [ reflexivity | ].
    cbn [ls clock sent toasts after_request]. rewrite <- app_assoc. repeat split.
  - eexists. split; [ reflexivity | ].
    cbn [ls clock sent toasts after_request]. rewrite <- app_assoc. repeat split.
Qed.

End AdaptationUpdate.

Section AdaptationUpdateTheorem.
Context `{Platform} `{Remote}.

(** A string field of the record built by [update] is read back from the
    store. *)
Lemma adaptation_field_stored (id : string) (updates : obj) (w : World) (i : nat)
      (k v : string) :
  findIndex (fun a => is_str (get a "id") id) (adaptationStorage.getAll (ls w)) = Some i ->
  get (stamped id updates w (nth i (adaptationStorage.getAll (ls w)) [])) k = JStr v ->
  get (nth i (adaptationStorage.getAll
                (ls (snd (adaptationStorage.update id updates w)))) []) k = JStr v.
Proof.
  intros Hi Hget.
  rewrite (adaptation_update_found id updates w Hi). cbn [snd ls].
  rewrite (collection_after_assign ADAPTATIONS).
  rewrite nth_assign by (apply (findIndex_Some _ _ [] Hi)).
  rewrite get_json_obj; rewrite Hget; [ reflexivity | discriminate ].
Qed.

(** C6. An update of an adaptation whose flat [PUT] is answered [404] is
    retried exactly once, on the nested path, and whatever the second answer
    is the form reports no error and the local store is what the local
    update alone makes of it: when the adaptation is stored locally, its
    copy holds the submitted description, justification and date under the
    same identifier. *)
Theorem adaptation_update_retries_then_writes_locally
        (studentId id : string) (formData : AdaptationForm.FormData) (w : World)
        (t : Z) (statusText : string) (text : item jsval) :
  AdaptationForm.description formData <> "" ->
  AdaptationForm.justification formData <> "" ->
  AdaptationForm.date formData <> "" ->
  Date_parse (AdaptationForm.date formData) = Some t ->
  fetch (sent w)
        (flat_put id (adaptation_update_payload formData (Date_toISOString t)))
    = Response 404 statusText text ->
  let iso := Date_toISOString t in
  let out := AdaptationForm.handleSubmit studentId (Some id) formData w in
  let local := adaptationStorage.update id (adaptation_local_fields formData iso) w in
  sent (snd out) =
    sent w ++ [ flat_put id (adaptation_update_payload formData iso);
                nested_put studentId id (adaptation_update_payload formData iso) ]
  /\ (exists updated,
         fst local = Returned updated
         /\ fst out = {| error := ""; onSuccess := Some updated |})
  /\ ls (snd out) = ls (snd local)
  /\ match findIndex (fun a => is_str (get a "id") id)
                     (adaptationStorage.getAll (ls w)) with
     | Some i =>
         let copy := nth i (adaptationStorage.getAll (ls (snd out))) [] in
         get copy "id" = JStr id
         /\ get copy "description" = JStr (AdaptationForm.description formData)
         /\ get copy "justification" = JStr (AdaptationForm.justification formData)
         /\ get copy "date" = JStr iso
     | None => ls (snd out) = ls w
     end.
Proof.
  intros Hdesc Hjust Hdate Hparse Hflat iso out local.
  destruct (update_retried_on_nested_path studentId id formData w Hparse Hflat)
    as [w' [Hremote [Hls [Hclock Hsent]]]].
  destruct (adaptation_update_local id (adaptation_local_fields formData iso) w w'
                                    Hls Hclock)
    as [Hfst [Hls' [_ [Hsent' _]]]].
  assert (Hout : out =
                 match adaptationStorage.update id (adaptation_local_fields formData iso) w'
                 with
                 | (Returned updated, w'') =>
                     ({| error := ""; onSuccess := Some updated |}, w'')
                 | (Thrown err, w'') =>
                     submit "Erro ao salvar adaptação" (throw err) w''
                 end).
  { unfold out, AdaptationForm.handleSubmit.
    apply String.eqb_neq in Hdesc, Hjust, Hdate.
    rewrite Hdesc, Hjust, Hdate. cbn [orb].
    unfold submit, bind at 1. rewrite Hremote.
    unfold bind at 1, Date_of_toISOString. rewrite Hparse. unfold ret at 1.
    fold iso. fold (adaptation_local_fields formData iso).
    destruct (adaptationStorage.update id (adaptation_local_fields formData iso) w')
      as [ [ updated | err ] w'' ]; reflexivity. }
  assert (Hreturns : exists updated, fst local = Returned updated).
  { unfold local.
    destruct (findIndex (fun a => is_str (get a "id") id)
                        (adaptationStorage.getAll (ls w))) as [ i | ] eqn:Hi.
    - rewrite (adaptation_update_found id _ w Hi). eexists. reflexivity.
    - unfold adaptationStorage.update, bind, read. cbn [ls]. rewrite Hi.
      eexists. reflexivity. }
  destruct Hreturns as [updated Hupdated].
  fold local in Hfst, Hls'. rewrite Hupdated in Hfst.
  destruct (adaptationStorage.update id (adaptation_local_fields formData iso) w')
    as [ r w'' ] eqn:Hrun.
  cbn [fst snd] in Hfst, Hls', Hsent'. subst r.
  rewrite Hout. cbn [fst snd].
  split; [ now rewrite Hsent', Hsent | ].
  split; [ exists updated; now split | ].
  split; [ exact Hls' | ].
  rewrite Hls'. unfold local.
  destruct (findIndex (fun a => is_str (get a "id") id)
                      (adaptationStorage.getAll (ls w))) as [ i | ] eqn:Hi.
  - cbv zeta.
    repeat split; apply (adaptation_field_stored id _ w _ Hi); rewrite get_stamped;
      reflexivity.
  - unfold adaptationStorage.update, bind, read. cbn [ls]. rewrite Hi. reflexivity.
Qed.

End AdaptationUpdateTheorem.

(** ** Creating records *)

Lemma or_string (s : string) : or_ (JStr s) (JStr "") = JStr s.
Proof.
  unfold or_. simpl. destruct (String.eqb s "") eqn:E; [ | reflexivity ].
  apply String.eqb_eq in E. now subst.
Qed.

Lemma truthy_string (s : string) : s <> "" -> truthy (JStr s) = true.
Proof. intros Hs. simpl. apply String.eqb_neq in Hs. now rewrite Hs. Qed.

Section Creation.
Context `{Platform}.

Lemma adaptation_create_run (data : obj) (w : World) :
  truthy (get data "date") = true ->
  adaptationStorage.create data w =
  (Returned (created_adaptation data w),
   with_ls (setToStorage ADAPTATIONS
              (adaptationStorage.getAll (ls w) ++ [created_adaptation data w]) (ls w))
           (ticks 3 w)).
Proof.
  intros Hdate. unfold adaptationStorage.create, bind, read, generateId, now, random36.
  cbn [ls tick clock ret]. rewrite Hdate. reflexivity.
Qed.

Lemma report_create_run (data : obj) (w : World) :
  truthy (get data "date") = true ->
  reportStorage.create data w =
  (Returned (created_report data w),
   with_ls (setToStorage REPORTS
              (reportStorage.getAll (ls w) ++ [created_report data w]) (ls w))
           (ticks 3 w)).
Proof.
  intros Hdate. unfold reportStorage.create, bind, read, generateId, now, random36.
  cbn [ls tick clock ret]. rewrite Hdate. reflexivity.
Qed.

Lemma student_create_run (data : obj) (w : World) :
  studentStorage.create data w =
  (Returned (created_student data w),
   with_ls (setToStorage STUDENTS
              (studentStorage.getAll (ls w) ++ [created_student data w]) (ls w))
           (ticks 3 w)).
Proof. reflexivity. Qed.

(** Appending a record to a collection and storing it. *)
Lemma collection_after_push (key : STORAGE_KEYS) (s : Storage) (r : obj) :
  collection key (setToStorage key (collection key s ++ [r]) s) =
  collection key s ++ [json_obj r].
Proof.
  assert (Hn : map json_obj (collection key s) = collection key s)
    by (destruct key; apply collection_normal).
  assert (Hread : collection key (setToStorage key (collection key s ++ [r]) s) =
                  map json_obj (collection key s ++ [r]))
    by (destruct key; reflexivity).
  rewrite Hread, map_app, Hn. reflexivity.
Qed.

End Creation.

Section OfflineCreation.
Context `{Platform} `{Remote}.

Lemma apiFetch_fails (req : Request) (w : World) :
  fails (fetch (sent w) req) = true ->
  exists e, apiFetch req w = (Thrown e, after_request req w).
Proof.
  intros Hfails. unfold apiFetch, bind, send.
  destruct (fetch (sent w) req) as [ msg | | status statusText text ].
  - eexists. reflexivity.
  - eexists. reflexivity.
  - simpl in Hfails. rewrite Hfails. eexists. reflexivity.
Qed.

(** The world after the adaptation form has saved [created] offline. *)
Lemma adaptation_saved_offline
      (studentId : string) (formData : AdaptationForm.FormData) (w : World) (t : Z) :
  AdaptationForm.description formData <> "" ->
  AdaptationForm.justification formData <> "" ->
  AdaptationForm.date formData <> "" ->
  Date_parse (AdaptationForm.date formData) = Some t ->
  Date_toISOString t <> "" ->
  fails (fetch (sent w) (adaptation_post studentId formData (Date_toISOString t))) = true ->
  let created :=
    created_adaptation (adaptation_data studentId formData (Date_toISOString t)) w in
  AdaptationForm.handleSubmit studentId None formData w =
  ({| error := ""; onSuccess := Some (Some created) |},
   {| ls := setToStorage ADAPTATIONS (adaptationStorage.getAll (ls w) ++ [created]) (ls w);
      clock := 3 + clock w;
      sent := sent w ++ [adaptation_post studentId formData (Date_toISOString t)];
      toasts := toasts w ++ [toast_success "Adaptação registrada localmente (offline)"] |}).
Proof.
  intros Hdesc Hjust Hdate Hparse Hiso Hfails created.
  destruct (apiFetch_fails _ w Hfails) as [e He].
  unfold AdaptationForm.handleSubmit.
  apply String.eqb_neq in Hdesc, Hjust, Hdate.
  rewrite Hdesc, Hjust, Hdate. cbn [orb].
  unfold submit, try_catch, bind at 1, Date_of_toISOString. rewrite Hparse.
  unfold ret at 1, bind at 1, api.createAdaptation.
  change (json_request "POST" (API_URL ++ "/adaptations") _)
    with (adaptation_post studentId formData (Date_toISOString t)).
  rewrite He.
  unfold bind at 1, ret at 1.
  fold (adaptation_data studentId formData (Date_toISOString t)).
  unfold bind at 1.
  rewrite adaptation_create_run by (apply truthy_string; exact Hiso).
  reflexivity.
Qed.

(** The world after the report form has saved [created] offline. *)
Lemma report_saved_offline
      (studentId : string) (formData : ReportForm.FormData) (w : World) (t : Z) :
  ReportForm.subject formData <> "" ->
  ReportForm.description formData <> "" ->
  ReportForm.date formData <> "" ->
  Date_parse (ReportForm.date formData) = Some t ->
  Date_toISOString t <> "" ->
  fails (fetch (sent w) (report_post studentId formData (Date_toISOString t))) = true ->
  let created :=
    created_report (report_data studentId formData (Date_toISOString t)) w in
  ReportForm.handleSubmit studentId None formData w =
  ({| error := ""; onSuccess := Some (Some created) |},
   {| ls := setToStorage REPORTS (reportStorage.getAll (ls w) ++ [created]) (ls w);
      clock := 3 + clock w;
      sent := sent w ++ [report_post studentId formData (Date_toISOString t)];
      toasts := toasts w ++ [toast_success "Relato registrado localmente (offline)"] |}).
Proof.
  intros Hsubj Hdesc Hdate Hparse Hiso Hfails created.
  destruct (apiFetch_fails _ w Hfails) as [e He].
  unfold ReportForm.handleSubmit.
  apply String.eqb_neq in Hsubj, Hdesc, Hdate.
  rewrite Hsubj, Hdesc, Hdate. cbn [orb].
  unfold submit, bind at 1, Date_of_toISOString. rewrite Hparse.
  unfold ret at 1, try_catch, bind at 1, api.createReport.
  change (json_request "POST" (API_URL ++ "/reports") _)
    with (report_post studentId formData (Date_toISOString t)).
  rewrite He.
  unfold bind at 1, ret at 1.
  fold (report_data studentId formData (Date_toISOString t)).
  unfold bind at 1.
  rewrite report_create_run by (apply truthy_string; exact Hiso).
  reflexivity.
Qed.

End OfflineCreation.

Section CreationTheorem.
Context `{Platform} `{Remote}.

(** A string field survives serialisation. *)
Lemma stored_string (o : obj) (k v : string) :
  get o k = JStr v -> get (json_obj o) k = JStr v.
Proof.
  intros Hget. rewrite get_json_obj; rewrite Hget; [ reflexivity | discriminate ].
Qed.

Lemma created_student_field (data : obj) (w : World) (k v : string) :
  In k student_fields -> get data k = JStr v ->
  get (created_student data w) k = JStr v.
Proof.
  unfold student_fields. intros Hin Hget.
  destruct Hin as [ <- | [ <- | [ <- | [ <- | [ <- | [ <- | [ <- | [] ] ] ] ] ] ] ];
    try exact Hget;
    match goal with
    | |- get (created_student data w) ?k = _ =>
        change (get (created_student data w) k) with (or_ (get data k) (JStr ""))
    end;
    rewrite Hget; apply or_string.
Qed.

(** C2, as amended.  A creation made through one of the two forms that
    write to the local store, the adaptation form and the dual-write report
    form, is still saved when its remote call fails: no error is reported,
    [onSuccess] receives the record created, the local collection gains one
    record, which holds the submitted fields under an identifier generated
    on the spot, and the only notice is that the record was saved offline.
    For students, the local [studentStorage.create], which makes no remote
    call, always returns and appends a record holding every submitted field
    under a generated identifier. *)
Theorem creation_survives_remote_failure :
  (forall (studentId : string) (formData : AdaptationForm.FormData) (w : World) (t : Z),
      AdaptationForm.description formData <> "" ->
      AdaptationForm.justification formData <> "" ->
      AdaptationForm.date formData <> "" ->
      Date_parse (AdaptationForm.date formData) = Some t ->
      Date_toISOString t <> "" ->
      fails (fetch (sent w) (adaptation_post studentId formData (Date_toISOString t)))
        = true ->
      let out := AdaptationForm.handleSubmit studentId None formData w in
      exists created stored,
        fst out = {| error := ""; onSuccess := Some (Some created) |}
        /\ adaptationStorage.getAll (ls (snd out))
           = adaptationStorage.getAll (ls w) ++ [stored]
        /\ get created "id" = JStr (generatedId (clock w))
        /\ get stored "id" = JStr (generatedId (clock w))
        /\ get stored "studentId" = JStr studentId
        /\ get stored "description" = JStr (AdaptationForm.description formData)
        /\ get stored "justification" = JStr (AdaptationForm.justification formData)
        /\ get stored "date" = JStr (Date_toISOString t)
        /\ toasts (snd out)
           = toasts w ++ [toast_success "Adaptação registrada localmente (offline)"])
  /\ (forall (studentId : string) (formData : ReportForm.FormData) (w : World) (t : Z),
         ReportForm.subject formData <> "" ->
         ReportForm.description formData <> "" ->
         ReportForm.date formData <> "" ->
         Date_parse (ReportForm.date formData) = Some t ->
         Date_toISOString t <> "" ->
         fails (fetch (sent w) (report_post studentId formData (Date_toISOString t)))
           = true ->
         let out := ReportForm.handleSubmit studentId None formData w in
         exists created stored,
           fst out = {| error := ""; onSuccess := Some (Some created) |}
           /\ reportStorage.getAll (ls (snd out)) = reportStorage.getAll (ls w) ++ [stored]
           /\ get created "id" = JStr (generatedId (clock w))
           /\ get stored "id" = JStr (generatedId (clock w))
           /\ get stored "studentId" = JStr studentId
           /\ get stored "subject" = JStr (ReportForm.subject formData)
           /\ get stored "result"
              = JStr (if String.eqb (ReportForm.result formData) "" then "neutro"
                      else ReportForm.result formData)
           /\ get stored "description" = JStr (ReportForm.description formData)
           /\ get stored "date" = JStr (Date_toISOString t)
           /\ toasts (snd out)
              = toasts w ++ [toast_success "Relato registrado localmente (offline)"])
  /\ (forall (data : obj) (w : World),
         let res := studentStorage.create data w in
         exists created stored,
           fst res = Returned created
           /\ studentStorage.getAll (ls (snd res)) = studentStorage.getAll (ls w) ++ [stored]
           /\ get created "id" = JStr (generatedId (clock w))
           /\ get stored "id" = JStr (generatedId (clock w))
           /\ (forall k v, In k student_fields -> get data k = JStr v ->
                           get created k = JStr v /\ get stored k = JStr v)).
Proof.
  split; [ | split ].
  - intros studentId formData w t Hdesc Hjust Hdate Hparse Hiso Hfails out.
    unfold out.
    rewrite (adaptation_saved_offline studentId formData w Hdesc Hjust Hdate Hparse
                                      Hiso Hfails).
    cbn [fst snd ls toasts].
    eexists. eexists.
    split; [ reflexivity | ].
    split; [ apply (collection_after_push ADAPTATIONS) | ].
    split; [ reflexivity | ].
    repeat split; apply stored_string; try reflexivity;
      match goal with
      | |- get (created_adaptation ?d ?w) ?k = _ =>
          change (get (created_adaptation d w) k) with (or_ (get d k) (JStr ""))
      end;
      apply or_string.
  - intros studentId formData w t Hsubj Hdesc Hdate Hparse Hiso Hfails out.
    unfold out.
    rewrite (report_saved_offline studentId formData w Hsubj Hdesc Hdate Hparse
                                  Hiso Hfails).
    cbn [fst snd ls toasts].
    eexists. eexists.
    split; [ reflexivity | ].
    split; [ apply (collection_after_push REPORTS) | ].
    split; [ reflexivity | ].
    repeat split; apply stored_string; try reflexivity;
      try (match goal with
           | |- get (created_report ?d ?w) ?k = _ =>
               change (get (created_report d w) k) with (or_ (get d k) (JStr ""))
           end;
           apply or_string).
    change (get (created_report _ _) "result")
      with (or_ (JStr (ReportForm.result formData)) (JStr "neutro")).
    unfold or_. cbn [truthy].
    now destruct (String.eqb (ReportForm.result formData) "").
  - intros data w res. unfold res. rewrite student_create_run.
    cbn [fst snd ls with_ls].
    eexists. eexists.
    split; [ reflexivity | ].
    split; [ apply (collection_after_push STUDENTS) | ].
    split; [ reflexivity | ].
    split; [ apply stored_string; reflexivity | ].
    intros k v Hin Hget.
    pose proof (created_student_field data w Hin Hget) as Hfield.
    split; [ exact Hfield | now apply stored_string ].
Qed.

End CreationTheorem.

(** ** The identifier of a created record *)

(** Whatever [data] holds, also under [id], the record created carries the
    identifier generated at that moment. *)
Lemma create_generates_id `{Platform} (data : obj) (w : World) :
  (exists r w', adaptationStorage.create data w = (Returned r, w')
                /\ get r "id" = JStr (generatedId (clock w)))
  /\ (exists r w', reportStorage.create data w = (Returned r, w')
                   /\ get r "id" = JStr (generatedId (clock w)))
  /\ (exists r w', studentStorage.create data w = (Returned r, w')
                   /\ get r "id" = JStr (generatedId (clock w))).
Proof.
  split; [ | split ].
  - unfold adaptationStorage.create, bind, read, generateId, now, random36.
    cbn [ls tick clock ret].
    destruct (truthy (get data "date")); eexists; eexists; split; reflexivity.
  - unfold reportStorage.create, bind, read, generateId, now, random36.
    cbn [ls tick clock ret].
    destruct (truthy (get data "date")); eexists; eexists; split; reflexivity.
  - rewrite student_create_run. eexists. eexists. split; reflexivity.
Qed.

(** The adaptation form when the server accepts the creation and answers
    with an identifier: the record saved locally is the one
    [adaptationStorage.create] builds, under the identifier it generates. *)
Lemma adaptation_saved_online `{Platform} `{Remote}
      (studentId : string) (formData : AdaptationForm.FormData) (w : World) (t : Z)
      (status : Z) (statusText : string) (text : item jsval) :
  AdaptationForm.description formData <> "" ->
  AdaptationForm.justification formData <> "" ->
  AdaptationForm.date formData <> "" ->
  Date_parse (AdaptationForm.date formData) = Some t ->
  Date_toISOString t <> "" ->
  fetch (sent w) (adaptation_post studentId formData (Date_toISOString t))
    = Response status statusText text ->
  ok status = true ->
  truthy (response_data text) = true ->
  truthy (prop (response_data text) "id") = true ->
  let created :=
    created_adaptation
      (("id", prop (response_data text) "id")
         :: adaptation_data studentId formData (Date_toISOString t)) w in
  AdaptationForm.handleSubmit studentId None formData w =
  ({| error := ""; onSuccess := Some (Some created) |},
   {| ls := setToStorage ADAPTATIONS (adaptationStorage.getAll (ls w) ++ [created]) (ls w);
      clock := 3 + clock w;
      sent := sent w ++ [adaptation_post studentId formData (Date_toISOString t)];
      toasts := toasts w ++ [toast_success "Adaptação registrada com sucesso!"] |})
  /\ get created "id" = JStr (generatedId (clock w)).
Proof.
  intros Hdesc Hjust Hdate Hparse Hiso Hout Hok Hres Hid created.
  split; [ | reflexivity ].
  unfold AdaptationForm.handleSubmit.
  apply String.eqb_neq in Hdesc, Hjust, Hdate.
  rewrite Hdesc, Hjust, Hdate. cbn [orb].
  unfold submit, try_catch, bind at 1, Date_of_toISOString. rewrite Hparse.
  unfold ret at 1, bind at 1, api.createAdaptation.
  change (json_request "POST" (API_URL ++ "/adaptations") _)
    with (adaptation_post studentId formData (Date_toISOString t)).
  rewrite (apiFetch_response _ _ Hout), Hok, Hres, Hid. cbn [andb].
  unfold bind at 1, bind at 1, ret at 1.
  unfold bind at 1.
  rewrite adaptation_create_run by (apply truthy_string; exact Hiso).
  reflexivity.
Qed.

(** C1, as the code has it.  The server answers the create request with
    [{ id: "srv-42" }]; the form passes that identifier on, but
    [adaptationStorage.create] never reads it: the record stored and handed
    to [onSuccess] carries a locally generated identifier instead.  The same
    holds for [reportStorage.create] and [studentStorage.create]. *)
Theorem remote_identifier_is_not_kept :
  let out := @AdaptationForm.handleSubmit sample_platform assigning_ids
               "stu-1" None sample_adaptation_form fresh_world in
  let created :=
    [ ("id", JStr "1700000000000-k3j9x2m1q");
      ("studentId", JStr "stu-1");
      ("description", JStr "Tempo extra");
      ("justification", JStr "Laudo");
      ("date", JStr "2024-03-01T00:00:00.000Z");
      ("createdAt", JStr "2023-11-14T22:13:20.002Z");
      ("createdBy", JStr "") ] in
  @fetch assigning_ids []
         (adaptation_post "stu-1" sample_adaptation_form "2024-03-01T00:00:00.000Z")
    = Response 201 "Created" (Json (JObj [("id", JStr "srv-42")]))
  /\ sent (snd out)
     = [adaptation_post "stu-1" sample_adaptation_form "2024-03-01T00:00:00.000Z"]
  /\ fst out = {| error := ""; onSuccess := Some (Some created) |}
  /\ toasts (snd out) = [toast_success "Adaptação registrada com sucesso!"]
  /\ adaptationStorage.getAll (ls (snd out)) = [created]
  /\ find (fun a => is_str (get a "id") "srv-42")
          (adaptationStorage.getAll (ls (snd out))) = None
  /\ map (fun r => get r "id")
         (reportStorage.getAll
            (ls (snd (@reportStorage.create sample_platform
                        [("id", JStr "srv-42"); ("studentId", JStr "stu-1")]
                        fresh_world))))
     = [JStr "1700000000000-k3j9x2m1q"]
  /\ map (fun st => get st "id")
         (studentStorage.getAll
            (ls (snd (@studentStorage.create sample_platform
                        [("id", JStr "srv-42"); ("name", JStr "Ana")]
                        fresh_world))))
     = [JStr "1700000000000-k3j9x2m1q"].
Proof.
  cbv zeta. repeat split; vm_compute; reflexivity.
Qed.

(** ** The list operations *)

Section ListOperations.
Context `{Remote}.

Lemma unwrapped (field : string) (res : jsval) :
  (if isArray res then Returned res
   else if truthy res && typeof_object res && isArray (prop res "value")
        then Returned (prop res "value")
   else if truthy res && typeof_object res && isArray (prop res field)
        then Returned (prop res field)
   else Returned (JArr []))
  = (Returned (unwrap field res) : attempt Error jsval).
Proof.
  destruct res as [ | | b | n | s | items | o ]; try reflexivity.
  - simpl. now destruct b.
  - simpl. now destruct (negb (n =? 0)%Z).
  - simpl. now destruct (negb (String.eqb s "")).
  - simpl. destruct (isArray (get o "value")); [ reflexivity | ].
    now destruct (isArray (get o field)).
Qed.

Lemma list_operation_run (field : string) (req : Request) (w : World) :
  fst ((res <- apiFetch req ;;
        if isArray res then ret res
        else if truthy res && typeof_object res && isArray (prop res "value")
        then ret (prop res "value")
        else if truthy res && typeof_object res && isArray (prop res field)
        then ret (prop res field)
        else ret (JArr [])) w)
  = match fst (apiFetch req w) with
    | Returned res => Returned (unwrap field res)
    | Thrown e => Thrown e
    end.
Proof.
  unfold bind. destruct (apiFetch req w) as [ [ res | e ] w' ]; [ | reflexivity ].
  cbn [fst]. rewrite <- (unwrapped field res). unfold ret.
  destruct (isArray res); [ reflexivity | ].
  destruct (truthy res && typeof_object res && isArray (prop res "value"));
    [ reflexivity | ].
  now destruct (truthy res && typeof_object res && isArray (prop res field)).
Qed.

Lemma apiFetch_outcome (req : Request) (w : World) :
  fst (apiFetch req w) =
  match fetch (sent w) req with
  | NetworkError msg => Thrown (new_Error msg)
  | AbortError => Thrown timeout_error
  | Response status statusText text =>
      if ok status then Returned (response_data text)
      else Thrown (response_error status statusText text)
  end.
Proof.
  unfold apiFetch, bind, send.
  destruct (fetch (sent w) req) as [ msg | | status statusText text ];
    try reflexivity.
  now destruct (ok status).
Qed.

Lemma tolerant_list_operation (field : string) (req : Request) (w : World) :
  fst (try_catch
         (res <- apiFetch req ;;
          if isArray res then ret res
          else if truthy res && typeof_object res && isArray (prop res "value")
          then ret (prop res "value")
          else if truthy res && typeof_object res && isArray (prop res field)
          then ret (prop res field)
          else ret (JArr []))
         (fun err => if is_404 err then ret (JArr []) else throw err) w)
  = list_outcome field true (fetch (sent w) req).
Proof.
  pose proof (list_operation_run field req w) as Hrun.
  unfold try_catch.
  destruct ((res <- apiFetch req ;; _) w) as [ [ res | e ] w' ] eqn:Hbody;
    cbn [fst] in Hrun |- *; rewrite apiFetch_outcome in Hrun; unfold list_outcome;
    destruct (fetch (sent w) req) as [ msg | | status statusText text ];
    try discriminate Hrun.
  - destruct (ok status); [ exact Hrun | discriminate Hrun ].
  - injection Hrun as ->. reflexivity.
  - injection Hrun as ->. reflexivity.
  - destruct (ok status); [ discriminate Hrun | ].
    injection Hrun as ->. cbn [andb].
    unfold is_404, response_error. cbn [err_status].
    now destruct (status =? 404)%Z.
Qed.

(** C5, amended.  Each list operation returns a bare array as it is,
    unwraps an object whose [value] or entity-named field is an array, and
    returns the empty sequence for any other successful response.  Listing
    the adaptations or the reports of a student also returns the empty
    sequence on a [404]; listing the students throws on a [404] as on any
    other failed request. *)
Theorem list_operations_unwrap_envelopes (studentId : string) (w : World) :
  fst (api.getStudents w)
    = list_outcome "students" false (fetch (sent w) (GET (API_URL ++ "/students")))
  /\ fst (api.getAdaptations studentId w)
     = list_outcome "adaptations" true
         (fetch (sent w) (GET (API_URL ++ "/adaptations/" ++ studentId)))
  /\ fst (api.getReports studentId w)
     = list_outcome "reports" true
         (fetch (sent w) (GET (API_URL ++ "/reports/" ++ studentId))).
Proof.
  split; [ | split ].
  - unfold api.getStudents. rewrite list_operation_run, apiFetch_outcome.
    unfold list_outcome.
    destruct (fetch (sent w) _) as [ msg | | status statusText text ];
      try reflexivity.
    now destruct (ok status).
  - apply tolerant_list_operation.
  - apply tolerant_list_operation.
Qed.

End ListOperations.

(** C5, as stated, fails for the students: a [404] is thrown, not turned
    into the empty sequence. *)
Lemma list_students_throws_on_404 :
  @fetch not_found (sent fresh_world) (GET (API_URL ++ "/students"))
    = Response 404 "Not Found" (Garbled "")
  /\ fst (@api.getStudents not_found fresh_world)
     = Thrown {| message := "Not Found"; err_status := Some 404%Z; err_body := JNull |}
  /\ fst (@api.getStudents not_found fresh_world) <> Returned (JArr []).
Proof.
  split; [ reflexivity | ].
  split; [ reflexivity | ].
  vm_compute. discriminate.
Qed.

(** ** Merge on read *)

Lemma has_In (m : obj) (k : string) : has m k = true <-> In k (map fst m).
Proof.
  induction m as [ | [k' v] rest IH ]; simpl.
  - split; [ discriminate | contradiction ].
  - rewrite orb_true_iff, IH, String.eqb_eq. tauto.
Qed.

Lemma get_absent (m : obj) (k : string) : ~ In k (map fst m) -> get m k = JUndefined.
Proof.
  induction m as [ | [k' v] rest IH ]; simpl; intros Hnot; [ reflexivity | ].
  destruct (String.eqb k' k) eqn:E.
  - apply String.eqb_eq in E. tauto.
  - apply IH. tauto.
Qed.

Lemma keys_set_present (m : obj) (k : string) (v : jsval) :
  In k (map fst m) -> map fst (set m k v) = map fst m.
Proof.
  induction m as [ | [k' v'] rest IH ]; simpl; intros Hin; [ contradiction | ].
  destruct (String.eqb k' k) eqn:E; simpl; [ reflexivity | ].
  f_equal. apply IH. destruct Hin as [ -> | Hin ]; [ | exact Hin ].
  now rewrite String.eqb_refl in E.
Qed.

Lemma set_fresh (m : obj) (k : string) (v : jsval) :
  ~ In k (map fst m) -> set m k v = m ++ [(k, v)].
Proof.
  induction m as [ | [k' v'] rest IH ]; simpl; intros Hnot; [ reflexivity | ].
  destruct (String.eqb k' k) eqn:E.
  - apply String.eqb_eq in E. tauto.
  - f_equal. apply IH. tauto.
Qed.

Lemma In_dec_key (m : obj) (k : string) : In k (map fst m) \/ ~ In k (map fst m).
Proof.
  destruct (has m k) eqn:E.
  - left. now apply has_In.
  - right. intros Hin. apply has_In in Hin. congruence.
Qed.

Lemma keys_set_monotone (m : obj) (k k' : string) (v : jsval) :
  In k' (map fst m) -> In k' (map fst (set m k v)).
Proof.
  intros Hin. destruct (In_dec_key m k) as [Hk | Hk].
  - now rewrite keys_set_present.
  - rewrite set_fresh, map_app by exact Hk. apply in_or_app. now left.
Qed.

Lemma key_in_set (m : obj) (k : string) (v : jsval) : In k (map fst (set m k v)).
Proof.
  destruct (In_dec_key m k) as [Hk | Hk].
  - now rewrite keys_set_present.
  - rewrite set_fresh, map_app by exact Hk. apply in_or_app. right. now left.
Qed.

Lemma NoDup_keys_set (m : obj) (k : string) (v : jsval) :
  NoDup (map fst m) -> NoDup (map fst (set m k v)).
Proof.
  intros Hnd. destruct (In_dec_key m k) as [Hk | Hk].
  - now rewrite keys_set_present.
  - rewrite set_fresh, map_app by exact Hk. simpl.
    apply NoDup_app; [ exact Hnd | repeat constructor; intros [] | ].
    intros x Hx [ <- | [] ]. contradiction.
Qed.

(** Two maps with the same keys in the same order, none repeated, and the
    same entry under each key are the same map. *)
Lemma obj_ext (m1 m2 : obj) :
  NoDup (map fst m1) -> map fst m1 = map fst m2 ->
  (forall k, get m1 k = get m2 k) -> m1 = m2.
Proof.
  revert m2. induction m1 as [ | [k1 v1] r1 IH ]; intros [ | [k2 v2] r2 ];
    simpl; intros Hnd Hkeys Hget; try discriminate; [ reflexivity | ].
  injection Hkeys as -> Hrest.
  inversion Hnd as [ | ? ? Hnotin Hnd' ]; subst.
  pose proof (Hget k2) as Hhead. rewrite String.eqb_refl in Hhead. subst v2.
  f_equal. apply IH; [ exact Hnd' | exact Hrest | ].
  intros k. pose proof (Hget k) as Hk.
  destruct (String.eqb k2 k) eqn:E; [ | exact Hk ].
  apply String.eqb_eq in E. subst k.
  rewrite !get_absent; [ reflexivity | now rewrite <- Hrest | exact Hnotin ].
Qed.

Section MergeOnRead.
Context `{Platform}.

Lemma key_defined (a : jsval) :
  nullish a = false -> StudentReport.key a = Returned (key_of a).
Proof. intros Hn. unfold StudentReport.key. now rewrite Hn. Qed.

Lemma forEach_set_returned (l : list jsval) (m m' : obj) :
  StudentReport.forEach_set l m = Returned m' ->
  m' = set_all l m /\ Forall (fun a => nullish a = false) l.
Proof.
  revert m. induction l as [ | a rest IH ]; simpl; intros m Hrun.
  - injection Hrun as <-. split; [ reflexivity | constructor ].
  - unfold StudentReport.key in Hrun.
    destruct (nullish a) eqn:Hn; [ discriminate | ].
    destruct (IH _ Hrun) as [-> Hall].
    split; [ reflexivity | now constructor ].
Qed.

Lemma forEach_set_defined (l : list jsval) (m : obj) :
  Forall (fun a => nullish a = false) l ->
  StudentReport.forEach_set l m = Returned (set_all l m).
Proof.
  intros Hall. revert m.
  induction Hall as [ | a rest Ha _ IH ]; intros m; simpl; [ reflexivity | ].
  rewrite (key_defined a Ha). apply IH.
Qed.

Lemma local_entries_defined (local : list obj) :
  Forall (fun a => nullish a = false) (map JObj local).
Proof. induction local; simpl; constructor; [ reflexivity | assumption ]. Qed.

Lemma NoDup_keys_set_all (l : list jsval) (m : obj) :
  NoDup (map fst m) -> NoDup (map fst (set_all l m)).
Proof.
  revert m. induction l as [ | a rest IH ]; simpl; intros m Hnd; [ exact Hnd | ].
  apply IH. now apply NoDup_keys_set.
Qed.

Lemma keys_set_all_monotone (l : list jsval) (m : obj) (k : string) :
  In k (map fst m) -> In k (map fst (set_all l m)).
Proof.
  revert m. induction l as [ | a rest IH ]; simpl; intros m Hin; [ exact Hin | ].
  apply IH. now apply keys_set_monotone.
Qed.

Lemma keys_of_entries_set (l : list jsval) (m : obj) (a : jsval) :
  In a l -> In (key_of a) (map fst (set_all l m)).
Proof.
  revert m. induction l as [ | b rest IH ]; simpl; intros m Hin; [ contradiction | ].
  destruct Hin as [ -> | Hin ].
  - apply keys_set_all_monotone, key_in_set.
  - now apply IH.
Qed.

Lemma keys_set_all_absorbed (l : list jsval) (m : obj) :
  (forall a, In a l -> In (key_of a) (map fst m)) ->
  map fst (set_all l m) = map fst m.
Proof.
  revert m. induction l as [ | b rest IH ]; simpl; intros m Hall; [ reflexivity | ].
  rewrite IH.
  - apply keys_set_present. apply Hall. now left.
  - intros a Ha. apply keys_set_monotone. apply Hall. now right.
Qed.

Lemma get_set_all (l : list jsval) (m : obj) (k : string) :
  get (set_all l m) k = override l k (get m k).
Proof.
  revert m. induction l as [ | a rest IH ]; simpl; intros m; [ reflexivity | ].
  now rewrite IH, get_set.
Qed.

Lemma override_cases (l : list jsval) (k : string) :
  (exists v, forall d, override l k d = v) \/ (forall d, override l k d = d).
Proof.
  induction l as [ | a rest IH ]; simpl; [ now right | ].
  destruct (String.eqb (key_of a) k).
  - left. exists (override rest k a). reflexivity.
  - exact IH.
Qed.

Lemma override_idempotent (l : list jsval) (k : string) (d : jsval) :
  override l k (override l k d) = override l k d.
Proof.
  destruct (override_cases l k) as [ [v Hv] | Hid ].
  - now rewrite !Hv.
  - now rewrite !Hid.
Qed.

(** Setting the same entries a second time changes nothing. *)
Lemma set_all_idempotent (l : list jsval) (m : obj) :
  NoDup (map fst m) -> set_all l (set_all l m) = set_all l m.
Proof.
  intros Hnd.
  assert (Hkeys : map fst (set_all l (set_all l m)) = map fst (set_all l m)).
  { apply keys_set_all_absorbed. intros a Ha. now apply keys_of_entries_set. }
  apply obj_ext.
  - rewrite Hkeys. now apply NoDup_keys_set_all.
  - exact Hkeys.
  - intros k. now rewrite !get_set_all, override_idempotent.
Qed.

Lemma keyed_set (m : obj) (a : jsval) :
  nullish a = false -> keyed m -> keyed (set m (key_of a) a).
Proof.
  intros Ha. unfold keyed.
  induction m as [ | [k v] rest IH ]; simpl; intros Hm.
  - constructor; [ now split | constructor ].
  - inversion Hm as [ | ? ? Hhead Hrest ]; subst.
    destruct (String.eqb k (key_of a)) eqn:E.
    + apply String.eqb_eq in E. subst k.
      constructor; [ now split | exact Hrest ].
    + constructor; [ exact Hhead | now apply IH ].
Qed.

Lemma keyed_set_all (l : list jsval) (m : obj) :
  Forall (fun a => nullish a = false) l -> keyed m -> keyed (set_all l m).
Proof.
  intros Hall. revert m.
  induction Hall as [ | a rest Ha _ IH ]; simpl; intros m Hm; [ exact Hm | ].
  apply IH. now apply keyed_set.
Qed.

(** Setting the entries of a [Map] into an empty one rebuilds it. *)
Lemma set_all_rebuilds (m acc : obj) :
  keyed m -> NoDup (map fst (acc ++ m)) ->
  set_all (map snd m) acc = acc ++ m.
Proof.
  revert acc. induction m as [ | [k v] rest IH ]; simpl; intros acc Hkeyed Hnd.
  - now rewrite app_nil_r.
  - inversion Hkeyed as [ | ? ? [Hkey _] Hrest ]; subst. simpl in Hkey. subst k.
    rewrite set_fresh.
    + rewrite IH; [ now rewrite <- app_assoc | exact Hrest | ].
      now rewrite <- app_assoc.
    + rewrite map_app in Hnd. simpl in Hnd.
      apply NoDup_remove_2 in Hnd. intros Hin. apply Hnd.
      apply in_or_app. now left.
Qed.

Lemma values_defined (m : obj) :
  keyed m -> Forall (fun a => nullish a = false) (map snd m).
Proof.
  unfold keyed. induction 1 as [ | kv rest [_ Hn] _ IH ]; simpl; constructor;
    assumption.
Qed.

(** Merging what a merge produced with the same local entries gives the
    same collection. *)
Lemma merged_again (remote : jsval) (local : list obj) (l : list jsval) :
  StudentReport.merged remote local = Returned l ->
  StudentReport.merged (JArr l) local = Returned l.
Proof.
  unfold StudentReport.merged.
  destruct (StudentReport.forEach_set (StudentReport.asArray remote) [])
    as [ map0 | e ] eqn:Hremote; [ | discriminate ].
  destruct (forEach_set_returned _ _ Hremote) as [-> Hdefined].
  rewrite (forEach_set_defined _ (local_entries_defined local)).
  intros Hl. injection Hl as <-.
  set (map0 := set_all (StudentReport.asArray remote) []).
  set (map1 := set_all (map JObj local) map0).
  assert (Hnd0 : NoDup (map fst map0))
    by (apply NoDup_keys_set_all; constructor).
  assert (Hnd1 : NoDup (map fst map1)) by now apply NoDup_keys_set_all.
  assert (Hkeyed1 : keyed map1).
  { apply keyed_set_all; [ apply local_entries_defined | ].
    apply keyed_set_all; [ exact Hdefined | constructor ]. }
  change (StudentReport.asArray (JArr (map snd map1))) with (map snd map1).
  rewrite (forEach_set_defined _ (values_defined Hkeyed1)).
  rewrite (set_all_rebuilds [] Hkeyed1 Hnd1). cbn [app].
  rewrite (forEach_set_defined _ (local_entries_defined local)).
  unfold map1. now rewrite set_all_idempotent.
Qed.

End MergeOnRead.

Section MergeTheorem.
Context `{Platform}.

Lemma or_null_twice (v : jsval) : or_ (or_ v JNull) JNull = or_ v JNull.
Proof. unfold or_. destruct (truthy v) eqn:E; [ now rewrite E | reflexivity ]. Qed.

(** The entries of a merged collection have pairwise different keys. *)
Lemma merged_keys_distinct (remote : jsval) (local : list obj) (l : list jsval) :
  StudentReport.merged remote local = Returned l -> NoDup (map key_of l).
Proof.
  unfold StudentReport.merged.
  destruct (StudentReport.forEach_set (StudentReport.asArray remote) [])
    as [ map0 | e ] eqn:Hremote; [ | discriminate ].
  destruct (forEach_set_returned _ _ Hremote) as [-> Hdefined].
  rewrite (forEach_set_defined _ (local_entries_defined local)).
  intros Hl. injection Hl as <-.
  set (map1 := set_all (map JObj local) (set_all (StudentReport.asArray remote) [])).
  assert (Hnd1 : NoDup (map fst map1))
    by (apply NoDup_keys_set_all, NoDup_keys_set_all; constructor).
  assert (Hkeyed1 : keyed map1).
  { apply keyed_set_all; [ apply local_entries_defined | ].
    apply keyed_set_all; [ exact Hdefined | constructor ]. }
  replace (map key_of (map snd map1)) with (map fst map1); [ exact Hnd1 | ].
  clear Hnd1. unfold keyed in Hkeyed1.
  induction Hkeyed1 as [ | kv rest [Hkey _] _ IH ]; simpl; [ reflexivity | ].
  now rewrite Hkey, IH.
Qed.

(** C4. Loading the report twice in a row, with the same remote result and
    the same local store, leaves the component in the state the first load
    left it in.  Moreover the merge absorbs its own result: handing the
    merged view model back as the remote result and merging it with the
    same local entries gives the same adaptations and reports, in which no
    two entries share a merge key. *)
Theorem merge_on_read_is_idempotent
        (remote : attempt Error jsval) (studentId : string) (s : Storage)
        (st : StudentReport.State) :
  let once := StudentReport.loadReport None remote studentId s st in
  StudentReport.loadReport None remote studentId s once = once
  /\ (forall m,
         StudentReport.assemble remote studentId s = Returned m ->
         StudentReport.data once = Some m
         /\ StudentReport.assemble (Returned (as_remote m)) studentId s = Returned m
         /\ StudentReport.loadReport None (Returned (as_remote m)) studentId s once = once
         /\ NoDup (map key_of (StudentReport.adaptations m))
         /\ NoDup (map key_of (StudentReport.reports m))).
Proof.
  cbv zeta. split.
  - unfold StudentReport.loadReport.
    destruct (StudentReport.assemble remote studentId s) as [ m | err ]; reflexivity.
  - intros m Hm.
    assert (Hagain : StudentReport.assemble (Returned (as_remote m)) studentId s
                     = Returned m
                     /\ NoDup (map key_of (StudentReport.adaptations m))
                     /\ NoDup (map key_of (StudentReport.reports m))).
    { unfold StudentReport.assemble in Hm |- *.
      destruct (member TypeError _ "adaptations") as [ remoteAdaptations | e ];
        [ | discriminate ].
      destruct (StudentReport.merged remoteAdaptations _)
        as [ mergedAdaptations | e ] eqn:Ha; [ | discriminate ].
      destruct (StudentReport.merged (prop _ "reports") _)
        as [ mergedReports | e ] eqn:Hr; [ | discriminate ].
      injection Hm as <-.
      cbn [StudentReport.adaptations StudentReport.reports StudentReport.student].
      change (member TypeError (as_remote ?m) "adaptations")
        with (Returned (JArr (StudentReport.adaptations m)) : attempt Error jsval).
      change (prop (as_remote ?m) "reports") with (JArr (StudentReport.reports m)).
      change (prop (as_remote ?m) "student") with (StudentReport.student m).
      cbn [StudentReport.adaptations StudentReport.reports StudentReport.student].
      rewrite (merged_again _ _ Ha), (merged_again _ _ Hr), or_null_twice.
      split; [ reflexivity | ].
      split; [ exact (merged_keys_distinct _ _ Ha)
             | exact (merged_keys_distinct _ _ Hr) ]. }
    destruct Hagain as [Hassemble [Hka Hkr]].
    unfold StudentReport.loadReport. rewrite Hassemble, Hm.
    repeat split; assumption.
Qed.

End MergeTheorem.

(** ** The properties at work *)

(** Offline, a new adaptation is saved under a generated identifier. *)
Lemma creation_survives_remote_failure_witness :
  exists created,
    fst (@AdaptationForm.handleSubmit sample_platform offline
           "stu-1" None sample_adaptation_form fresh_world)
      = {| error := ""; onSuccess := Some (Some created) |}
    /\ get created "id" = JStr "1700000000000-k3j9x2m1q"
    /\ get created "description" = JStr "Tempo extra".
Proof.
  destruct (proj1 (@creation_survives_remote_failure sample_platform offline)
                  "stu-1" sample_adaptation_form fresh_world 1709251200000%Z
                  ltac:(discriminate) ltac:(discriminate) ltac:(discriminate)
                  eq_refl ltac:(discriminate) eq_refl)
    as [created [stored [Hout [_ [Hid _]]]]].
  exists created.
  split; [ exact Hout | ].
  split; [ exact Hid | ].
  injection Hout as <-. reflexivity.
Defined.

(** C2, as first stated, fails where a creation goes to the remote only.
    Offline, the report form of [src/components/ReportForm.tsx] sends its
    [POST /reports], shows the error and stores no report; the student
    import of [ApiStudentList] sends its [POST /students], shows the error
    and stores no student.  In both cases the record submitted is lost. *)
Lemma creation_is_lost_without_the_local_write :
  (let out := @RemoteReportForm.handleSubmit sample_platform offline "stu-1" None
                sample_report_form fresh_world in
   @fetch offline [] (report_post "stu-1" sample_report_form "2024-03-01T00:00:00.000Z")
     = NetworkError "Failed to fetch"
   /\ sent (snd out)
      = [report_post "stu-1" sample_report_form "2024-03-01T00:00:00.000Z"]
   /\ fst out = {| RemoteReportForm.error := "Failed to fetch";
                   RemoteReportForm.onSuccess := None |}
   /\ toasts (snd out) = [toast_error "Failed to fetch"]
   /\ reportStorage.getAll (ls (snd out)) = [])
  /\ (let st := {| ApiStudentList.importingIds := [];
                   ApiStudentList.localRegistrationSet := [];
                   ApiStudentList.onImport := 0 |} in
      let out := @ApiStudentList.handleImport sample_platform offline (fun _ => "0.5")
                   sample_remote_student st fresh_world in
      sent (snd out)
      = [json_request "POST" (API_URL ++ "/students")
           (JObj [ ("name", JStr "Ana Pereira");
                   ("course", JStr "Ensino Médio");
                   ("class", JStr "2A");
                   ("birthDate", JStr "");
                   ("registrationNumber", JStr "2021001");
                   ("guardianName", JStr "");
                   ("guardianContact", JStr "") ])]
      /\ fst out = Returned st
      /\ toasts (snd out) = [toast_error "Failed to fetch"]
      /\ studentStorage.getAll (ls (snd out)) = []).
Proof. cbv zeta. repeat split. Qed.

(** On a server without routes, the update of a stored adaptation goes to
    the flat path, then to the nested one, and the local copy is updated. *)
Lemma adaptation_update_retries_then_writes_locally_witness :
  let out := @AdaptationForm.handleSubmit sample_platform not_found
               "stu-1" (Some "a-1") sample_adaptation_form world_with_adaptation in
  map url (sent (snd out))
    = [ "https://adaptacoescurriculares-api.onrender.com/adaptations/a-1";
        "https://adaptacoescurriculares-api.onrender.com/adaptations/stu-1/a-1" ]
  /\ error (fst out) = ""
  /\ get (nth 0 (adaptationStorage.getAll (ls (snd out))) []) "description"
     = JStr "Tempo extra"
  /\ get (nth 0 (adaptationStorage.getAll (ls (snd out))) []) "id" = JStr "a-1".
Proof.
  destruct (@adaptation_update_retries_then_writes_locally sample_platform not_found
              "stu-1" "a-1" sample_adaptation_form world_with_adaptation
              1709251200000%Z "Not Found" (Garbled "")
              ltac:(discriminate) ltac:(discriminate) ltac:(discriminate)
              eq_refl eq_refl)
    as [Hsent [[updated [_ Hout]] [_ Hcopy]]].
  cbv zeta.
  split; [ rewrite Hsent; reflexivity | ].
  split; [ rewrite Hout; reflexivity | ].
  destruct Hcopy as [Hid [Hdesc _]].
  split; [ exact Hdesc | exact Hid ].
Defined.

(** An update of the stored adaptation [a-1] by a partial that names another
    identifier: the record returned keeps [a-1], takes the description of
    the partial and keeps the stored justification, and it is the one the
    collection holds afterwards. *)
Lemma update_keeps_id_and_frame_witness :
  let out := @adaptationStorage.update sample_platform "a-1"
               [("id", JStr "other"); ("description", JStr "Prova oral")]
               world_with_adaptation in
  exists r,
    fst out = Returned (Some r)
    /\ get r "id" = JStr "a-1"
    /\ get r "description" = JStr "Prova oral"
    /\ get r "justification" = JStr "Parecer"
    /\ adaptationStorage.getAll (ls (snd out)) = [json_obj r].
Proof.
  cbv zeta.
  pose proof (proj1 (proj2 (@update_keeps_id_and_frame sample_platform "a-1"
                              [("id", JStr "other"); ("description", JStr "Prova oral")]
                              world_with_adaptation))) as Hu.
  unfold updated_as_specified in Hu.
  assert (He : existsb (fun x => is_str (get x "id") "a-1")
                       (collection ADAPTATIONS (ls world_with_adaptation)) = true)
    by reflexivity.
  rewrite He in Hu.
  destruct Hu as [before [old [after [r [w' [Hl [_ [_ [Hres [Hget [Hcol _]]]]]]]]]]].
  assert (Hstored : collection ADAPTATIONS (ls world_with_adaptation)
                    = [json_obj stored_adaptation]) by reflexivity.
  rewrite Hstored in Hl.
  destruct before as [ | b before ].
  - injection Hl as Hold Hafter. subst old after.
    exists r. rewrite Hres. cbn [fst snd].
    split; [ reflexivity | ].
    rewrite !Hget. repeat split. exact Hcol.
  - injection Hl as _ Hrest. destruct before; discriminate.
Defined.

(** A partial that names another identifier does not change the identifier
    of the record it updates. *)
Example update_ignores_id_of_partial :
  fst (@adaptationStorage.update sample_platform "a-1"
         [("id", JStr "other"); ("description", JStr "Prova oral")]
         world_with_adaptation)
  = Returned (Some [ ("id", JStr "a-1");
                     ("studentId", JStr "stu-1");
                     ("description", JStr "Prova oral");
                     ("justification", JStr "Parecer");
                     ("date", JStr "2024-02-01T00:00:00.000Z");
                     ("createdAt", JStr "2024-02-01T12:00:00.000Z");
                     ("createdBy", JStr "");
                     ("updatedAt", JStr "2023-11-14T22:13:20.000Z") ]).
Proof. reflexivity. Qed.

(** An update of an identifier that is not stored changes nothing. *)
Example update_of_unknown_id :
  @adaptationStorage.update sample_platform "a-2"
     [("description", JStr "Prova oral")] world_with_adaptation
  = (Returned None, world_with_adaptation).
Proof. reflexivity. Qed.

(** An entry fetched remotely and the local entry with the same identifier
    are merged into one, the local one. *)
Example merge_prefers_local :
  @StudentReport.merged sample_platform
     (JArr [ JObj [("id", JStr "a-1"); ("description", JStr "remote")];
             JObj [("id", JStr "a-9"); ("description", JStr "remote only")] ])
     [stored_adaptation]
  = Returned [ JObj stored_adaptation;
               JObj [("id", JStr "a-9"); ("description", JStr "remote only")] ].
Proof. reflexivity. Qed.

(** A [null] among the remote entries makes the load fail with an error
    message, and the data shown stays what it was. *)
Example merge_fails_on_null_entry :
  @StudentReport.loadReport sample_platform None
     (Returned (JObj [("adaptations", JArr [JNull])])) "stu-1" empty_storage
     {| StudentReport.data := None; StudentReport.loading := true;
        StudentReport.error := "" |}
  = {| StudentReport.data := None; StudentReport.loading := false;
       StudentReport.error := "Cannot read properties of null or undefined" |}.
Proof. reflexivity. Qed.

(** Deleting a student takes the adaptations of that student along. *)
Example delete_cascades :
  let s := setToStorage STUDENTS [[("id", JStr "stu-1")]; [("id", JStr "stu-2")]]
             (ls world_with_adaptation) in
  fst (studentStorage.delete "stu-1" s) = true
  /\ studentStorage.getAll (snd (studentStorage.delete "stu-1" s))
     = [[("id", JStr "stu-2")]]
  /\ adaptationStorage.getAll (snd (studentStorage.delete "stu-1" s)) = []
  /\ studentStorage.delete "stu-3" s = (false, s).
Proof. repeat split. Qed.

(** The merge of a remote result with a local entry, and the merge of its
    own result. *)
Lemma merge_on_read_is_idempotent_witness :
  @StudentReport.assemble sample_platform (Returned sample_remote_report) "stu-1"
     (ls world_with_adaptation)
    = Returned sample_merged_report
  /\ @StudentReport.assemble sample_platform
       (Returned (as_remote sample_merged_report)) "stu-1" (ls world_with_adaptation)
     = Returned sample_merged_report.
Proof.
  split; [ reflexivity | ].
  apply (proj2 (@merge_on_read_is_idempotent sample_platform
                  (Returned sample_remote_report) "stu-1" (ls world_with_adaptation)
                  {| StudentReport.data := None; StudentReport.loading := true;
                     StudentReport.error := "" |})
               sample_merged_report eq_refl).
Defined.

(* ================================================================== *)
(** * Further properties of the local store *)
(* ================================================================== *)

Lemma is_str_json (v : jsval) (s : string) : is_str (json v) s = is_str v s.
Proof. destruct v; reflexivity. Qed.

Lemma find_app_last {A} (p : A -> bool) (l : list A) (x : A) :
  find p (l ++ [x]) =
  match find p l with
  | Some y => Some y
  | None => if p x then Some x else None
  end.
Proof.
  induction l as [ | y rest IH ]; simpl; [ reflexivity | ].
  destruct (p y); [ reflexivity | exact IH ].
Qed.

Lemma filter_app_last {A} (p : A -> bool) (l : list A) (x : A) :
  filter p (l ++ [x]) = filter p l ++ (if p x then [x] else []).
Proof. rewrite filter_app. reflexivity. Qed.

Lemma existsb_app_last {A} (p : A -> bool) (l : list A) (x : A) :
  existsb p (l ++ [x]) = existsb p l || p x.
Proof. rewrite existsb_app. simpl. now rewrite orb_false_r. Qed.

(** X1. Deleting an adaptation, or a report, returns [true] exactly when a
    record with that id is stored; it then removes every record with that
    id and nothing else, keeps the order of the others, and never touches
    another collection, the session or the current user. *)
Theorem delete_record_removes_only_that_id (s : Storage) (id : string) :
  (let deleted := fst (adaptationStorage.delete id s) in
   let s' := snd (adaptationStorage.delete id s) in
   deleted = existsb (fun a => is_str (get a "id") id) (adaptationStorage.getAll s)
   /\ adaptationStorage.getAll s'
      = filter (fun a => negb (is_str (get a "id") id)) (adaptationStorage.getAll s)
   /\ find (fun a => is_str (get a "id") id) (adaptationStorage.getAll s') = None
   /\ studentStorage.getAll s' = studentStorage.getAll s
   /\ reportStorage.getAll s' = reportStorage.getAll s
   /\ getLocalUsers s' = getLocalUsers s
   /\ adaptacao_current_user s' = adaptacao_current_user s
   /\ token s' = token s /\ user s' = user s
   /\ (if deleted then True else s' = s))
  /\ (let deleted := fst (reportStorage.delete id s) in
      let s' := snd (reportStorage.delete id s) in
      deleted = existsb (fun r => is_str (get r "id") id) (reportStorage.getAll s)
      /\ reportStorage.getAll s'
         = filter (fun r => negb (is_str (get r "id") id)) (reportStorage.getAll s)
      /\ find (fun r => is_str (get r "id") id) (reportStorage.getAll s') = None
      /\ studentStorage.getAll s' = studentStorage.getAll s
      /\ adaptationStorage.getAll s' = adaptationStorage.getAll s
      /\ getLocalUsers s' = getLocalUsers s
      /\ adaptacao_current_user s' = adaptacao_current_user s
      /\ token s' = token s /\ user s' = user s
      /\ (if deleted then True else s' = s)).
Proof.
  assert (Hkeep : forall (p : obj -> bool) (l : list obj),
             forallb (fun x => negb (p x)) l = true ->
             filter (fun x => negb (p x)) l = l).
  { intros p l. induction l as [ | x rest IH ]; simpl; [ reflexivity | ].
    destruct (negb (p x)); simpl; [ intros Hall; now rewrite IH | discriminate ]. }
  cbv zeta. split.
  - unfold adaptationStorage.delete.
    rewrite filter_length_all, forallb_negb_existsb.
    destruct (existsb _ (adaptationStorage.getAll s)) eqn:Hex; cbn [negb fst snd].
    + assert (Hall : adaptationStorage.getAll
                       (setToStorage ADAPTATIONS
                          (filter (fun a => negb (is_str (get a "id") id))
                                  (adaptationStorage.getAll s)) s)
                     = filter (fun a => negb (is_str (get a "id") id))
                              (adaptationStorage.getAll s)).
      { unfold adaptationStorage.getAll at 1. simpl.
        apply filter_normal, collection_normal. }
      rewrite Hall. repeat split.
      apply (find_filter_negb (fun a => is_str (get a "id") id)).
    + assert (Hsame : filter (fun a => negb (is_str (get a "id") id))
                             (adaptationStorage.getAll s) = adaptationStorage.getAll s).
      { apply Hkeep. now rewrite forallb_negb_existsb, Hex. }
      rewrite Hsame. repeat split.
      rewrite <- Hsame. apply (find_filter_negb (fun a => is_str (get a "id") id)).
  - unfold reportStorage.delete.
    rewrite filter_length_all, forallb_negb_existsb.
    destruct (existsb _ (reportStorage.getAll s)) eqn:Hex; cbn [negb fst snd].
    + assert (Hall : reportStorage.getAll
                       (setToStorage REPORTS
                          (filter (fun r => negb (is_str (get r "id") id))
                                  (reportStorage.getAll s)) s)
                     = filter (fun r => negb (is_str (get r "id") id))
                              (reportStorage.getAll s)).
      { unfold reportStorage.getAll at 1. simpl.
        apply filter_normal, collection_normal. }
      rewrite Hall. repeat split.
      apply (find_filter_negb (fun r => is_str (get r "id") id)).
    + assert (Hsame : filter (fun r => negb (is_str (get r "id") id))
                             (reportStorage.getAll s) = reportStorage.getAll s).
      { apply Hkeep. now rewrite forallb_negb_existsb, Hex. }
      rewrite Hsame. repeat split.
      rewrite <- Hsame. apply (find_filter_negb (fun r => is_str (get r "id") id)).
Qed.

Lemma is_str_true (v : jsval) (s : string) : is_str v s = true -> v = JStr s.
Proof.
  destruct v; simpl; try discriminate. intros E. apply String.eqb_eq in E. now subst.
Qed.

Lemma is_str_JStr (s t : string) : is_str (JStr s) t = String.eqb s t.
Proof. reflexivity. Qed.

Lemma assign_same {A} (l : list A) (i : nat) (d : A) :
  assign l i (nth i l d) = l.
Proof.
  revert i. induction l as [ | y rest IH ]; intros [ | i ]; simpl; try reflexivity.
  now rewrite IH.
Qed.

Lemma or_default_defined (v d : jsval) : d <> JUndefined -> or_ v d <> JUndefined.
Proof.
  unfold or_. intros Hd. destruct (truthy v) eqn:E; [ | exact Hd ].
  intros ->. discriminate.
Qed.

Lemma filter_none_found {A} (p : A -> bool) (l : list A) :
  find p l = None -> filter (fun x => negb (p x)) l = l.
Proof.
  induction l as [ | x rest IH ]; simpl; [ reflexivity | ].
  destruct (p x); [ discriminate | ]. intros Hnone. cbn [negb]. now rewrite IH.
Qed.

Section StoreRoundTrips.
Context `{Platform}.

(** What each [create] does to its collection, whatever [data] holds. *)
Lemma adaptation_create_appends (data : obj) (w : World) :
  exists r w',
    adaptationStorage.create data w = (Returned r, w')
    /\ adaptationStorage.getAll (ls w') = adaptationStorage.getAll (ls w) ++ [json_obj r]
    /\ get r "id" = JStr (generatedId (clock w))
    /\ get r "studentId" = or_ (get data "studentId") (JStr "")
    /\ (forall k, same_key ADAPTATIONS k = false -> getItem k (ls w') = getItem k (ls w))
    /\ sent w' = sent w /\ toasts w' = toasts w.
Proof.
  unfold adaptationStorage.create, bind, read, generateId, now, random36,
    new_Date_toISOString, write.
  cbn [ls tick clock ret sent toasts].
  destruct (truthy (get data "date")); cbn [ls tick clock ret sent toasts];
    eexists; eexists; (split; [ reflexivity | ]); cbn [ls sent toasts];
    (split; [ apply (collection_after_push ADAPTATIONS) | ]);
    (split; [ reflexivity | ]); (split; [ reflexivity | ]);
    (split; [ intros k Hk; now apply getItem_other | split; reflexivity ]).
Qed.

Lemma report_create_appends (data : obj) (w : World) :
  exists r w',
    reportStorage.create data w = (Returned r, w')
    /\ reportStorage.getAll (ls w') = reportStorage.getAll (ls w) ++ [json_obj r]
    /\ get r "id" = JStr (generatedId (clock w))
    /\ get r "studentId" = or_ (get data "studentId") (JStr "")
    /\ (forall k, same_key REPORTS k = false -> getItem k (ls w') = getItem k (ls w))
    /\ sent w' = sent w /\ toasts w' = toasts w.
Proof.
  unfold reportStorage.create, bind, read, generateId, now, random36,
    new_Date_toISOString, write.
  cbn [ls tick clock ret sent toasts].
  destruct (truthy (get data "date")); cbn [ls tick clock ret sent toasts];
    eexists; eexists; (split; [ reflexivity | ]); cbn [ls sent toasts];
    (split; [ apply (collection_after_push REPORTS) | ]);
    (split; [ reflexivity | ]); (split; [ reflexivity | ]);
    (split; [ intros k Hk; now apply getItem_other | split; reflexivity ]).
Qed.

(** X2. After [studentStorage.create], [getById] answers as before for every
    identifier that was already stored, finds the new student under the
    identifier just generated when that identifier was free, and finds
    nothing otherwise.  In particular, if the generated identifier was
    already taken, the new student is stored but [getById] keeps returning
    the older record. *)
Theorem created_student_is_found_by_id (data : obj) (w : World) (id : string) :
  exists created w',
    studentStorage.create data w = (Returned created, w')
    /\ studentStorage.getById id (ls w') =
       match studentStorage.getById id (ls w) with
       | Some older => Some older
       | None => if String.eqb id (generatedId (clock w))
                 then Some (json_obj created) else None
       end.
Proof.
  rewrite student_create_run. eexists. eexists. split; [ reflexivity | ].
  cbn [ls with_ls]. unfold studentStorage.getById.
  rewrite (collection_after_push STUDENTS). cbn [collection].
  rewrite find_app_last.
  destruct (find _ (studentStorage.getAll (ls w))); [ reflexivity | ].
  rewrite (stored_string (created_student data w) "id" (v := generatedId (clock w)))
    by reflexivity.
  rewrite is_str_JStr, String.eqb_sym. reflexivity.
Qed.

(** X3. Deleting a student right after creating it returns [true] and leaves
    exactly the students stored before whose identifier differs from the
    generated one, in the same order: a create followed by a delete restores
    the collection whenever the generated identifier was free. *)
Theorem create_then_delete_student (data : obj) (w : World) :
  let gid := generatedId (clock w) in
  let s1 := ls (snd (studentStorage.create data w)) in
  fst (studentStorage.delete gid s1) = true
  /\ studentStorage.getAll (snd (studentStorage.delete gid s1))
     = filter (fun st => negb (is_str (get st "id") gid)) (studentStorage.getAll (ls w))
  /\ (studentStorage.getById gid (ls w) = None ->
      studentStorage.getAll (snd (studentStorage.delete gid s1))
      = studentStorage.getAll (ls w)).
Proof.
  cbv zeta. rewrite student_create_run. cbn [snd ls with_ls].
  set (s1 := setToStorage STUDENTS _ (ls w)).
  assert (Hall : studentStorage.getAll s1
                 = studentStorage.getAll (ls w) ++ [json_obj (created_student data w)])
    by apply (collection_after_push STUDENTS).
  assert (Hnew : is_str (get (json_obj (created_student data w)) "id")
                        (generatedId (clock w)) = true).
  { rewrite (stored_string (created_student data w) "id" (v := generatedId (clock w)))
      by reflexivity.
    apply String.eqb_refl. }
  assert (Hfst : fst (studentStorage.delete (generatedId (clock w)) s1) = true
          /\ studentStorage.getAll (snd (studentStorage.delete (generatedId (clock w)) s1))
             = filter (fun st => negb (is_str (get st "id") (generatedId (clock w))))
                      (studentStorage.getAll s1)).
  { unfold studentStorage.delete.
    rewrite filter_length_all, forallb_negb_existsb, Hall, existsb_app_last, Hnew,
      orb_true_r.
    cbn [negb fst snd]. split; [ reflexivity | ].
    rewrite <- Hall.
    unfold studentStorage.getAll at 1. simpl.
    apply filter_normal, collection_normal. }
  destruct Hfst as [Hdeleted Hrest].
  rewrite Hall, filter_app_last, Hnew in Hrest. cbn [negb] in Hrest.
  rewrite app_nil_r in Hrest.
  split; [ exact Hdeleted | ]. split; [ exact Hrest | ].
  intros Hfree. rewrite Hrest.
  apply (filter_none_found (fun st => is_str (get st "id") (generatedId (clock w)))).
  exact Hfree.
Qed.

End StoreRoundTrips.

Section StoreInvariants.
Context `{Platform}.

Lemma ids_after_assign (l : list obj) (i : nat) (id : string) (r : obj) :
  is_str (get (nth i l []) "id") id = true ->
  get r "id" = JStr id ->
  map (fun o => get o "id") (assign l i (json_obj r)) = map (fun o => get o "id") l.
Proof.
  intros Hold Hnew.
  rewrite map_assign, (stored_string r "id" Hnew).
  rewrite <- (is_str_true _ _ Hold).
  rewrite <- (map_nth (fun o => get o "id")).
  replace (get [] "id") with JUndefined by reflexivity.
  apply assign_same.
Qed.

(** X4. No [update] changes which identifiers a collection holds, nor their
    order or number: whatever the partial says, also under [id], the list
    of the identifiers of the students (adaptations, reports) is the same
    after the call as before. *)
Theorem update_keeps_the_identifiers (id : string) (updates : obj) (w : World) :
  map (fun o => get o "id") (studentStorage.getAll (ls (snd (studentStorage.update id updates w))))
    = map (fun o => get o "id") (studentStorage.getAll (ls w))
  /\ map (fun o => get o "id")
         (adaptationStorage.getAll (ls (snd (adaptationStorage.update id updates w))))
     = map (fun o => get o "id") (adaptationStorage.getAll (ls w))
  /\ map (fun o => get o "id")
         (reportStorage.getAll (ls (snd (reportStorage.update id updates w))))
     = map (fun o => get o "id") (reportStorage.getAll (ls w)).
Proof.
  split; [ | split ].
  - destruct (findIndex (fun st => is_str (get st "id") id)
                        (studentStorage.getAll (ls w))) as [ i | ] eqn:Hi.
    + rewrite (student_update_found id updates w Hi). cbn [snd ls].
      rewrite (collection_after_assign STUDENTS). cbn [collection].
      apply ids_after_assign with (id := id).
      * apply (findIndex_Some _ _ [] Hi).
      * rewrite get_student_updated. reflexivity.
    + unfold studentStorage.update, bind, read. cbn [ls]. now rewrite Hi.
  - destruct (findIndex (fun a => is_str (get a "id") id)
                        (adaptationStorage.getAll (ls w))) as [ i | ] eqn:Hi.
    + rewrite (adaptation_update_found id updates w Hi). cbn [snd ls].
      rewrite (collection_after_assign ADAPTATIONS). cbn [collection].
      apply ids_after_assign with (id := id).
      * apply (findIndex_Some _ _ [] Hi).
      * rewrite get_stamped. reflexivity.
    + unfold adaptationStorage.update, bind, read. cbn [ls]. now rewrite Hi.
  - destruct (findIndex (fun r => is_str (get r "id") id)
                        (reportStorage.getAll (ls w))) as [ i | ] eqn:Hi.
    + rewrite (report_update_found id updates w Hi). cbn [snd ls].
      rewrite (collection_after_assign REPORTS). cbn [collection].
      apply ids_after_assign with (id := id).
      * apply (findIndex_Some _ _ [] Hi).
      * rewrite get_stamped. reflexivity.
    + unfold reportStorage.update, bind, read. cbn [ls]. now rewrite Hi.
Qed.

(** X5. A created adaptation, or report, shows up at the end of the list of
    the student named in the data (of the student [""] when the data names
    none) and in the list of no other student. *)
Theorem created_record_is_listed_for_its_student
        (data : obj) (w : World) (studentId : string) :
  (exists created w',
      adaptationStorage.create data w = (Returned created, w')
      /\ adaptationStorage.getByStudent studentId (ls w')
         = adaptationStorage.getByStudent studentId (ls w)
           ++ (if is_str (or_ (get data "studentId") (JStr "")) studentId
               then [json_obj created] else []))
  /\ (exists created w',
         reportStorage.create data w = (Returned created, w')
         /\ reportStorage.getByStudent studentId (ls w')
            = reportStorage.getByStudent studentId (ls w)
              ++ (if is_str (or_ (get data "studentId") (JStr "")) studentId
                  then [json_obj created] else [])).
Proof.
  split.
  - destruct (adaptation_create_appends data w)
      as [r [w' [Hrun [Hall [_ [Hstudent _]]]]]].
    exists r, w'. split; [ exact Hrun | ].
    unfold adaptationStorage.getByStudent. rewrite Hall, filter_app_last.
    rewrite get_json_obj, Hstudent, is_str_json; [ reflexivity | ].
    rewrite Hstudent. apply or_default_defined. discriminate.
  - destruct (report_create_appends data w)
      as [r [w' [Hrun [Hall [_ [Hstudent _]]]]]].
    exists r, w'. split; [ exact Hrun | ].
    unfold reportStorage.getByStudent. rewrite Hall, filter_app_last.
    rewrite get_json_obj, Hstudent, is_str_json; [ reflexivity | ].
    rewrite Hstudent. apply or_default_defined. discriminate.
Qed.

End StoreInvariants.

Lemma stored_record_normal (slot : option (item (list obj))) (u : obj) :
  In u (getFromStorage slot []) -> json_obj u = u.
Proof.
  intros Hin. pose proof (collection_normal slot) as Hn.
  induction (getFromStorage slot []) as [ | x rest IH ]; [ contradiction | ].
  simpl in Hn. injection Hn as Hx Hrest.
  destruct Hin as [ -> | Hin ]; [ exact Hx | now apply IH ].
Qed.

(** X6. [authStorage.signIn] either finds the user, and then the pair is in
    the credential table, the user is the first stored one with that e-mail
    and [getCurrentUser] returns it from then on, or returns [null] and
    leaves the store untouched; after [signOut], [getCurrentUser] returns
    [null], and neither ever changes a collection or the session keys. *)
Theorem current_user_round_trip (email password : string) (s : Storage) :
  let found := fst (authStorage.signIn email password s) in
  let s' := snd (authStorage.signIn email password s) in
  match found with
  | Some u =>
      known_locally email password = true
      /\ find (fun x => is_str (get x "email") email) (getLocalUsers s) = Some u
      /\ authStorage.getCurrentUser s' = Some u
  | None => s' = s
  end
  /\ authStorage.getCurrentUser (authStorage.signOut s') = None
  /\ (forall k, getItem k s' = getItem k s
                /\ getItem k (authStorage.signOut s') = getItem k s)
  /\ token s' = token s /\ user s' = user s
  /\ token (authStorage.signOut s') = token s /\ user (authStorage.signOut s') = user s.
Proof.
  cbv zeta. rewrite authStorage_signIn_spec.
  destruct (known_locally email password).
  - destruct (find _ (getLocalUsers s)) as [ u | ] eqn:Hfind; cbn [fst snd].
    + split; [ | split; [ reflexivity | split; [ intros k; now destruct k | ] ] ];
        [ | repeat split ].
      split; [ reflexivity | split; [ reflexivity | ] ].
      unfold authStorage.getCurrentUser. simpl. f_equal.
      apply (stored_record_normal (getItem USERS s)).
      apply find_some in Hfind. exact (proj1 Hfind).
    + split; [ reflexivity | ].
      split; [ reflexivity | split; [ intros k; now destruct k | repeat split ] ].
  - cbn [fst snd]. split; [ reflexivity | ].
    split; [ reflexivity | split; [ intros k; now destruct k | repeat split ] ].
Qed.

(* ================================================================== *)
(** * Further properties of the API client *)
(* ================================================================== *)

Section RetryLaw.
Context `{Remote}.

Lemma is_404_answered (req : Request) (w : World) (e : Error) :
  fst (apiFetch req w) = Thrown e ->
  is_404 e = answered_404 (fetch (sent w) req).
Proof.
  rewrite apiFetch_outcome.
  destruct (fetch (sent w) req) as [ msg | | status statusText text ].
  - intros Heq. injection Heq as <-. reflexivity.
  - intros Heq. injection Heq as <-. reflexivity.
  - destruct (ok status); [ discriminate | ].
    intros Heq. injection Heq as <-. reflexivity.
Qed.

Lemma answered_404_throws (req : Request) (w : World) :
  answered_404 (fetch (sent w) req) = true ->
  exists e, fst (apiFetch req w) = Thrown e.
Proof.
  rewrite apiFetch_outcome.
  destruct (fetch (sent w) req) as [ msg | | status statusText text ];
    try discriminate.
  simpl. intros H404. apply Z.eqb_eq in H404. subst status.
  eexists. reflexivity.
Qed.

Lemma retry_law (flat nested : Request) (w : World) :
  try_catch (apiFetch flat)
            (fun err => if is_404 err then apiFetch nested else throw err) w
  = if answered_404 (fetch (sent w) flat)
    then apiFetch nested (after_request flat w)
    else apiFetch flat w.
Proof.
  unfold try_catch. rewrite (apiFetch_run flat w).
  destruct (fst (apiFetch flat w)) as [ res | e ] eqn:Hflat.
  - destruct (answered_404 (fetch (sent w) flat)) eqn:H404; [ | reflexivity ].
    destruct (answered_404_throws flat w H404) as [e He]. congruence.
  - rewrite (is_404_answered flat w Hflat).
    now destruct (answered_404 (fetch (sent w) flat)).
Qed.

(** X7. Updating or deleting an adaptation or a report sends the request on
    the flat path; the nested path is tried, once, exactly when the flat
    request was answered [404] (not after a time-out, a network failure or
    any other status), and the outcome is that of the last request sent.
    The local store is not involved. *)
Theorem nested_path_is_tried_only_after_404
        (studentId id : string) (updates : jsval) (w : World) :
  let law (op : M jsval) (flat nested : Request) :=
    op w = (if answered_404 (fetch (sent w) flat)
            then apiFetch nested (after_request flat w)
            else apiFetch flat w)
    /\ sent (snd (op w))
       = sent w ++ flat :: (if answered_404 (fetch (sent w) flat) then [nested] else [])
    /\ ls (snd (op w)) = ls w in
  law (api.updateAdaptation studentId id updates)
      (json_request "PUT" (API_URL ++ "/adaptations/" ++ id) updates)
      (json_request "PUT" (API_URL ++ "/adaptations/" ++ studentId ++ "/" ++ id) updates)
  /\ law (api.updateReport studentId id updates)
         (json_request "PUT" (API_URL ++ "/reports/" ++ id) updates)
         (json_request "PUT" (API_URL ++ "/reports/" ++ studentId ++ "/" ++ id) updates)
  /\ law (api.deleteAdaptation studentId id)
         (DELETE (API_URL ++ "/adaptations/" ++ id))
         (DELETE (API_URL ++ "/adaptations/" ++ studentId ++ "/" ++ id))
  /\ law (api.deleteReport studentId id)
         (DELETE (API_URL ++ "/reports/" ++ id))
         (DELETE (API_URL ++ "/reports/" ++ studentId ++ "/" ++ id)).
Proof.
  assert (Hlaw : forall flat nested,
             let op := try_catch (apiFetch flat)
                         (fun err => if is_404 err then apiFetch nested else throw err) in
             op w = (if answered_404 (fetch (sent w) flat)
                     then apiFetch nested (after_request flat w)
                     else apiFetch flat w)
             /\ sent (snd (op w))
                = sent w ++ flat :: (if answered_404 (fetch (sent w) flat)
                                     then [nested] else [])
             /\ ls (snd (op w)) = ls w).
  { intros flat nested. cbv zeta. rewrite retry_law.
    split; [ reflexivity | ].
    destruct (answered_404 (fetch (sent w) flat)); rewrite apiFetch_world;
      cbn [sent ls after_request]; rewrite <- ?app_assoc; split; reflexivity. }
  cbv zeta. repeat apply conj; apply Hlaw.
Qed.

End RetryLaw.

Lemma bind_run {A B} (m : M A) (k : A -> M B) (w : World) :
  bind m k w =
  match fst (m w) with
  | Returned a => k a (snd (m w))
  | Thrown e => (Thrown e, snd (m w))
  end.
Proof. unfold bind. now destruct (m w) as [ [ a | e ] w' ]. Qed.

Section AggregatedReport.
Context `{Remote}.

Lemma sends_ret {A} (allowed : list Request) (a : A) : sends_at_most 0 allowed (ret a).
Proof.
  intros w. exists []. unfold ret. cbn [fst snd]. rewrite app_nil_r.
  repeat split; try reflexivity.
  - intros r [].
  - discriminate.
Qed.

Lemma sends_weaken {A} (n n' : nat) (allowed : list Request) (m : M A) :
  (n <= n')%nat -> sends_at_most n allowed m -> sends_at_most n' allowed m.
Proof.
  intros Hle Hm w. destruct (Hm w) as [more [Hls [Hc [Ht [Hs [Hlen [Hin Hthrow]]]]]]].
  exists more. repeat split; try assumption. lia.
Qed.

Lemma sends_bind {A B} (n k : nat) (allowed : list Request) (m : M A) (f : A -> M B) :
  sends_at_most n allowed m -> (forall a, sends_at_most k allowed (f a)) ->
  sends_at_most (n + k) allowed (bind m f).
Proof.
  intros Hm Hf w. unfold bind.
  destruct (Hm w) as [more [Hls [Hc [Ht [Hs [Hlen [Hin Hthrow]]]]]]].
  destruct (m w) as [ [ a | e ] w1 ]; cbn [fst snd] in *.
  - destruct (Hf a w1) as [more' [Hls' [Hc' [Ht' [Hs' [Hlen' [Hin' Hthrow']]]]]]].
    exists (more ++ more').
    rewrite Hls', Hc', Ht', Hs', Hls, Hc, Ht, Hs, length_app, app_assoc.
    repeat split; try reflexivity; [ lia | now apply incl_app | exact Hthrow' ].
  - exists more. repeat split; try assumption; [ lia | ].
    intros e0 He0. injection He0 as <-. now apply Hthrow.
Qed.

Lemma find_student_throws (studentId : string) (l : list jsval) (e : Error) :
  find_student studentId l = Thrown e -> e = TypeError.
Proof.
  unfold find_student.
  induction l as [ | s rest IH ]; simpl; [ discriminate | ].
  destruct (nullish s).
  - intros Heq. now injection Heq as <-.
  - destruct (String.eqb _ studentId); [ discriminate | exact IH ].
Qed.

Lemma sends_find_student (allowed : list Request) (studentId : string) (v : jsval) :
  sends_at_most 0 allowed
    (lift (match v with
           | JArr l => find_student studentId l
           | _ => Returned JNull
           end)).
Proof.
  intros w. exists []. unfold lift. cbn [fst snd]. rewrite app_nil_r.
  repeat split; try reflexivity.
  - intros r [].
  - intros e. destruct v; try discriminate. apply find_student_throws.
Qed.

Lemma fetch_or_empty_run (u : string) (w : World) :
  api.fetch_or_empty u w =
  (Returned (match fst (apiFetch (GET u) w) with
             | Returned v => v
             | Thrown _ => JArr []
             end),
   after_request (GET u) w).
Proof.
  unfold api.fetch_or_empty, try_catch. rewrite (apiFetch_run (GET u) w).
  now destruct (fst (apiFetch (GET u) w)).
Qed.

Lemma sends_fetch_or_empty (allowed : list Request) (u : string) :
  In (GET u) allowed -> sends_at_most 1 allowed (api.fetch_or_empty u).
Proof.
  intros Hin w. exists [GET u]. rewrite fetch_or_empty_run. cbn [fst snd after_request ls clock toasts sent].
  repeat split; try reflexivity.
  - intros r [ <- | [] ]. exact Hin.
  - discriminate.
Qed.

Lemma sends_assemble_separately (studentId : string) :
  sends_at_most 3 (separate_requests studentId) (api.assemble_separately studentId).
Proof.
  unfold api.assemble_separately.
  apply (sends_bind (n := 1) (k := 2));
    [ apply sends_fetch_or_empty; now left | intros students ].
  apply (sends_bind (n := 1) (k := 1));
    [ apply sends_fetch_or_empty; right; now left | intros adaptations ].
  apply (sends_bind (n := 1) (k := 0));
    [ apply sends_fetch_or_empty; right; right; now left | intros reports ].
  apply (sends_bind (n := 0) (k := 0)); [ apply sends_find_student | intros student ].
  apply sends_ret.
Qed.

(** What follows the first response, when it was received. *)
Lemma sends_after_first_response (studentId : string) (res : jsval) :
  sends_at_most 3 (separate_requests studentId)
    (if truthy res && typeof_object res
        && (in_ "student" res || in_ "reports" res || in_ "adaptations" res)
     then
       ret (JObj [ ("student", coalesce (prop res "student") JNull);
                   ("adaptations", coalesce (prop res "adaptations") (JArr []));
                   ("reports", coalesce (prop res "reports") (JArr [])) ])
     else
       match res with
       | JArr items =>
           let first := nth 0 items JUndefined in
           if truthy first
              && truthy (or_ (or_ (prop first "registrationNumber")
                                  (prop first "birthDate"))
                             (prop first "course"))
           then
             found <- lift (find_student studentId items) ;;
             adaptations <- api.fetch_or_empty (API_URL ++ "/adaptations/" ++ studentId) ;;
             reports <- api.fetch_or_empty (API_URL ++ "/reports/" ++ studentId) ;;
             ret (JObj [ ("student", or_ found JNull);
                         ("adaptations", or_ adaptations (JArr []));
                         ("reports", or_ reports (JArr [])) ])
           else if truthy first
                   && truthy (or_ (or_ (prop first "subject") (prop first "teacherId"))
                                  (prop first "result"))
           then
             studentsResp <- api.fetch_or_empty (API_URL ++ "/students") ;;
             student <- lift (match studentsResp with
                              | JArr l => find_student studentId l
                              | _ => Returned JNull
                              end) ;;
             adaptations <- api.fetch_or_empty (API_URL ++ "/adaptations/" ++ studentId) ;;
             ret (JObj [ ("student", student);
                         ("adaptations", or_ adaptations (JArr []));
                         ("reports", or_ res (JArr [])) ])
           else if truthy first
                   && truthy (or_ (prop first "justification")
                                  (prop first "description"))
           then
             studentsResp <- api.fetch_or_empty (API_URL ++ "/students") ;;
             student <- lift (match studentsResp with
                              | JArr l => find_student studentId l
                              | _ => Returned JNull
                              end) ;;
             reports <- api.fetch_or_empty (API_URL ++ "/reports/" ++ studentId) ;;
             ret (JObj [ ("student", student);
                         ("adaptations", or_ res (JArr []));
                         ("reports", or_ reports (JArr [])) ])
           else api.assemble_separately studentId
       | _ => api.assemble_separately studentId
       end)%js.
Proof.
  destruct (truthy res && typeof_object res && _).
  { apply (sends_weaken (n := 0)); [ lia | apply sends_ret ]. }
  destruct res as [ | | b | n | s | items | o ]; try apply sends_assemble_separately.
  cbv zeta.
  destruct (truthy (nth 0 items JUndefined) && _).
  { apply (sends_bind (n := 0) (k := 3)).
    - apply (sends_find_student _ studentId (JArr items)).
    - intros found.
      apply (sends_bind (n := 1) (k := 2));
        [ apply sends_fetch_or_empty; right; now left | intros adaptations ].
      apply (sends_bind (n := 1) (k := 1));
        [ apply sends_fetch_or_empty; right; right; now left | intros reports ].
      apply (sends_weaken (n := 0)); [ lia | apply sends_ret ]. }
  destruct (truthy (nth 0 items JUndefined) && _).
  { apply (sends_bind (n := 1) (k := 2));
      [ apply sends_fetch_or_empty; now left | intros studentsResp ].
    apply (sends_bind (n := 0) (k := 2)); [ apply sends_find_student | intros student ].
    apply (sends_bind (n := 1) (k := 1));
      [ apply sends_fetch_or_empty; right; now left | intros adaptations ].
    apply (sends_weaken (n := 0)); [ lia | apply sends_ret ]. }
  destruct (truthy (nth 0 items JUndefined) && _).
  { apply (sends_bind (n := 1) (k := 2));
      [ apply sends_fetch_or_empty; now left | intros studentsResp ].
    apply (sends_bind (n := 0) (k := 2)); [ apply sends_find_student | intros student ].
    apply (sends_bind (n := 1) (k := 1));
      [ apply sends_fetch_or_empty; right; right; now left | intros reports ].
    apply (sends_weaken (n := 0)); [ lia | apply sends_ret ]. }
  apply sends_assemble_separately.
Qed.

(** What [api.getStudentReport] sends, changes and throws. *)
Lemma getStudentReport_frame (studentId : string) (w : World) :
  let first := GET (API_URL ++ "/reports/" ++ studentId) in
  let out := api.getStudentReport studentId w in
  exists more,
    sent (snd out) = sent w ++ first :: more
    /\ (length more <= 3)%nat
    /\ incl more (separate_requests studentId)
    /\ ls (snd out) = ls w /\ clock (snd out) = clock w /\ toasts (snd out) = toasts w
    /\ (forall e, fst out = Thrown e ->
                  e = TypeError
                  \/ (fst (apiFetch first w) = Thrown e /\ is_404 e = false)).
Proof.
  cbv zeta. unfold api.getStudentReport, try_catch.
  rewrite (bind_run (apiFetch (GET (API_URL ++ "/reports/" ++ studentId)))).
  rewrite (apiFetch_run (GET (API_URL ++ "/reports/" ++ studentId)) w).
  cbn [fst snd].
  destruct (fst (apiFetch (GET (API_URL ++ "/reports/" ++ studentId)) w))
    as [ res | e0 ] eqn:Hfirst.
  - destruct (sends_after_first_response studentId res
                (after_request (GET (API_URL ++ "/reports/" ++ studentId)) w))
      as [more [Hls [Hc [Ht [Hs [Hlen [Hin Hthrow]]]]]]].
    match goal with
    | Hls : ls (snd (?m ?w1)) = _ |- _ => destruct (m w1) as [ [ r | e ] w2 ] eqn:Hrun
    end; cbn [fst snd] in *.
    + exists more. rewrite Hs. cbn [sent after_request]. rewrite <- app_assoc.
      repeat split; try assumption; try reflexivity. discriminate.
    + rewrite (Hthrow e eq_refl). change (is_404 TypeError) with false. cbv iota.
      unfold throw. cbn [fst snd].
      exists more. rewrite Hs. cbn [sent after_request]. rewrite <- app_assoc.
      repeat split; try assumption; try reflexivity.
      intros e' He'. left. now injection He' as <-.
  - destruct (is_404 e0) eqn:H404.
    + destruct (sends_assemble_separately studentId
                  (after_request (GET (API_URL ++ "/reports/" ++ studentId)) w))
        as [more [Hls [Hc [Ht [Hs [Hlen [Hin Hthrow]]]]]]].
      exists more. rewrite Hs. cbn [sent after_request]. rewrite <- app_assoc.
      repeat split; try assumption; try reflexivity.
      intros e He. left. now apply Hthrow.
    + exists []. unfold throw. cbn [fst snd sent ls clock toasts after_request].
      repeat split; try reflexivity; [ simpl; lia | intros r [] | ].
      intros e He. right. injection He as <-. now split.
Qed.

Lemma yields_ret {A} (P : A -> Prop) (a : A) : P a -> yields P (ret a).
Proof. intros HP w a' Heq. unfold ret in Heq. simpl in Heq. now injection Heq as <-. Qed.

Lemma yields_bind {A B} (P : B -> Prop) (m : M A) (f : A -> M B) :
  (forall a, yields P (f a)) -> yields P (bind m f).
Proof.
  intros Hf w b. rewrite bind_run.
  destruct (fst (m w)) as [ a | e ]; [ apply Hf | discriminate ].
Qed.

Lemma yields_try_catch {A} (P : A -> Prop) (m : M A) (h : Error -> M A) :
  yields P m -> (forall e, yields P (h e)) -> yields P (try_catch m h).
Proof.
  intros Hm Hh w a. unfold try_catch.
  destruct (m w) as [ [ a' | e ] w' ] eqn:Hrun.
  - intros Heq. apply (Hm w). now rewrite Hrun.
  - apply Hh.
Qed.

Lemma or_empty_defined (v : jsval) : nullish (or_ v (JArr [])) = false.
Proof. unfold or_. now destruct v as [ | | [ | ] | n | s | l | o ]; simpl; try destruct (_ =? _)%Z; try destruct (String.eqb _ _). Qed.

Lemma coalesce_empty_defined (v : jsval) : nullish (coalesce v (JArr [])) = false.
Proof. now destruct v. Qed.

Lemma yields_assemble_separately (studentId : string) :
  yields aggregate (api.assemble_separately studentId).
Proof.
  unfold api.assemble_separately.
  do 4 (apply yields_bind; intros ?).
  apply yields_ret. unfold aggregate. do 3 eexists.
  split; [ reflexivity | split; apply or_empty_defined ].
Qed.

Lemma getStudentReport_aggregate (studentId : string) :
  yields aggregate (api.getStudentReport studentId).
Proof.
  unfold api.getStudentReport.
  apply yields_try_catch.
  - apply yields_bind. intros res.
    destruct (truthy res && typeof_object res && _).
    { apply yields_ret. unfold aggregate. do 3 eexists.
      split; [ reflexivity | split; apply coalesce_empty_defined ]. }
    destruct res as [ | | b | n | s | items | o ]; try apply yields_assemble_separately.
    cbv zeta.
    repeat match goal with
           | |- yields _ (if ?c then _ else _) => destruct c
           end;
      try apply yields_assemble_separately;
      (do 3 (apply yields_bind; intros ?));
      apply yields_ret; unfold aggregate; do 3 eexists;
      (split; [ reflexivity | split; apply or_empty_defined ]).
  - intros e. destruct (is_404 e); [ apply yields_assemble_separately | ].
    intros w a. discriminate.
Qed.

(** X8. [api.getStudentReport] first sends [GET /reports/{id}], then at most
    three more requests, each one of the three list requests; it leaves the
    local store, the clock and the notifications alone.  A failure of a
    later request never makes it fail: when it throws, either the first
    request failed with a status other than [404] and that error is thrown,
    or a student list it searched held [null] or [undefined].  What it
    returns is always the aggregate of a student, adaptations and reports,
    the two lists being neither [null] nor [undefined]. *)
Theorem aggregated_report_degrades_gracefully (studentId : string) (w : World) :
  let first := GET (API_URL ++ "/reports/" ++ studentId) in
  let out := api.getStudentReport studentId w in
  (exists more,
      sent (snd out) = sent w ++ first :: more
      /\ (length more <= 3)%nat
      /\ incl more (separate_requests studentId))
  /\ ls (snd out) = ls w /\ clock (snd out) = clock w /\ toasts (snd out) = toasts w
  /\ match fst out with
     | Returned v => aggregate v
     | Thrown e =>
         e = TypeError \/ (fst (apiFetch first w) = Thrown e /\ is_404 e = false)
     end.
Proof.
  cbv zeta.
  destruct (getStudentReport_frame studentId w)
    as [more [Hs [Hlen [Hin [Hls [Hc [Ht Hthrow]]]]]]].
  split; [ exists more; now repeat split | ].
  repeat split; try assumption.
  destruct (fst (api.getStudentReport studentId w)) as [ v | e ] eqn:Hout.
  - exact (getStudentReport_aggregate studentId w Hout).
  - now apply Hthrow.
Qed.

End AggregatedReport.

(* ================================================================== *)
(** * Further properties of the report page *)
(* ================================================================== *)

Lemma get_of_entry (m : obj) (k : string) (v : jsval) :
  NoDup (map fst m) -> In (k, v) m -> get m k = v.
Proof.
  induction m as [ | [k' v'] rest IH ]; simpl; [ intros _ [] | ].
  intros Hnd [ Heq | Hin ].
  - injection Heq as -> ->. now rewrite String.eqb_refl.
  - inversion Hnd as [ | ? ? Hnotin Hnd' ]; subst.
    destruct (String.eqb k' k) eqn:Hk.
    + apply String.eqb_eq in Hk. subst k'. exfalso. apply Hnotin.
      now apply (in_map fst) in Hin.
    + now apply IH.
Qed.

Section MergeCharacterised.
Context `{Platform}.

Lemma keys_of_keyed (m : obj) : keyed m -> map key_of (map snd m) = map fst m.
Proof.
  unfold keyed. induction 1 as [ | kv rest [Hkey _] _ IH ]; simpl; [ reflexivity | ].
  now rewrite Hkey, IH.
Qed.

Lemma merged_returned (remote : jsval) (local : list obj) (l : list jsval) :
  StudentReport.merged remote local = Returned l ->
  let entries := (StudentReport.asArray remote ++ map JObj local)%list in
  l = map snd (set_all entries [])
  /\ keyed (set_all entries [])
  /\ NoDup (map fst (set_all entries [])).
Proof.
  unfold StudentReport.merged. intros Hm. cbv zeta.
  destruct (StudentReport.forEach_set (StudentReport.asArray remote) [])
    as [ map0 | e ] eqn:H0; [ | discriminate ].
  apply forEach_set_returned in H0. destruct H0 as [-> Hdef].
  rewrite (forEach_set_defined _ (local_entries_defined local)) in Hm.
  injection Hm as <-.
  assert (Hall : set_all (map JObj local) (set_all (StudentReport.asArray remote) [])
                 = set_all (StudentReport.asArray remote ++ map JObj local) []).
  { unfold set_all. now rewrite fold_left_app. }
  rewrite Hall. repeat split.
  - apply keyed_set_all; [ | constructor ].
    apply Forall_app. split; [ exact Hdef | apply local_entries_defined ].
  - apply NoDup_keys_set_all. constructor.
Qed.

Lemma asArray_defined (remote : jsval) :
  Forall (fun a => nullish a = false) (StudentReport.asArray remote) \/
  exists items, remote = JArr items /\ Exists (fun a => nullish a = true) items.
Proof.
  unfold StudentReport.asArray.
  destruct remote as [ | | b | n | s | items | o ]; cbn [truthy negb].
  1-5: left; repeat match goal with |- context [if ?c then _ else _] => destruct c end;
       constructor.
  - destruct (Forall_Exists_dec (fun a => nullish a = false)
                (fun a => Bool.bool_dec (nullish a) false) items) as [ Hall | Hex ].
    + now left.
    + right. exists items. split; [ reflexivity | ].
      apply Exists_impl with (2 := Hex). intros a Ha. now destruct (nullish a).
  - left. constructor; [ reflexivity | constructor ].
Qed.

Lemma forEach_set_throws (l : list jsval) (m : obj) (e : Error) :
  StudentReport.forEach_set l m = Thrown e ->
  e = TypeError /\ Exists (fun a => nullish a = true) l.
Proof.
  revert m. induction l as [ | a rest IH ]; simpl; intros m; [ discriminate | ].
  unfold StudentReport.key. destruct (nullish a) eqn:Hn.
  - intros Heq. injection Heq as <-. split; [ reflexivity | now left ].
  - intros Hrest. destruct (IH _ Hrest) as [-> Hex]. split; [ reflexivity | now right ].
Qed.

(** X9. The merge of the report page, whenever it returns: every entry
    shown is the last one carrying its key among the remote entries
    followed by the local ones, so a local record replaces the remote entry
    with the same key; every remote and every local entry has its key in the
    result; and the merge fails, with a [TypeError], only when the remote
    array holds [null] or [undefined]. *)
Theorem merge_keeps_the_last_entry_of_each_key (remote : jsval) (local : list obj) :
  let entries := (StudentReport.asArray remote ++ map JObj local)%list in
  match StudentReport.merged remote local with
  | Returned l =>
      (forall a, In a l -> In a entries /\ a = override entries (key_of a) JUndefined)
      /\ (forall a, In a entries -> In (key_of a) (map key_of l))
      /\ (forall a, In a local -> In (override (map JObj local) (key_of (JObj a)) JUndefined) l)
  | Thrown e =>
      e = TypeError
      /\ exists items, remote = JArr items /\ Exists (fun a => nullish a = true) items
  end.
Proof.
  cbv zeta. destruct (StudentReport.merged remote local) as [ l | e ] eqn:Hm.
  - destruct (merged_returned _ _ Hm) as [-> [Hkeyed Hnd]].
    set (entries := (StudentReport.asArray remote ++ map JObj local)%list) in *.
    assert (Hentry : forall a, In a (map snd (set_all entries [])) ->
                               a = override entries (key_of a) JUndefined).
    { intros a Ha. apply in_map_iff in Ha. destruct Ha as [ [k v] [Hv Hin] ].
      simpl in Hv. subst v.
      unfold keyed in Hkeyed. rewrite Forall_forall in Hkeyed.
      destruct (Hkeyed _ Hin) as [Hk _]. simpl in Hk.
      rewrite <- (get_set_all entries [] (key_of a)). symmetry.
      apply get_of_entry; [ exact Hnd | now rewrite Hk ]. }
    assert (Hfrom : forall l0 k d, override l0 k d = d \/ In (override l0 k d) l0).
    { induction l0 as [ | a0 rest IH ]; intros k d; simpl; [ now left | ].
      destruct (IH k (if String.eqb (key_of a0) k then a0 else d)) as [ Heq | Hin ].
      - rewrite Heq. destruct (String.eqb (key_of a0) k); [ right; now left | now left ].
      - right. now right. }
    assert (Hkeys : forall a, In a entries ->
                              In (key_of a) (map key_of (map snd (set_all entries [])))).
    { intros a Ha. rewrite (keys_of_keyed Hkeyed). now apply keys_of_entries_set. }
    repeat split.
    + destruct (Hfrom entries (key_of a) JUndefined) as [ Hund | Hin ].
      * exfalso. rewrite <- (Hentry a H0) in Hund. subst a.
        apply in_map_iff in H0. destruct H0 as [ [k v] [Hv Hin] ].
        unfold keyed in Hkeyed. rewrite Forall_forall in Hkeyed.
        destruct (Hkeyed _ Hin) as [_ Hn]. simpl in Hv, Hn. subst v. discriminate.
      * now rewrite <- (Hentry a H0) in Hin.
    + now apply Hentry.
    + exact Hkeys.
    + intros a Ha.
      assert (Hlast : forall d, override entries (key_of (JObj a)) d
                                = override (map JObj local) (key_of (JObj a)) JUndefined).
      { intros d. unfold entries.
        assert (Happ : forall l1 l2 k d0,
                   override (l1 ++ l2) k d0 = override l2 k (override l1 k d0)).
        { induction l1 as [ | x l1 IH ]; intros l2 k d0; simpl; [ reflexivity | apply IH ]. }
        rewrite Happ.
        destruct (override_cases (map JObj local) (key_of (JObj a))) as [ [v Hv] | Hid ].
        - now rewrite !Hv.
        - exfalso.
          assert (Hfound : forall l0 x, In x l0 ->
                     nullish x = false ->
                     (forall d0, override l0 (key_of x) d0 = d0) -> False).
          { induction l0 as [ | y rest IH ]; intros x Hx Hn Hall; [ destruct Hx | ].
            simpl in Hall. destruct Hx as [ -> | Hx ].
            - rewrite String.eqb_refl in Hall.
              destruct (override_cases rest (key_of x)) as [ [v Hv] | Hid' ].
              + specialize (Hall JUndefined) as H1. specialize (Hall JNull) as H2.
                rewrite Hv in H1, H2. congruence.
              + specialize (Hall JUndefined). rewrite Hid' in Hall.
                subst x. discriminate.
            - apply (IH x Hx Hn). intros d0.
              destruct (override_cases rest (key_of x)) as [ [v Hv] | Hid' ].
              + specialize (Hall JUndefined) as H1. specialize (Hall JNull) as H2.
                rewrite Hv in H1, H2. congruence.
              + apply Hid'. }
          apply (Hfound (map JObj local) (JObj a)); [ now apply in_map | reflexivity | exact Hid ]. }
      assert (Hin : In (JObj a) entries).
      { unfold entries. apply in_or_app. right. now apply in_map. }
      specialize (Hkeys _ Hin). apply in_map_iff in Hkeys.
      destruct Hkeys as [ b [Hkb Hb] ].
      rewrite <- (Hlast JUndefined), <- Hkb, <- (Hentry b Hb). exact Hb.
  - unfold StudentReport.merged in Hm.
    destruct (StudentReport.forEach_set (StudentReport.asArray remote) [])
      as [ map0 | e0 ] eqn:H0.
    + now rewrite (forEach_set_defined _ (local_entries_defined local)) in Hm.
    + injection Hm as <-. apply forEach_set_throws in H0. destruct H0 as [-> Hex].
      split; [ reflexivity | ].
      destruct (asArray_defined remote) as [ Hall | Hitems ]; [ | exact Hitems ].
      exfalso. apply Exists_exists in Hex. destruct Hex as [ a [Ha Hn] ].
      rewrite Forall_forall in Hall. rewrite (Hall a Ha) in Hn. discriminate.
Qed.

End MergeCharacterised.

Lemma swallowed_run {A} (m : M A) (w : World) :
  try_catch (m ;; ret tt)%js (fun _ => ret tt) w = (Returned tt, snd (m w)).
Proof.
  unfold try_catch. rewrite bind_run. unfold ret.
  now destruct (m w) as [ [ a | e ] w' ].
Qed.

Section ReportPage.
Context `{Platform} `{Remote}.

Lemma set_all_distinct (l : list jsval) :
  Forall (fun a => nullish a = false) l -> NoDup (map key_of l) ->
  map snd (set_all l []) = l.
Proof.
  intros Hdef Hnd.
  assert (Hkeyed : keyed (map (fun a => (key_of a, a)) l)).
  { unfold keyed. apply Forall_map. simpl.
    apply Forall_impl with (2 := Hdef). intros a Ha. now split. }
  assert (Hl : map snd (map (fun a => (key_of a, a)) l) = l).
  { rewrite map_map. simpl. apply map_id. }
  assert (Hk : map fst (map (fun a => (key_of a, a)) l) = map key_of l).
  { rewrite map_map. reflexivity. }
  rewrite <- Hl at 1.
  rewrite (set_all_rebuilds [] Hkeyed) by (simpl; now rewrite Hk).
  exact Hl.
Qed.

Lemma merged_local_only (local : list obj) :
  NoDup (map key_of (map JObj local)) ->
  StudentReport.merged (JArr []) local = Returned (map JObj local).
Proof.
  intros Hnd. unfold StudentReport.merged. cbn [StudentReport.asArray truthy negb].
  cbn [StudentReport.forEach_set].
  rewrite (forEach_set_defined _ (local_entries_defined local)).
  now rewrite (set_all_distinct (local_entries_defined local) Hnd).
Qed.

Lemma getStudentReport_rethrows (studentId : string) (w : World) :
  fails (fetch (sent w) (GET (API_URL ++ "/reports/" ++ studentId))) = true ->
  answered_404 (fetch (sent w) (GET (API_URL ++ "/reports/" ++ studentId))) = false ->
  exists e,
    api.getStudentReport studentId w =
    (Thrown e, after_request (GET (API_URL ++ "/reports/" ++ studentId)) w).
Proof.
  intros Hfails H404.
  destruct (apiFetch_fails _ w Hfails) as [e He].
  exists e. unfold api.getStudentReport, try_catch. rewrite bind_run, He. cbn [fst snd].
  assert (Hfst : fst (apiFetch (GET (API_URL ++ "/reports/" ++ studentId)) w) = Thrown e)
    by now rewrite He.
  now rewrite (is_404_answered _ w Hfst), H404.
Qed.

(** X10. When the first request of the report fails otherwise than with a
    [404] (the network is down, the request times out, the server answers
    [500]), the page sends nothing else and shows, without an error, the
    adaptations and the reports the local store holds for the student,
    provided their merge keys are distinct; the student shown is [null]. *)
Theorem page_shows_the_local_records_when_the_remote_fails
        (studentId : string) (st : StudentReport.State) (w : World) :
  let first := GET (API_URL ++ "/reports/" ++ studentId) in
  let localAdaptations := map JObj (adaptationStorage.getByStudent studentId (ls w)) in
  let localReports := map JObj (reportStorage.getByStudent studentId (ls w)) in
  fails (fetch (sent w) first) = true ->
  answered_404 (fetch (sent w) first) = false ->
  NoDup (map key_of localAdaptations) ->
  NoDup (map key_of localReports) ->
  StudentReportPage.loadReport None studentId st w
  = ({| StudentReport.data :=
          Some {| StudentReport.student := JNull;
                  StudentReport.adaptations := localAdaptations;
                  StudentReport.reports := localReports |};
        StudentReport.loading := false;
        StudentReport.error := "" |},
     after_request first w).
Proof.
  cbv zeta. intros Hfails H404 HndA HndR.
  destruct (getStudentReport_rethrows studentId w Hfails H404) as [e He].
  unfold StudentReportPage.loadReport.
  change (StudentReportPage.optimistic None st) with false. cbv iota zeta.
  rewrite He. cbn [fst snd after_request ls].
  unfold StudentReport.loadReport, StudentReport.assemble.
  change (member TypeError
            (JObj [("student", JNull); ("adaptations", JArr []); ("reports", JArr [])])
            "adaptations") with (@Returned Error jsval (JArr [])).
  change (prop (JObj [("student", JNull); ("adaptations", JArr []); ("reports", JArr [])])
               "reports") with (JArr []).
  change (prop (JObj [("student", JNull); ("adaptations", JArr []); ("reports", JArr [])])
               "student") with JNull.
  cbv iota beta.
  rewrite (merged_local_only _ HndA), (merged_local_only _ HndR).
  reflexivity.
Qed.

End ReportPage.

(** The page offline, on a store that holds one adaptation of the student. *)
Lemma page_shows_the_local_records_when_the_remote_fails_witness :
  fst (@StudentReportPage.loadReport sample_platform offline None "stu-1"
         {| StudentReport.data := None; StudentReport.loading := true;
            StudentReport.error := "" |} world_with_adaptation)
  = {| StudentReport.data :=
         Some {| StudentReport.student := JNull;
                 StudentReport.adaptations := [JObj stored_adaptation];
                 StudentReport.reports := [] |};
       StudentReport.loading := false;
       StudentReport.error := "" |}.
Proof.
  rewrite (@page_shows_the_local_records_when_the_remote_fails sample_platform offline
             "stu-1" _ world_with_adaptation eq_refl eq_refl).
  - reflexivity.
  - vm_compute. constructor; [ intros [] | constructor ].
  - vm_compute. constructor.
Defined.

(** The optimistic branches of [loadReport] come before the remote call:
    when one is taken, what the remote would have answered plays no part. *)
Lemma optimistic_ignores_the_remote `{Platform}
      (createdItem : option jsval) (remote remote' : attempt Error jsval)
      (studentId : string) (s : Storage) (st : StudentReport.State) :
  StudentReportPage.optimistic createdItem st = true ->
  StudentReport.loadReport createdItem remote studentId s st
  = StudentReport.loadReport createdItem remote' studentId s st.
Proof.
  unfold StudentReportPage.optimistic, StudentReport.loadReport.
  destruct createdItem as [ item | ]; [ | discriminate ].
  destruct (StudentReport.data st) as [ d | ]; [ | discriminate ].
  destruct (truthy item); [ | discriminate ].
  destruct (prop item "result"); try reflexivity.
  destruct (prop item "justification"); try reflexivity.
  discriminate.
Qed.

Section DeletingOnThePage.
Context `{Platform} `{Remote}.

Lemma retried_world (flat nested : Request) (w : World) :
  snd (try_catch (apiFetch flat)
         (fun err => if is_404 err then apiFetch nested else throw err) w)
  = if answered_404 (fetch (sent w) flat)
    then after_request nested (after_request flat w)
    else after_request flat w.
Proof.
  rewrite retry_law.
  destruct (answered_404 (fetch (sent w) flat)); apply apiFetch_world.
Qed.

Lemma reload_frame (studentId : string) (st : StudentReport.State) (w : World) :
  let out := StudentReportPage.loadReport None studentId st w in
  fst out = StudentReport.loadReport None (fst (api.getStudentReport studentId w))
              studentId (ls w) st
  /\ ls (snd out) = ls w /\ toasts (snd out) = toasts w
  /\ exists more,
       sent (snd out) = sent w ++ GET (API_URL ++ "/reports/" ++ studentId) :: more
       /\ (length more <= 3)%nat.
Proof.
  cbv zeta. unfold StudentReportPage.loadReport.
  change (StudentReportPage.optimistic None st) with false. cbv iota zeta.
  cbn [fst snd].
  destruct (getStudentReport_frame studentId w)
    as [more [Hs [Hlen [Hin [Hls [Hc [Ht Hthrow]]]]]]].
  rewrite Hls. repeat split; try assumption.
  exists more. now split.
Qed.

Lemma delete_steps_run (delete : Storage -> bool * Storage) (flat nested : Request)
      (notice : string) (w : World) :
  (modify delete ;;
   try_catch
     (try_catch (apiFetch flat)
        (fun err => if is_404 err then apiFetch nested else throw err) ;;
      ret tt)
     (fun _ => ret tt) ;;
   toast (toast_success notice))%js w
  = (Returned tt,
     {| ls := snd (delete (ls w)); clock := clock w;
        sent := sent w ++ flat :: (if answered_404 (fetch (sent w) flat)
                                   then [nested] else []);
        toasts := toasts w ++ [toast_success notice] |}).
Proof.
  rewrite bind_run. unfold modify. cbn [fst snd].
  rewrite bind_run, swallowed_run. cbn [fst snd].
  rewrite retried_world. cbn [sent].
  destruct (answered_404 (fetch (sent w) flat)); unfold toast;
    cbn [ls clock sent toasts after_request]; rewrite <- ?app_assoc; reflexivity.
Qed.

(** X11. Deleting an adaptation or a report on the page, once confirmed:
    the local store is what the local [delete] alone makes of it, whatever
    the remote answers; the remote delete is sent on the flat path and, only
    after a [404], on the nested one; success is announced in every case;
    then the report is loaded again, from the store as it is after the
    deletion.  Unconfirmed, the handler does nothing. *)
Theorem page_deletes_locally_whatever_the_remote_answers
        (studentId id : string) (st : StudentReport.State) (w : World) :
  let law (handler : bool -> World -> StudentReport.State * World)
          (delete : Storage -> bool * Storage) (flat nested : Request)
          (notice : string) :=
    let first := GET (API_URL ++ "/reports/" ++ studentId) in
    let out := handler true w in
    let deleted := snd (delete (ls w)) in
    handler false w = (st, w)
    /\ ls (snd out) = deleted
    /\ toasts (snd out) = toasts w ++ [toast_success notice]
    /\ (exists more,
           sent (snd out)
           = sent w ++ flat :: (if answered_404 (fetch (sent w) flat) then [nested] else [])
                    ++ first :: more
           /\ (length more <= 3)%nat)
    /\ exists remote, fst out = StudentReport.loadReport None remote studentId deleted st in
  law (fun confirmed => StudentReportPage.handleDeleteAdaptation confirmed studentId id st)
      (adaptationStorage.delete id)
      (DELETE (API_URL ++ "/adaptations/" ++ id))
      (DELETE (API_URL ++ "/adaptations/" ++ studentId ++ "/" ++ id))
      "Adaptação excluída com sucesso!"
  /\ law (fun confirmed => StudentReportPage.handleDeleteReport confirmed studentId id st)
         (reportStorage.delete id)
         (DELETE (API_URL ++ "/reports/" ++ id))
         (DELETE (API_URL ++ "/reports/" ++ studentId ++ "/" ++ id))
         "Relato excluído com sucesso!".
Proof.
  cbv zeta. split.
  - split; [ reflexivity | ].
    unfold StudentReportPage.handleDeleteAdaptation, api.deleteAdaptation.
    rewrite delete_steps_run.
    match goal with
    | |- context [StudentReportPage.loadReport None studentId st ?w3] =>
        destruct (reload_frame studentId st w3) as [Hfst [Hls [Ht [more [Hs Hlen]]]]]
    end.
    rewrite Hls, Ht, Hs, Hfst. cbn [ls toasts sent].
    repeat split; [ | eexists; reflexivity ].
    exists more. split; [ | exact Hlen ]. now rewrite <- app_assoc.
  - split; [ reflexivity | ].
    unfold StudentReportPage.handleDeleteReport, api.deleteReport.
    rewrite delete_steps_run.
    match goal with
    | |- context [StudentReportPage.loadReport None studentId st ?w3] =>
        destruct (reload_frame studentId st w3) as [Hfst [Hls [Ht [more [Hs Hlen]]]]]
    end.
    rewrite Hls, Ht, Hs, Hfst. cbn [ls toasts sent].
    repeat split; [ | eexists; reflexivity ].
    exists more. split; [ | exact Hlen ]. now rewrite <- app_assoc.
Qed.

End DeletingOnThePage.

(* ================================================================== *)
(** * Further properties of the coordinator's dashboard *)
(* ================================================================== *)

Section Dashboard.
Context `{Remote}.

(** X12. Deleting a student from the coordinator's dashboard is a remote
    operation only: one [DELETE /students/{id}] is sent and the local store
    is left as it was, so the student, its adaptations and its reports stay
    in it.  The list is refreshed and success announced exactly when the
    request succeeded; otherwise an error is shown, never an empty one. *)
Theorem dashboard_delete_leaves_the_local_store (id : string) (refreshKey : nat)
        (w : World) :
  let request := DELETE (API_URL ++ "/students/" ++ id) in
  let out := CoordinatorDashboard.handleDeleteStudent id refreshKey w in
  ls (snd out) = ls w
  /\ clock (snd out) = clock w
  /\ sent (snd out) = sent w ++ [request]
  /\ if fails (fetch (sent w) request)
     then fst out = refreshKey
          /\ exists msg, msg <> ""
                         /\ toasts (snd out) = toasts w ++ [toast_error msg]
     else fst out = S refreshKey
          /\ toasts (snd out)
             = toasts w ++ [toast_success "Estudante excluído com sucesso!"].
Proof.
  cbv zeta. unfold CoordinatorDashboard.handleDeleteStudent, api.deleteStudent.
  rewrite (apiFetch_run (DELETE (API_URL ++ "/students/" ++ id)) w).
  rewrite apiFetch_outcome.
  destruct (fetch (sent w) (DELETE (API_URL ++ "/students/" ++ id)))
    as [ msg | | status statusText text ]; cbn [fails].
  - unfold toast. cbn [fst snd ls clock sent toasts after_request].
    repeat split. eexists. split; [ | reflexivity ].
    now destruct (String.eqb (message (new_Error msg)) "") eqn:Hm;
      [ | apply String.eqb_neq in Hm ].
  - unfold toast. cbn [fst snd ls clock sent toasts after_request].
    repeat split. eexists. split; [ | reflexivity ]. discriminate.
  - destruct (ok status); cbn [negb]; unfold toast;
      cbn [fst snd ls clock sent toasts after_request]; repeat split.
    eexists. split; [ | reflexivity ].
    now destruct (String.eqb (message (response_error status statusText text)) "")
          eqn:Hm; [ | apply String.eqb_neq in Hm ].
Qed.

End Dashboard.

(* ================================================================== *)
(** * Further properties of the forms *)
(* ================================================================== *)

Lemma triple_ret {A} (P : World -> Prop) (Q : A -> World -> Prop)
      (E : Error -> World -> Prop) (a : A) :
  (forall w, P w -> Q a w) -> triple P (ret a) Q E.
Proof. intros HQ w Hw. now apply HQ. Qed.

Lemma triple_throw {A} (P : World -> Prop) (Q : A -> World -> Prop)
      (E : Error -> World -> Prop) (e : Error) :
  (forall w, P w -> E e w) -> triple P (throw e) Q E.
Proof. intros HE w Hw. now apply HE. Qed.

Lemma triple_bind {A B} (P : World -> Prop) (m : M A) (f : A -> M B)
      (Q : A -> World -> Prop) (R : B -> World -> Prop) (E : Error -> World -> Prop) :
  triple P m Q E -> (forall a, triple (Q a) (f a) R E) -> triple P (bind m f) R E.
Proof.
  intros Hm Hf w Hw. specialize (Hm w Hw). rewrite bind_run.
  destruct (fst (m w)) as [ a | e ]; [ now apply Hf | exact Hm ].
Qed.

Lemma triple_try_catch {A} (P : World -> Prop) (m : M A) (h : Error -> M A)
      (Q : A -> World -> Prop) (E1 E : Error -> World -> Prop) :
  triple P m Q E1 -> (forall e, triple (E1 e) (h e) Q E) -> triple P (try_catch m h) Q E.
Proof.
  intros Hm Hh w Hw. specialize (Hm w Hw). unfold try_catch.
  destruct (m w) as [ [ a | e ] w' ]; cbn [fst snd] in *; [ exact Hm | now apply Hh ].
Qed.

Lemma triple_conseq {A} (P P' : World -> Prop) (m : M A)
      (Q Q' : A -> World -> Prop) (E E' : Error -> World -> Prop) :
  triple P' m Q' E' ->
  (forall w, P w -> P' w) -> (forall a w, Q' a w -> Q a w) ->
  (forall e w, E' e w -> E e w) ->
  triple P m Q E.
Proof.
  intros Hm HP HQ HE w Hw. specialize (Hm w (HP w Hw)).
  destruct (fst (m w)); [ now apply HQ | now apply HE ].
Qed.

Lemma triple_toast (P : World -> Prop) (E : Error -> World -> Prop) (t : Toast) :
  (forall w, P w -> P (snd (toast t w))) -> triple P (toast t) (fun _ => P) E.
Proof. intros HP w Hw. now apply HP. Qed.

Section FormsSaveLocally.
Context `{Platform} `{Remote}.

Lemma triple_apiFetch (w0 : World) (req : Request) :
  triple (same_local w0) (apiFetch req) (fun _ => same_local w0) (fun _ => same_local w0).
Proof.
  intros w Hw. rewrite apiFetch_world.
  now destruct (fst (apiFetch req w)).
Qed.

Lemma triple_retried (w0 : World) (flat nested : Request) :
  triple (same_local w0)
    (try_catch (apiFetch flat)
       (fun err => if is_404 err then apiFetch nested else throw err))
    (fun _ => same_local w0) (fun _ => same_local w0).
Proof.
  apply triple_try_catch with (E1 := fun _ => same_local w0);
    [ apply triple_apiFetch | ].
  intros e. destruct (is_404 e); [ apply triple_apiFetch | now apply triple_throw ].
Qed.

Lemma triple_Date_of (w0 : World) (s : string) :
  triple (same_local w0) (Date_of_toISOString s)
    (fun iso w => same_local w0 w
                  /\ exists t, Date_parse s = Some t /\ iso = Date_toISOString t)
    (fun e w => same_local w0 w /\ Date_parse s = None
                /\ e = new_Error "Invalid time value").
Proof.
  intros w Hw. unfold Date_of_toISOString.
  destruct (Date_parse s) as [ t | ]; cbn [fst snd ret throw].
  - split; [ exact Hw | ]. now exists t.
  - split; [ exact Hw | split; reflexivity ].
Qed.

Lemma same_local_toast (w0 w : World) (t : Toast) :
  same_local w0 w -> same_local w0 (snd (toast t w)).
Proof. intros Hw. exact Hw. Qed.

Lemma triple_adaptation_create (w0 : World) (studentId : string) (data : obj) :
  get data "studentId" = JStr studentId ->
  triple (same_local w0) (adaptationStorage.create data)
    (fun created w => appended ADAPTATIONS w0 studentId created (ls w))
    (fun _ _ => False).
Proof.
  intros Hdata w [Hls Hclock].
  destruct (adaptation_create_appends data w)
    as [r [w' [Hrun [Hall [Hid [Hstudent [Hothers _]]]]]]].
  rewrite Hrun. cbn [fst snd]. unfold appended. cbn [collection].
  rewrite Hall, Hid, Hstudent, Hdata, Hls, Hclock.
  repeat split.
  - unfold or_. now destruct (truthy (JStr studentId)) eqn:Ht;
      [ | destruct studentId; [ | discriminate ] ].
  - intros k Hk. rewrite <- Hls. now apply Hothers.
Qed.

Lemma triple_report_create (w0 : World) (studentId : string) (data : obj) :
  get data "studentId" = JStr studentId ->
  triple (same_local w0) (reportStorage.create data)
    (fun created w => appended REPORTS w0 studentId created (ls w))
    (fun _ _ => False).
Proof.
  intros Hdata w [Hls Hclock].
  destruct (report_create_appends data w)
    as [r [w' [Hrun [Hall [Hid [Hstudent [Hothers _]]]]]]].
  rewrite Hrun. cbn [fst snd]. unfold appended. cbn [collection].
  rewrite Hall, Hid, Hstudent, Hdata, Hls, Hclock.
  repeat split.
  - unfold or_. now destruct (truthy (JStr studentId)) eqn:Ht;
      [ | destruct studentId; [ | discriminate ] ].
  - intros k Hk. rewrite <- Hls. now apply Hothers.
Qed.

Lemma triple_error {A} (P : World -> Prop) (m : M A) (Q : A -> World -> Prop)
      (E E' : Error -> World -> Prop) :
  triple P m Q E' -> (forall e w, E' e w -> E e w) -> triple P m Q E.
Proof. intros Hm HE. eapply triple_conseq; [ exact Hm | auto.. ]. Qed.

Lemma triple_pre {A} (P P' : World -> Prop) (m : M A) (Q : A -> World -> Prop)
      (E : Error -> World -> Prop) :
  (forall w, P w -> P' w) -> triple P' m Q E -> triple P m Q E.
Proof. intros HP Hm. eapply triple_conseq; [ exact Hm | auto.. ]. Qed.

Lemma adaptation_update_returns (id : string) (updates : obj) (w : World) :
  exists r, fst (adaptationStorage.update id updates w) = Returned r.
Proof.
  unfold adaptationStorage.update, bind, read. cbn [ls fst snd].
  destruct (findIndex _ _); eexists; reflexivity.
Qed.

Lemma triple_adaptation_update (w0 : World) (id : string) (updates : obj) :
  triple (same_local w0) (adaptationStorage.update id updates)
    (fun r w => fst (adaptationStorage.update id updates w0) = Returned r
                /\ ls w = ls (snd (adaptationStorage.update id updates w0)))
    (fun _ _ => False).
Proof.
  intros w [Hls Hclock].
  destruct (adaptation_update_local id updates w0 w Hls Hclock) as [Hfst [Hsnd _]].
  destruct (adaptation_update_returns id updates w) as [r Hr].
  rewrite Hr. split; [ now rewrite <- Hfst | exact Hsnd ].
Qed.

(** The remote half of an update: whatever happens, only requests and
    notices are added. *)
Lemma triple_remote_update {A} (w0 : World) (date : string) (remote : string -> M A)
      (notice : string) :
  (forall iso, triple (same_local w0) (remote iso)
                 (fun _ => same_local w0) (fun _ => same_local w0)) ->
  triple (same_local w0)
    (try_catch
       (iso <- Date_of_toISOString date ;;
        remote iso ;;
        toast (toast_success notice))
       (fun _ => ret tt))%js
    (fun _ => same_local w0) (fun _ _ => False).
Proof.
  intros Hremote.
  apply triple_try_catch with (E1 := fun _ => same_local w0).
  - eapply triple_bind;
      [ eapply triple_error; [ apply triple_Date_of | now intros e w [Hw _] ] | ].
    intros iso. apply triple_pre with (P' := same_local w0); [ now intros w [Hw _] | ].
    eapply triple_bind; [ apply Hremote | ].
    intros a. now apply triple_toast.
  - intros e. now apply triple_ret.
Qed.

(** X13. The adaptation form, in all cases.  With an empty field it stops
    at once.  With a date that cannot be parsed it sends nothing, stores
    nothing and shows the error.  Otherwise it reports no error and its
    effect on the local store does not depend on the remote answer: an
    update leaves the store as the local update alone does and hands the
    updated record to [onSuccess]; a creation appends exactly one record,
    of that student, under a locally generated identifier. *)
Theorem adaptation_form_saves_locally_or_not_at_all
        (studentId : string) (adaptation : option string)
        (formData : AdaptationForm.FormData) (w : World) :
  let out := AdaptationForm.handleSubmit studentId adaptation formData w in
  if String.eqb (AdaptationForm.description formData) ""
     || String.eqb (AdaptationForm.justification formData) ""
     || String.eqb (AdaptationForm.date formData) ""
  then out = ({| error := "Por favor, preencha todos os campos"; onSuccess := None |}, w)
  else
    match Date_parse (AdaptationForm.date formData) with
    | None =>
        out = ({| error := "Invalid time value"; onSuccess := None |},
               {| ls := ls w; clock := clock w; sent := sent w;
                  toasts := toasts w ++ [toast_error "Invalid time value"] |})
    | Some t =>
        error (fst out) = ""
        /\ match adaptation with
           | Some id =>
               let local :=
                 adaptationStorage.update id
                   (adaptation_local_fields formData (Date_toISOString t)) w in
               (exists updated,
                   fst local = Returned updated /\ onSuccess (fst out) = Some updated)
               /\ ls (snd out) = ls (snd local)
           | None =>
               exists created,
                 onSuccess (fst out) = Some (Some created)
                 /\ appended ADAPTATIONS w studentId created (ls (snd out))
           end
    end.
Proof.
  cbv zeta. unfold AdaptationForm.handleSubmit.
  destruct (String.eqb (AdaptationForm.description formData) ""
            || String.eqb (AdaptationForm.justification formData) ""
            || String.eqb (AdaptationForm.date formData) ""); [ reflexivity | ].
  destruct (Date_parse (AdaptationForm.date formData)) as [ t | ] eqn:Hparse.
  - destruct adaptation as [ id | ].
    + assert (Hbody :
        triple (same_local w)
          (try_catch
             (iso <- Date_of_toISOString (AdaptationForm.date formData) ;;
              api.updateAdaptation studentId id
                (JObj (set (spread [] (AdaptationForm.formData_obj formData))
                           "date" (JStr iso))) ;;
              toast (toast_success "Adaptação atualizada com sucesso!"))
             (fun _ => ret tt) ;;
           iso <- Date_of_toISOString (AdaptationForm.date formData) ;;
           adaptationStorage.update id
             [ ("description", JStr (AdaptationForm.description formData));
               ("justification", JStr (AdaptationForm.justification formData));
               ("date", JStr iso) ])%js
          (fun r w' =>
             fst (adaptationStorage.update id
                    (adaptation_local_fields formData (Date_toISOString t)) w)
             = Returned r
             /\ ls w' = ls (snd (adaptationStorage.update id
                                   (adaptation_local_fields formData (Date_toISOString t))
                                   w)))
          (fun _ _ => False)).
      { eapply triple_bind.
        - apply triple_remote_update
            with (remote := fun iso => api.updateAdaptation studentId id
                       (JObj (set (spread [] (AdaptationForm.formData_obj formData))
                                  "date" (JStr iso)))).
          intros iso. apply triple_retried.
        - intros u. eapply triple_bind.
          + eapply triple_error; [ apply triple_Date_of | ].
            intros e w' [_ [Hnone _]]. congruence.
          + intros iso. intros w' [Hw' [t' [Ht' ->]]].
            assert (t' = t) by congruence. subst t'.
            now apply (@triple_adaptation_update w id
                         (adaptation_local_fields formData (Date_toISOString t))). }
      specialize (Hbody w (conj eq_refl eq_refl)). unfold submit.
      match type of Hbody with
      | match fst (?m w) with _ => _ end => destruct (m w) as [ [ r | e ] w' ]
      end; cbn [fst snd] in *; [ | destruct Hbody ].
      destruct Hbody as [Hr Hls]. cbn [error onSuccess].
      split; [ reflexivity | ]. split; [ now exists r | exact Hls ].
    + assert (Hstore : forall data : string -> obj,
                 (forall iso, get (data iso) "studentId" = JStr studentId) ->
                 triple (same_local w)
                   (iso <- Date_of_toISOString (AdaptationForm.date formData) ;;
                    adaptationStorage.create (data iso))%js
                   (fun created w' => appended ADAPTATIONS w studentId created (ls w'))
                   (fun _ _ => False)).
      { intros data Hdata. eapply triple_bind.
        - eapply triple_error; [ apply triple_Date_of | ].
          intros e w' [_ [Hnone _]]. congruence.
        - intros iso. apply triple_pre with (P' := same_local w);
            [ now intros w' [Hw' _] | ].
          now apply triple_adaptation_create. }
      assert (Hnotify : forall (created : obj) (notice : string),
                 triple (fun w' => appended ADAPTATIONS w studentId created (ls w'))
                   (toast (toast_success notice) ;; ret (Some created))%js
                   (fun r w' => exists created,
                        r = Some created
                        /\ appended ADAPTATIONS w studentId created (ls w'))
                   (fun _ _ => False)).
      { intros created notice. eapply triple_bind.
        - apply triple_toast. now intros w' Hw'.
        - intros u. apply triple_ret. intros w' Hw'. now exists created. }
      assert (Hbody :
        triple (same_local w)
          (try_catch
             (iso <- Date_of_toISOString (AdaptationForm.date formData) ;;
              res <- api.createAdaptation
                       (JObj (set (set (spread [] (AdaptationForm.formData_obj formData))
                                       "studentId" (JStr studentId))
                                  "date" (JStr iso))) ;;
              created <-
                (if truthy res && truthy (prop res "id") then
                   iso' <- Date_of_toISOString (AdaptationForm.date formData) ;;
                   adaptationStorage.create
                     [ ("id", prop res "id");
                       ("studentId", JStr studentId);
                       ("description", JStr (AdaptationForm.description formData));
                       ("justification", JStr (AdaptationForm.justification formData));
                       ("date", JStr iso') ]
                 else
                   iso' <- Date_of_toISOString (AdaptationForm.date formData) ;;
                   adaptationStorage.create
                     [ ("studentId", JStr studentId);
                       ("description", JStr (AdaptationForm.description formData));
                       ("justification", JStr (AdaptationForm.justification formData));
                       ("date", JStr iso') ]) ;;
              toast (toast_success "Adaptação registrada com sucesso!") ;;
              ret (Some created))
             (fun _ =>
                iso <- Date_of_toISOString (AdaptationForm.date formData) ;;
                created <- adaptationStorage.create
                             [ ("studentId", JStr studentId);
                               ("description", JStr (AdaptationForm.description formData));
                               ("justification",
                                JStr (AdaptationForm.justification formData));
                               ("date", JStr iso) ] ;;
                toast (toast_success "Adaptação registrada localmente (offline)") ;;
                ret (Some created)))%js
          (fun r w' => exists created,
               r = Some created /\ appended ADAPTATIONS w studentId created (ls w'))
          (fun _ _ => False)).
      { apply triple_try_catch with (E1 := fun _ => same_local w).
        - eapply triple_bind;
            [ eapply triple_error; [ apply triple_Date_of | now intros e w' [Hw' _] ] | ].
          intros iso. apply triple_pre with (P' := same_local w);
            [ now intros w' [Hw' _] | ].
          eapply triple_bind; [ apply triple_apiFetch | ].
          intros res. eapply triple_bind; [ | intros created; apply Hnotify ].
          eapply triple_error with (E' := fun _ _ => False); [ | now intros e w' [] ].
          destruct (truthy res && truthy (prop res "id")).
          + apply (Hstore (fun iso' =>
                     [ ("id", prop res "id");
                       ("studentId", JStr studentId);
                       ("description", JStr (AdaptationForm.description formData));
                       ("justification", JStr (AdaptationForm.justification formData));
                       ("date", JStr iso') ])).
            reflexivity.
          + apply (Hstore (fun iso' =>
                     [ ("studentId", JStr studentId);
                       ("description", JStr (AdaptationForm.description formData));
                       ("justification", JStr (AdaptationForm.justification formData));
                       ("date", JStr iso') ])).
            reflexivity.
        - intros e. eapply triple_bind.
          + eapply triple_error; [ apply triple_Date_of | ].
            intros e' w' [_ [Hnone _]]. congruence.
          + intros iso. apply triple_pre with (P' := same_local w);
              [ now intros w' [Hw' _] | ].
            eapply triple_bind; [ | intros created; apply Hnotify ].
            now apply triple_adaptation_create. }
      specialize (Hbody w (conj eq_refl eq_refl)). unfold submit.
      match type of Hbody with
      | match fst (?m w) with _ => _ end => destruct (m w) as [ [ r | e ] w' ]
      end; cbn [fst snd] in *; [ | destruct Hbody ].
      destruct Hbody as [created [-> Happ]]. cbn [error onSuccess].
      split; [ reflexivity | ]. now exists created.
  - destruct adaptation as [ id | ]; unfold submit, Date_of_toISOString;
      rewrite Hparse; reflexivity.
Qed.

Lemma triple_report_update (w0 : World) (id : string) (updates : obj) :
  triple (same_local w0) (reportStorage.update id updates)
    (fun r w => fst (reportStorage.update id updates w0) = Returned r
                /\ ls w = ls (snd (reportStorage.update id updates w0)))
    (fun _ _ => False).
Proof.
  intros w [Hls Hclock].
  destruct (findIndex (fun r => is_str (get r "id") id) (reportStorage.getAll (ls w0)))
    as [ i | ] eqn:Hi.
  - assert (Hi' : findIndex (fun r => is_str (get r "id") id)
                            (reportStorage.getAll (ls w)) = Some i)
      by now rewrite Hls.
    rewrite (report_update_found id updates w0 Hi), (report_update_found id updates w Hi').
    unfold stamped. cbn [fst snd ls clock]. now rewrite Hls, Hclock.
  - assert (Hnone : forall v : World,
               ls v = ls w0 -> reportStorage.update id updates v = (Returned None, v)).
    { intros v Hv. unfold reportStorage.update, bind, read. cbn [ls].
      rewrite Hv, Hi. reflexivity. }
    rewrite (Hnone w0 eq_refl), (Hnone w Hls). cbn [fst snd]. now split.
Qed.

Lemma swallowed_world (m : M unit) (w : World) :
  try_catch m (fun _ => ret tt) w = (Returned tt, snd (m w)).
Proof. unfold try_catch, ret. now destruct (m w) as [ [ [] | e ] w' ]. Qed.

Lemma notified_world {A} (m : M A) (t : Toast) (w : World) :
  ls (snd ((m ;; toast t)%js w)) = ls (snd (m w))
  /\ clock (snd ((m ;; toast t)%js w)) = clock (snd (m w))
  /\ sent (snd ((m ;; toast t)%js w)) = sent (snd (m w)).
Proof.
  rewrite bind_run. now destruct (fst (m w)).
Qed.

(** X14. The report form, in all cases.  With an empty subject or
    description, or an empty date, it stops at once.  With a date that
    cannot be parsed it stores nothing and shows the error; a creation has
    then sent nothing, but an update has already sent its remote request.
    Otherwise it reports no error and its effect on the local store does not
    depend on the remote answer: an update leaves the store as the local
    update alone does, a creation appends exactly one record, of that
    student, under a locally generated identifier. *)
Theorem report_form_saves_locally_or_not_at_all
        (studentId : string) (report : option string)
        (formData : ReportForm.FormData) (w : World) :
  let out := ReportForm.handleSubmit studentId report formData w in
  if String.eqb (ReportForm.subject formData) ""
     || String.eqb (ReportForm.description formData) ""
  then out = ({| error := "Por favor, preencha todos os campos obrigatórios";
                 onSuccess := None |}, w)
  else if String.eqb (ReportForm.date formData) ""
  then out = ({| error := "Por favor, informe a data do relato"; onSuccess := None |}, w)
  else
    match Date_parse (ReportForm.date formData) with
    | None =>
        fst out = {| error := "Invalid time value"; onSuccess := None |}
        /\ ls (snd out) = ls w /\ clock (snd out) = clock w
        /\ sent (snd out)
           = match report with
             | Some id =>
                 let flat := json_request "PUT" (API_URL ++ "/reports/" ++ id)
                               (JObj (ReportForm.formData_obj formData)) in
                 let nested := json_request "PUT"
                                 (API_URL ++ "/reports/" ++ studentId ++ "/" ++ id)
                                 (JObj (ReportForm.formData_obj formData)) in
                 sent w ++ flat :: (if answered_404 (fetch (sent w) flat)
                                    then [nested] else [])
             | None => sent w
             end
    | Some t =>
        error (fst out) = ""
        /\ match report with
           | Some id =>
               let local :=
                 reportStorage.update id
                   [ ("subject", JStr (ReportForm.subject formData));
                     ("result", JStr (ReportForm.result formData));
                     ("description", JStr (ReportForm.description formData));
                     ("date", JStr (Date_toISOString t)) ] w in
               (exists updated,
                   fst local = Returned updated /\ onSuccess (fst out) = Some updated)
               /\ ls (snd out) = ls (snd local)
           | None =>
               exists created,
                 onSuccess (fst out) = Some (Some created)
                 /\ appended REPORTS w studentId created (ls (snd out))
           end
    end.
Proof.
  cbv zeta. unfold ReportForm.handleSubmit.
  destruct (String.eqb (ReportForm.subject formData) ""
            || String.eqb (ReportForm.description formData) ""); [ reflexivity | ].
  destruct (String.eqb (ReportForm.date formData) ""); [ reflexivity | ].
  destruct (Date_parse (ReportForm.date formData)) as [ t | ] eqn:Hparse.
  - destruct report as [ id | ].
    + assert (Hbody :
        triple (same_local w)
          (try_catch
             (api.updateReport studentId id (JObj (ReportForm.formData_obj formData)) ;;
              toast (toast_success "Relato atualizado com sucesso!"))
             (fun _ => ret tt) ;;
           iso <- Date_of_toISOString (ReportForm.date formData) ;;
           reportStorage.update id
             [ ("subject", JStr (ReportForm.subject formData));
               ("result", JStr (ReportForm.result formData));
               ("description", JStr (ReportForm.description formData));
               ("date", JStr iso) ])%js
          (fun r w' =>
             fst (reportStorage.update id
                    [ ("subject", JStr (ReportForm.subject formData));
                      ("result", JStr (ReportForm.result formData));
                      ("description", JStr (ReportForm.description formData));
                      ("date", JStr (Date_toISOString t)) ] w)
             = Returned r
             /\ ls w' = ls (snd (reportStorage.update id
                                   [ ("subject", JStr (ReportForm.subject formData));
                                     ("result", JStr (ReportForm.result formData));
                                     ("description",
                                      JStr (ReportForm.description formData));
                                     ("date", JStr (Date_toISOString t)) ] w)))
          (fun _ _ => False)).
      { eapply triple_bind.
        - apply triple_try_catch with (E1 := fun _ => same_local w).
          + eapply triple_bind; [ apply triple_retried | ].
            intros a. now apply triple_toast.
          + intros e. now apply triple_ret.
        - intros u. eapply triple_bind.
          + eapply triple_error; [ apply triple_Date_of | ].
            intros e w' [_ [Hnone _]]. congruence.
          + intros iso. intros w' [Hw' [t' [Ht' ->]]].
            assert (t' = t) by congruence. subst t'.
            now apply (@triple_report_update w id). }
      specialize (Hbody w (conj eq_refl eq_refl)). unfold submit.
      match type of Hbody with
      | match fst (?m w) with _ => _ end => destruct (m w) as [ [ r | e ] w' ]
      end; cbn [fst snd] in *; [ | destruct Hbody ].
      destruct Hbody as [Hr Hls]. cbn [error onSuccess].
      split; [ reflexivity | ]. split; [ now exists r | exact Hls ].
    + assert (Hnotify : forall (created : obj) (notice : string),
                 triple (fun w' => appended REPORTS w studentId created (ls w'))
                   (toast (toast_success notice) ;; ret (Some created))%js
                   (fun r w' => exists created,
                        r = Some created
                        /\ appended REPORTS w studentId created (ls w'))
                   (fun _ _ => False)).
      { intros created notice. eapply triple_bind.
        - apply triple_toast. now intros w' Hw'.
        - intros u. apply triple_ret. intros w' Hw'. now exists created. }
      assert (Hstore : forall data : string -> obj,
                 (forall iso, get (data iso) "studentId" = JStr studentId) ->
                 forall notice,
                 triple (same_local w)
                   (iso <- Date_of_toISOString (ReportForm.date formData) ;;
                    created <- reportStorage.create (data iso) ;;
                    toast (toast_success notice) ;;
                    ret (Some created))%js
                   (fun r w' => exists created,
                        r = Some created
                        /\ appended REPORTS w studentId created (ls w'))
                   (fun _ _ => False)).
      { intros data Hdata notice. eapply triple_bind.
        - eapply triple_error; [ apply triple_Date_of | ].
          intros e w' [_ [Hnone _]]. congruence.
        - intros iso. apply triple_pre with (P' := same_local w);
            [ now intros w' [Hw' _] | ].
          eapply triple_bind; [ | intros created; apply Hnotify ].
          now apply triple_report_create. }
      assert (Hbody :
        triple (same_local w)
          (iso0 <- Date_of_toISOString (ReportForm.date formData) ;;
           try_catch
             (res <- api.createReport
                       (JObj (set (set (spread [] (ReportForm.formData_obj formData))
                                       "studentId" (JStr studentId))
                                  "date" (JStr iso0))) ;;
              created <-
                (if truthy res && truthy (prop res "id") then
                   iso <- Date_of_toISOString (ReportForm.date formData) ;;
                   reportStorage.create
                     [ ("id", prop res "id");
                       ("studentId", JStr studentId);
                       ("subject", JStr (ReportForm.subject formData));
                       ("result", JStr (ReportForm.result formData));
                       ("description", JStr (ReportForm.description formData));
                       ("date", JStr iso) ]
                 else
                   iso <- Date_of_toISOString (ReportForm.date formData) ;;
                   reportStorage.create
                     [ ("studentId", JStr studentId);
                       ("subject", JStr (ReportForm.subject formData));
                       ("result", JStr (ReportForm.result formData));
                       ("description", JStr (ReportForm.description formData));
                       ("date", JStr iso) ]) ;;
              toast (toast_success "Relato registrado com sucesso!") ;;
              ret (Some created))
             (fun _ =>
                iso <- Date_of_toISOString (ReportForm.date formData) ;;
                created <- reportStorage.create
                             [ ("studentId", JStr studentId);
                               ("subject", JStr (ReportForm.subject formData));
                               ("result", JStr (ReportForm.result formData));
                               ("description", JStr (ReportForm.description formData));
                               ("date", JStr iso) ] ;;
                toast (toast_success "Relato registrado localmente (offline)") ;;
                ret (Some created)))%js
          (fun r w' => exists created,
               r = Some created /\ appended REPORTS w studentId created (ls w'))
          (fun _ _ => False)).
      { eapply triple_bind.
        { eapply triple_error; [ apply triple_Date_of | ].
          intros e w' [_ [Hnone _]]. congruence. }
        intros iso0. apply triple_pre with (P' := same_local w);
          [ now intros w' [Hw' _] | ].
        apply triple_try_catch with (E1 := fun _ => same_local w).
        - eapply triple_bind; [ apply triple_apiFetch | ].
          intros res. eapply triple_bind; [ | intros created; apply Hnotify ].
          eapply triple_error with (E' := fun _ _ => False); [ | now intros e w' [] ].
          destruct (truthy res && truthy (prop res "id")).
          + eapply triple_bind.
            * eapply triple_error; [ apply triple_Date_of | ].
              intros e w' [_ [Hnone _]]. congruence.
            * intros iso. apply triple_pre with (P' := same_local w);
                [ now intros w' [Hw' _] | ].
              now apply triple_report_create.
          + eapply triple_bind.
            * eapply triple_error; [ apply triple_Date_of | ].
              intros e w' [_ [Hnone _]]. congruence.
            * intros iso. apply triple_pre with (P' := same_local w);
                [ now intros w' [Hw' _] | ].
              now apply triple_report_create.
        - intros e.
          apply (Hstore (fun iso =>
                   [ ("studentId", JStr studentId);
                     ("subject", JStr (ReportForm.subject formData));
                     ("result", JStr (ReportForm.result formData));
                     ("description", JStr (ReportForm.description formData));
                     ("date", JStr iso) ])).
          reflexivity. }
      specialize (Hbody w (conj eq_refl eq_refl)). unfold submit.
      match type of Hbody with
      | match fst (?m w) with _ => _ end => destruct (m w) as [ [ r | e ] w' ]
      end; cbn [fst snd] in *; [ | destruct Hbody ].
      destruct Hbody as [created [-> Happ]]. cbn [error onSuccess].
      split; [ reflexivity | ]. now exists created.
  - destruct report as [ id | ].
    + assert (Hrun :
        (try_catch
           (api.updateReport studentId id (JObj (ReportForm.formData_obj formData)) ;;
            toast (toast_success "Relato atualizado com sucesso!"))
           (fun _ => ret tt) ;;
         iso <- Date_of_toISOString (ReportForm.date formData) ;;
         reportStorage.update id
           [ ("subject", JStr (ReportForm.subject formData));
             ("result", JStr (ReportForm.result formData));
             ("description", JStr (ReportForm.description formData));
             ("date", JStr iso) ])%js w
        = (Thrown (new_Error "Invalid time value"),
           snd ((api.updateReport studentId id (JObj (ReportForm.formData_obj formData)) ;;
                 toast (toast_success "Relato atualizado com sucesso!"))%js w))).
      { rewrite bind_run, swallowed_world. cbn [fst snd].
        rewrite bind_run. unfold Date_of_toISOString. now rewrite Hparse. }
      unfold submit. rewrite Hrun. cbn [fst snd ls clock sent].
      destruct (notified_world
                  (api.updateReport studentId id (JObj (ReportForm.formData_obj formData)))
                  (toast_success "Relato atualizado com sucesso!") w)
        as [Hls [Hclock Hsent]].
      rewrite Hls, Hclock, Hsent.
      unfold api.updateReport. rewrite retried_world.
      split; [ reflexivity | ].
      destruct (answered_404 _); cbn [ls clock sent after_request];
        rewrite <- ?app_assoc; now repeat split.
    + unfold submit, Date_of_toISOString. rewrite Hparse. now repeat split.
Qed.

End FormsSaveLocally.

(* ================================================================== *)
(** * Further properties of the session *)
(* ================================================================== *)

(** X15. [checkSession] restores a user only from a store that holds a
    token, and running it again changes nothing more: a store whose user
    text is not JSON is cleaned once.  [signOut] removes the session, so that
    [checkSession] then restores nobody, but it leaves the collections and
    the current user of the local store as they were. *)
Theorem session_keys_are_cleared_not_the_store (s : Storage) :
  let restored := fst (AuthContext.checkSession s) in
  let s' := snd (AuthContext.checkSession s) in
  AuthContext.checkSession s' = (restored, s')
  /\ (token s = None -> restored = None /\ s' = s)
  /\ (forall k, getItem k s' = getItem k s)
  /\ AuthContext.checkSession (AuthContext.signOut s) = (None, AuthContext.signOut s)
  /\ (forall k, getItem k (AuthContext.signOut s) = getItem k s)
  /\ authStorage.getCurrentUser (AuthContext.signOut s) = authStorage.getCurrentUser s.
Proof.
  cbv zeta.
  assert (Hcases :
    (AuthContext.checkSession s = (None, s))
    \/ (exists u, AuthContext.checkSession s = (Some u, s) /\ token s <> None)
    \/ (AuthContext.checkSession s = (None, set_user None (set_token None s))
        /\ token s <> None)).
  { unfold AuthContext.checkSession.
    destruct (token s) as [ t | ]; [ | now left ].
    destruct (user s) as [ storedUser | ]; [ | now left ].
    destruct (negb (String.eqb t "") && item_truthy storedUser); [ | now left ].
    destruct (JSON_parse storedUser) as [ u | e ].
    - right. left. exists u. now split.
    - right. right. now split. }
  split; [ | split; [ | split; [ | split; [ | split ] ] ] ].
  - destruct Hcases as [ Hn | [ [u [Hu _]] | [Hc _] ] ].
    + rewrite Hn. exact Hn.
    + rewrite Hu. exact Hu.
    + rewrite Hc. reflexivity.
  - intros Hnone.
    destruct Hcases as [ -> | [ [u [_ Hu]] | [_ Hc] ] ];
      [ now split | now contradiction | now contradiction ].
  - intros k.
    destruct Hcases as [ -> | [ [u [-> _]] | [-> _] ] ];
      [ reflexivity | reflexivity | now destruct k ].
  - reflexivity.
  - intros k. now destruct k.
  - reflexivity.
Qed.

Lemma session_restored (u : jsval) (s : Storage) :
  signed_in u s -> AuthContext.checkSession s = (Some (json u), s).
Proof.
  intros [t [Ht [Hne Hu]]]. unfold AuthContext.checkSession. rewrite Ht, Hu.
  apply String.eqb_neq in Hne. rewrite Hne. reflexivity.
Qed.

Section SessionRoundTrip.
Context `{Platform} `{Remote}.

Lemma triple_seeding_users (w0 : World) :
  triple (same_session w0) initializeDefaultUsers (fun _ => same_session w0)
         (fun _ _ => False).
Proof.
  intros w Hw.
  destruct (getLocalUsers (ls w)) as [ | u us ] eqn:Hu.
  - rewrite (users_seeded w Hu). exact Hw.
  - rewrite (users_kept w) by congruence. exact Hw.
Qed.

Lemma triple_session_stage (w0 : World) (email password : string) :
  (forall err tok,
      supabase_signInWithPassword email password = SupabaseReturns err tok ->
      truthy tok = true -> String_ tok <> "") ->
  triple (same_session w0) (AuthContext.session_stage email password)
    (fun r w => match r with
                | Some u => signed_in u (ls w)
                | None => same_session w0 w
                end)
    (fun _ => same_session w0).
Proof.
  intros Htoken w Hw. unfold AuthContext.session_stage.
  destruct (supabase_signInWithPassword email password) as [ e | err tok ] eqn:Hs;
    [ exact Hw | ].
  destruct (negb (truthy err) && truthy tok) eqn:Hc; [ | exact Hw ].
  apply andb_prop in Hc. destruct Hc as [_ Htok].
  unfold bind, send.
  destruct (fetch (sent w) _) as [ msg | | status statusText text ];
    [ exact Hw | exact Hw | ].
  destruct (ok status); [ | exact Hw ].
  unfold lift. destruct (res_json text) as [ body | e ]; [ | exact Hw ].
  destruct (member TypeError body "user") as [ body_user | e ]; [ | exact Hw ].
  cbn [fst snd write ret ls]. exists (String_ tok).
  repeat split. now apply (Htoken err tok).
Qed.

Lemma triple_lookup_stage (w0 : World) (email : string) :
  triple (same_session w0) (AuthContext.lookup_stage email)
    (fun r w => match r with
                | Some u => signed_in u (ls w)
                | None => same_session w0 w
                end)
    (fun _ => same_session w0).
Proof.
  intros w Hw. unfold AuthContext.lookup_stage, bind, send.
  destruct (fetch (sent w) _) as [ msg | | status statusText text ];
    [ exact Hw | exact Hw | ].
  destruct (ok status); [ | exact Hw ].
  unfold lift. destruct (res_json text) as [ data | e ]; [ | exact Hw ].
  match goal with
  | |- context [match ?l with JArr items => _ | _ => _ end] =>
      destruct l as [ | | | | | items | ]
  end; try exact Hw.
  destruct (find_attempt (AuthContext.same_email email) items) as [ found | e ];
    [ | exact Hw ].
  destruct (truthy found); [ | exact Hw ].
  cbn [fst snd write ret ls]. eexists. repeat split. discriminate.
Qed.

Lemma triple_local_stage (w0 : World) (email password : string) :
  triple (same_session w0)
    (u <- modify (authStorage.signIn email password) ;;
     match u with
     | None => throw (new_Error "Usuário não encontrado. Verifique o e-mail ou senha.")
     | Some u =>
         write (set_token (Some ("mock-token-" ++ String_ (get u "id"))%string)) ;;
         write (set_user (Some (Json (JObj u)))) ;;
         ret (JObj u)
     end)%js
    (fun u w => signed_in u (ls w))
    (fun _ => same_session w0).
Proof.
  intros w Hw. unfold bind, modify. cbn [fst snd ls].
  rewrite authStorage_signIn_spec.
  destruct (known_locally email password); [ | exact Hw ].
  destruct (find _ _) as [ u | ]; [ | exact Hw ].
  cbn [fst snd write ret ls]. eexists. repeat split. discriminate.
Qed.

(** X16. A sign-in that succeeds, at whichever stage, leaves a session that
    [checkSession] restores: the user it returns, as JSON gives it back,
    from a store it does not change.  A sign-in that fails leaves the
    session keys as they were.  The precondition is that a token given by
    the authentication service reads as a text that is not empty. *)
Theorem session_of_a_sign_in_is_restored (email password : string) (w : World) :
  (forall err tok,
      supabase_signInWithPassword email password = SupabaseReturns err tok ->
      truthy tok = true -> String_ tok <> "") ->
  let out := AuthContext.signIn email password w in
  match fst out with
  | Returned u =>
      signed_in u (ls (snd out))
      /\ AuthContext.checkSession (ls (snd out)) = (Some (json u), ls (snd out))
  | Thrown _ =>
      token (ls (snd out)) = token (ls w) /\ user (ls (snd out)) = user (ls w)
  end.
Proof.
  intros Htoken. cbv zeta.
  assert (Hrun : triple (same_session w) (AuthContext.signIn email password)
                   (fun u w' => signed_in u (ls w')) (fun _ => same_session w)).
  { unfold AuthContext.signIn.
    eapply triple_bind;
      [ eapply triple_error; [ apply triple_seeding_users | now intros e w' [] ] | ].
    intros u0. eapply triple_bind.
    - apply triple_try_catch with (E1 := fun _ => same_session w).
      + now apply triple_session_stage.
      + intros e. now apply triple_ret.
    - intros [ profile | ]; [ now apply triple_ret | ].
      eapply triple_bind.
      + apply triple_try_catch with (E1 := fun _ => same_session w).
        * apply triple_lookup_stage.
        * intros e. now apply triple_ret.
      + intros [ profile | ]; [ now apply triple_ret | ].
        apply triple_local_stage. }
  specialize (Hrun w (conj eq_refl eq_refl)).
  destruct (fst (AuthContext.signIn email password w)) as [ u | e ];
    [ | exact Hrun ].
  split; [ exact Hrun | now apply session_restored ].
Qed.

End SessionRoundTrip.

(** A sign-in through the authentication service, and the session restored
    from what it stored. *)
Lemma session_of_a_sign_in_is_restored_witness :
  let u := JObj [ ("id", JStr "u-1"); ("email", JStr "ana@escola.com");
                  ("name", JStr "Ana"); ("role", JStr "professor") ] in
  let out := @AuthContext.signIn sample_platform signing_in "ana@escola.com" "any"
               fresh_world in
  fst out = Returned u
  /\ AuthContext.checkSession (ls (snd out)) = (Some u, ls (snd out)).
Proof.
  cbv zeta.
  pose proof (@session_of_a_sign_in_is_restored sample_platform signing_in
                "ana@escola.com" "any" fresh_world) as Hthis.
  assert (Hfst : fst (@AuthContext.signIn sample_platform signing_in "ana@escola.com"
                        "any" fresh_world)
                 = Returned (JObj [ ("id", JStr "u-1"); ("email", JStr "ana@escola.com");
                                    ("name", JStr "Ana"); ("role", JStr "professor") ]))
    by (vm_compute; reflexivity).
  cbv zeta in Hthis. rewrite Hfst in Hthis.
  split; [ reflexivity | ].
  apply Hthis. intros err tok Heq Htruthy.
  injection Heq as <- <-. discriminate.
Defined.

Section RemoteLookup.
Context `{Platform} `{Remote}.

Lemma seeding_keeps_current_user (w : World) :
  adaptacao_current_user (ls (snd (initializeDefaultUsers w)))
  = adaptacao_current_user (ls w).
Proof.
  destruct (getLocalUsers (ls w)) as [ | u us ] eqn:Hu.
  - now rewrite (users_seeded w Hu).
  - now rewrite (users_kept w) by congruence.
Qed.

(** X17. When the authentication service yields no session and the remote
    user list holds a user with the e-mail address given, [signIn] succeeds
    whatever the password is: the session is [mock-api-<email>] with a
    profile made of that user, whose role defaults to [professor].  The
    local sign-in is not performed, so the current user of the local store
    stays what it was. *)
Theorem remote_lookup_signs_in_by_email_alone
        (email password : string) (w w2 : World)
        (status : Z) (statusText : string) (items : list jsval) (found : jsval) :
  try_catch (AuthContext.session_stage email password) (fun _ => ret None)
            (snd (initializeDefaultUsers w)) = (Returned None, w2) ->
  fetch (sent w2) (GET (API_URL ++ "/users?email=" ++ encodeURIComponent email))
    = Response status statusText (Json (JArr items)) ->
  ok status = true ->
  find_attempt (AuthContext.same_email email) items = Returned found ->
  truthy found = true ->
  let out := AuthContext.signIn email password w in
  fst out = Returned (looked_up found)
  /\ token (ls (snd out)) = Some ("mock-api-" ++ String_ (prop found "email"))%string
  /\ user (ls (snd out)) = Some (Json (looked_up found))
  /\ (forall k, getItem k (ls (snd out)) = getItem k (ls (snd (initializeDefaultUsers w))))
  /\ authStorage.getCurrentUser (ls (snd out)) = authStorage.getCurrentUser (ls w).
Proof.
  intros Hstage1 Hfetch Hok Hfound Htruthy. cbv zeta.
  pose proof (session_stage_failed _ _ _ Hstage1) as Hls2.
  assert (Hrun : AuthContext.signIn email password w
                 = (Returned (looked_up found),
                    {| ls := set_user (Some (Json (looked_up found)))
                               (set_token
                                  (Some ("mock-api-" ++ String_ (prop found "email"))%string)
                                  (ls w2));
                       clock := clock w2;
                       sent := sent w2
                                 ++ [GET (API_URL ++ "/users?email="
                                                  ++ encodeURIComponent email)];
                       toasts := toasts w2 |})).
  { unfold AuthContext.signIn.
    rewrite bind_run, initializeDefaultUsers_returns. cbn [fst snd].
    rewrite bind_run, Hstage1. cbn [fst snd].
    rewrite bind_run.
    assert (Hlookup : AuthContext.lookup_stage email w2
                      = (Returned (Some (looked_up found)),
                         {| ls := set_user (Some (Json (looked_up found)))
                                    (set_token
                                       (Some ("mock-api-"
                                                ++ String_ (prop found "email"))%string)
                                       (ls w2));
                            clock := clock w2;
                            sent := sent w2
                                      ++ [GET (API_URL ++ "/users?email="
                                                       ++ encodeURIComponent email)];
                            toasts := toasts w2 |})).
    { unfold AuthContext.lookup_stage, bind, send. rewrite Hfetch, Hok.
      unfold lift. cbn [res_json isArray]. rewrite Hfound, Htruthy. reflexivity. }
    unfold try_catch. rewrite Hlookup. reflexivity. }
  rewrite Hrun. cbn [fst snd ls].
  repeat split.
  - intros k. rewrite Hls2. now destruct k.
  - unfold authStorage.getCurrentUser. cbn [adaptacao_current_user set_user set_token].
    now rewrite Hls2, seeding_keeps_current_user.
Qed.

End RemoteLookup.

(** Signing in with a password nobody set, on a remote that lists the
    address. *)
Lemma remote_lookup_signs_in_by_email_alone_witness :
  let out := @AuthContext.signIn sample_platform listing_users "ana@escola.com"
               "not-a-password" fresh_world in
  fst out
  = Returned (JObj [ ("id", JStr "7"); ("email", JStr "ana@escola.com");
                     ("name", JStr "Ana Lima"); ("role", JStr "professor") ])
  /\ token (ls (snd out)) = Some "mock-api-ana@escola.com"
  /\ authStorage.getCurrentUser (ls (snd out)) = None.
Proof.
  cbv zeta.
  destruct (@remote_lookup_signs_in_by_email_alone sample_platform listing_users
              "ana@escola.com" "not-a-password" fresh_world
              (snd (@initializeDefaultUsers sample_platform fresh_world))
              200%Z "OK"
              [ JObj [ ("id", JNum 7); ("email", JStr "ana@escola.com");
                       ("fullName", JStr "Ana Lima") ] ]
              (JObj [ ("id", JNum 7); ("email", JStr "ana@escola.com");
                      ("fullName", JStr "Ana Lima") ])
              eq_refl eq_refl eq_refl eq_refl eq_refl)
    as [Hfst [Htoken [_ [_ Hcurrent]]]].
  split; [ exact Hfst | ]. split; [ exact Htoken | exact Hcurrent ].
Defined.

(* ================================================================== *)
(** * Further properties of the import of users *)
(* ================================================================== *)

Section ImportingUsers.
Context `{Platform} `{Remote}.

Lemma normalize_spec (users : list jsval) (w : World) :
  let out := normalize users w in
  ls (snd out) = ls w /\ sent (snd out) = sent w /\ toasts (snd out) = toasts w
  /\ if forallb (fun x => negb (nullish x)) users
     then exists l, fst out = Returned l /\ Forall2 normalized_from users l
     else exists e, fst out = Thrown e.
Proof.
  cbv zeta. revert w. induction users as [ | u rest IH ]; intros w.
  - cbn [normalize forallb ret fst snd]. repeat split. exists []. now split.
  - cbn [normalize forallb]. rewrite bind_run.
    destruct (nullish u) eqn:Hn; cbn [negb andb fst snd throw].
    { repeat split. eexists. reflexivity. }
    assert (Hid : exists id w1,
               (if truthy (or_ (prop u "id") (prop u "userId"))
                then ret (or_ (prop u "id") (prop u "userId"))
                else (g <- generateId ;; ret (JStr g))%js) w = (Returned id, w1)
               /\ ls w1 = ls w /\ sent w1 = sent w /\ toasts w1 = toasts w
               /\ truthy id = true
               /\ (truthy (or_ (prop u "id") (prop u "userId")) = true ->
                   id = or_ (prop u "id") (prop u "userId"))).
    { destruct (truthy (or_ (prop u "id") (prop u "userId"))) eqn:Ht.
      - exists (or_ (prop u "id") (prop u "userId")), w. now repeat split.
      - exists (JStr (generatedId (clock w))), (tick (tick w)).
        repeat split; [ | discriminate ].
        pose proof (generatedId_truthy (clock w) JNull) as Hg.
        unfold or_ in Hg. now destruct (truthy (JStr (generatedId (clock w)))). }
    destruct Hid as [id [w1 [Hrun [Hls [Hsent [Htoasts [Htruthy Hkept]]]]]]].
    rewrite Hrun. cbn [fst snd]. rewrite bind_run.
    destruct (IH w1) as [Hls' [Hsent' [Htoasts' Hrest]]].
    destruct (forallb (fun x => negb (nullish x)) rest).
    + destruct Hrest as [l [Hl Hall]]. rewrite Hl. cbn [fst snd ret].
      rewrite Hls', Hsent', Htoasts'. repeat split; try assumption.
      eexists. split; [ reflexivity | ].
      constructor; [ | exact Hall ].
      unfold normalized_from. now repeat split.
    + destruct Hrest as [e He]. rewrite He. cbn [fst snd].
      rewrite Hls', Hsent', Htoasts'. repeat split; try assumption.
      now exists e.
Qed.

(** X18. [importUsersFromApi] never throws, sends one [GET {apiUrl}/users]
    and touches nothing but the users of the local store.  It replaces them
    exactly when the response is successful and holds a non-empty array
    without [null] entries: the users stored are then one per remote user,
    in order, each with an identifier that is not empty (the remote one if
    there is one, else a generated one), the role [professor] when the
    remote names none, and an e-mail address and a name that default to the
    empty text.  In every other case the local store is left as it was. *)
Theorem import_replaces_the_users_or_does_nothing (apiUrl : string) (w : World) :
  let request := GET (apiUrl ++ "/users") in
  let out := importUsersFromApi apiUrl w in
  fst out = Returned tt
  /\ sent (snd out) = sent w ++ [request]
  /\ toasts (snd out) = toasts w
  /\ (forall k, same_key USERS k = false -> getItem k (ls (snd out)) = getItem k (ls w))
  /\ adaptacao_current_user (ls (snd out)) = adaptacao_current_user (ls w)
  /\ token (ls (snd out)) = token (ls w) /\ user (ls (snd out)) = user (ls w)
  /\ match fetch (sent w) request with
     | Response status _ (Json (JArr (u :: rest))) =>
         if ok status && forallb (fun x => negb (nullish x)) (u :: rest)
         then exists users,
                adaptacao_users (ls (snd out)) = Some (Json users)
                /\ Forall2 normalized_from (u :: rest) users
         else ls (snd out) = ls w
     | _ => ls (snd out) = ls w
     end.
Proof.
  cbv zeta.
  assert (Hout : exists w2,
             importUsersFromApi apiUrl w = (Returned tt, w2)
             /\ sent w2 = sent w ++ [GET (apiUrl ++ "/users")]
             /\ toasts w2 = toasts w
             /\ (forall k, same_key USERS k = false -> getItem k (ls w2) = getItem k (ls w))
             /\ adaptacao_current_user (ls w2) = adaptacao_current_user (ls w)
             /\ token (ls w2) = token (ls w) /\ user (ls w2) = user (ls w)
             /\ match fetch (sent w) (GET (apiUrl ++ "/users")) with
                | Response status _ (Json (JArr (u :: rest))) =>
                    if ok status && forallb (fun x => negb (nullish x)) (u :: rest)
                    then exists users,
                           adaptacao_users (ls w2) = Some (Json users)
                           /\ Forall2 normalized_from (u :: rest) users
                    else ls w2 = ls w
                | _ => ls w2 = ls w
                end).
  { unfold importUsersFromApi, try_catch.
    rewrite bind_run. unfold send. cbn [fst snd].
    destruct (fetch (sent w) (GET (apiUrl ++ "/users")))
      as [ msg | | status statusText text ].
    - eexists. split; [ reflexivity | ]. now repeat split.
    - eexists. split; [ reflexivity | ]. now repeat split.
    - destruct (ok status) eqn:Hok; cbn [negb andb].
      2:{ eexists. split; [ reflexivity | ]. cbn [ls sent toasts].
          repeat split. destruct text as [ raw | v ]; [ reflexivity | ].
          destruct v as [ | | b | n | s | [ | u rest ] | o ]; reflexivity. }
      rewrite bind_run. unfold lift. cbn [fst snd].
      destruct text as [ raw | v ]; cbn [res_json].
      { eexists. split; [ reflexivity | ]. now repeat split. }
      destruct v as [ | | b | n | s | [ | u rest ] | o ];
        try (eexists; split; [ reflexivity | ]; now repeat split).
      rewrite bind_run.
      match goal with
      | |- context [normalize (u :: rest) ?w1] =>
          destruct (normalize_spec (u :: rest) w1) as [Hls [Hsent [Htoasts Hall]]]
      end.
      destruct (forallb (fun x => negb (nullish x)) (u :: rest)).
      + destruct Hall as [l [Hl Hfrom]]. rewrite Hl.
        eexists. split; [ reflexivity | ]. cbn [write fst snd ls sent toasts].
        rewrite Hls, Hsent, Htoasts. cbn [ls sent toasts].
        repeat split.
        * intros k Hk. now destruct k.
        * exists l. now split.
      + destruct Hall as [e He]. rewrite He.
        eexists. split; [ reflexivity | ]. cbn [ret fst snd ls sent toasts].
        rewrite Hls, Hsent, Htoasts. cbn [ls sent toasts].
        now repeat split. }
  destruct Hout as [w2 [-> Hrest]]. cbn [fst snd].
  split; [ reflexivity | exact Hrest ].
Qed.

End ImportingUsers.

(* ================================================================== *)
(** * Properties of the remote-only variants *)
(* ================================================================== *)

Section RemoteOnly.
Context `{Platform} `{Remote}.

(** X19. The provider that signs in against the remote user list sends one
    request and signs in as the first entry of the list it receives,
    whichever e-mail address that entry carries and whatever the password:
    it succeeds exactly when the response is successful and is an array
    whose first entry is truthy.  The session it stores is the one
    [checkSession] restores; a sign-in that fails stores nothing; the local
    collections and the local current user are never touched. *)
Theorem remote_sign_in_takes_the_first_user (email password : string) (w : World) :
  let request := GET (API_URL ++ "/users?email=" ++ email) in
  let out := RemoteAuthContext.signIn email password w in
  sent (snd out) = sent w ++ [request]
  /\ (forall k, getItem k (ls (snd out)) = getItem k (ls w))
  /\ authStorage.getCurrentUser (ls (snd out)) = authStorage.getCurrentUser (ls w)
  /\ match fetch (sent w) request with
     | Response status _ (Json (JArr (first :: _))) =>
         if ok status && truthy first
         then fst out = Returned first
              /\ token (ls (snd out))
                 = Some ("mock-token-" ++ String_ (prop first "id"))%string
              /\ AuthContext.checkSession (ls (snd out))
                 = (Some (json first), ls (snd out))
         else (exists e, fst out = Thrown e) /\ ls (snd out) = ls w
     | _ => (exists e, fst out = Thrown e) /\ ls (snd out) = ls w
     end.
Proof.
  cbv zeta.
  assert (Hout : exists r w2,
             RemoteAuthContext.signIn email password w = (r, w2)
             /\ sent w2 = sent w ++ [GET (API_URL ++ "/users?email=" ++ email)]
             /\ (forall k, getItem k (ls w2) = getItem k (ls w))
             /\ authStorage.getCurrentUser (ls w2) = authStorage.getCurrentUser (ls w)
             /\ match fetch (sent w) (GET (API_URL ++ "/users?email=" ++ email)) with
                | Response status _ (Json (JArr (first :: _))) =>
                    if ok status && truthy first
                    then r = Returned first
                         /\ token (ls w2)
                            = Some ("mock-token-" ++ String_ (prop first "id"))%string
                         /\ AuthContext.checkSession (ls w2) = (Some (json first), ls w2)
                    else (exists e, r = Thrown e) /\ ls w2 = ls w
                | _ => (exists e, r = Thrown e) /\ ls w2 = ls w
                end).
  { unfold RemoteAuthContext.signIn. rewrite bind_run. unfold send. cbn [fst snd].
    destruct (fetch (sent w) (GET (API_URL ++ "/users?email=" ++ email)))
      as [ msg | | status statusText text ].
    - do 2 eexists. split; [ reflexivity | ]. repeat split. eexists. reflexivity.
    - do 2 eexists. split; [ reflexivity | ]. repeat split. eexists. reflexivity.
    - destruct (ok status) eqn:Hok; cbn [negb andb].
      2:{ do 2 eexists. split; [ reflexivity | ]. cbn [ls sent].
          repeat split.
          destruct text as [ raw | v ]; [ split; [ eexists | ]; reflexivity | ].
          destruct v as [ | | b | n | s | [ | u rest ] | o ];
            (split; [ eexists | ]; reflexivity). }
      rewrite bind_run. unfold lift. cbn [fst snd].
      destruct text as [ raw | v ]; cbn [res_json].
      { do 2 eexists. split; [ reflexivity | ]. repeat split. eexists. reflexivity. }
      destruct v as [ | | b | n | s | [ | first rest ] | o ];
        try (do 2 eexists; split; [ reflexivity | ]; repeat split;
             eexists; reflexivity).
      destruct (truthy first) eqn:Hfirst; cbn [negb].
      + do 2 eexists. split; [ reflexivity | ]. cbn [ls sent].
        repeat split;
          try (intros k; now destruct k);
          try (apply session_restored; eexists; repeat split; discriminate).
      + do 2 eexists. split; [ reflexivity | ]. repeat split. eexists. reflexivity. }
  destruct Hout as [r [w2 [-> Hrest]]]. exact Hrest.
Qed.

(** X20. The report form that talks to the remote only never writes to the
    local store.  A creation sends one [POST /reports]; when that request
    fails, the report is lost: an error is shown and [onSuccess] is not
    called.  When it succeeds, [onSuccess] receives what the remote
    answered. *)
Theorem remote_only_form_loses_a_failed_creation
        (studentId : string) (formData : ReportForm.FormData) (w : World) (t : Z) :
  ReportForm.subject formData <> "" ->
  ReportForm.description formData <> "" ->
  ReportForm.date formData <> "" ->
  Date_parse (ReportForm.date formData) = Some t ->
  let post := report_post studentId formData (Date_toISOString t) in
  let out := RemoteReportForm.handleSubmit studentId None formData w in
  (forall report,
      ls (snd (RemoteReportForm.handleSubmit studentId report formData w)) = ls w)
  /\ sent (snd out) = sent w ++ [post]
  /\ match fst (apiFetch post w) with
     | Returned res =>
         fst out = {| RemoteReportForm.error := "";
                      RemoteReportForm.onSuccess := Some res |}
         /\ toasts (snd out)
            = toasts w ++ [toast_success "Relato registrado com sucesso!"]
     | Thrown e =>
         RemoteReportForm.onSuccess (fst out) = None
         /\ RemoteReportForm.error (fst out) <> ""
         /\ toasts (snd out)
            = toasts w ++ [toast_error (RemoteReportForm.error (fst out))]
     end.
Proof.
  intros Hsubject Hdescription Hdate Hparse. cbv zeta.
  apply String.eqb_neq in Hsubject, Hdescription, Hdate.
  split.
  - intros report. unfold RemoteReportForm.handleSubmit.
    rewrite Hsubject, Hdescription, Hdate. cbn [orb].
    destruct report as [ id | ].
    + assert (Hrun : triple (same_local w)
                       (api.updateReport studentId id
                          (JObj (ReportForm.formData_obj formData)) ;;
                        toast (toast_success "Relato atualizado com sucesso!") ;;
                        ret JUndefined)%js
                       (fun _ => same_local w) (fun _ => same_local w)).
      { eapply triple_bind; [ apply triple_retried | ].
        intros a. eapply triple_bind; [ now apply triple_toast | ].
        intros u. now apply triple_ret. }
      specialize (Hrun w (conj eq_refl eq_refl)).
      match type of Hrun with
      | match fst (?m w) with _ => _ end => destruct (m w) as [ [ r | e ] w' ]
      end; cbn [fst snd] in *; now destruct Hrun.
    + assert (Hrun : triple (same_local w)
                       (iso <- Date_of_toISOString (ReportForm.date formData) ;;
                        created <- api.createReport
                                     (JObj (set (set (spread []
                                                        (ReportForm.formData_obj formData))
                                                     "studentId" (JStr studentId))
                                                "date" (JStr iso))) ;;
                        toast (toast_success "Relato registrado com sucesso!") ;;
                        ret created)%js
                       (fun _ => same_local w) (fun _ => same_local w)).
      { eapply triple_bind;
          [ eapply triple_error; [ apply triple_Date_of | now intros e w' [Hw' _] ] | ].
        intros iso. apply triple_pre with (P' := same_local w);
          [ now intros w' [Hw' _] | ].
        eapply triple_bind; [ apply triple_apiFetch | ].
        intros a. eapply triple_bind; [ now apply triple_toast | ].
        intros u. now apply triple_ret. }
      specialize (Hrun w (conj eq_refl eq_refl)).
      match type of Hrun with
      | match fst (?m w) with _ => _ end => destruct (m w) as [ [ r | e ] w' ]
      end; cbn [fst snd] in *; now destruct Hrun.
  - assert (Hrun :
      (iso <- Date_of_toISOString (ReportForm.date formData) ;;
       created <- api.createReport
                    (JObj (set (set (spread [] (ReportForm.formData_obj formData))
                                    "studentId" (JStr studentId))
                               "date" (JStr iso))) ;;
       toast (toast_success "Relato registrado com sucesso!") ;;
       ret created)%js w
      = match fst (apiFetch (report_post studentId formData (Date_toISOString t)) w) with
        | Returned res =>
            (Returned res,
             {| ls := ls w; clock := clock w;
                sent := sent w ++ [report_post studentId formData (Date_toISOString t)];
                toasts := toasts w
                            ++ [toast_success "Relato registrado com sucesso!"] |})
        | Thrown e =>
            (Thrown e,
             after_request (report_post studentId formData (Date_toISOString t)) w)
        end).
    { unfold Date_of_toISOString. rewrite Hparse.
      unfold bind at 1. unfold ret at 1. rewrite bind_run.
      unfold api.createReport.
      change (json_request "POST" (API_URL ++ "/reports")
                (JObj (set (set (spread [] (ReportForm.formData_obj formData))
                                "studentId" (JStr studentId))
                           "date" (JStr (Date_toISOString t)))))
        with (report_post studentId formData (Date_toISOString t)).
      rewrite (apiFetch_run (report_post studentId formData (Date_toISOString t)) w).
      cbn [fst snd].
      now destruct (fst (apiFetch (report_post studentId formData (Date_toISOString t))
                           w)). }
    unfold RemoteReportForm.handleSubmit.
    rewrite Hsubject, Hdescription, Hdate. cbn [orb]. rewrite Hrun.
    destruct (fst (apiFetch (report_post studentId formData (Date_toISOString t)) w))
      as [ res | e ].
    + now repeat split.
    + cbn [fst snd sent toasts after_request RemoteReportForm.error
           RemoteReportForm.onSuccess].
      repeat split.
      now destruct (String.eqb (message e) "") eqn:Hm; [ | apply String.eqb_neq in Hm ].
Qed.

End RemoteOnly.

(** The remote-only form offline: nothing is stored and nothing is handed
    to [onSuccess]. *)
Lemma remote_only_form_loses_a_failed_creation_witness :
  let out := @RemoteReportForm.handleSubmit sample_platform offline "stu-1" None
               sample_report_form fresh_world in
  fst out = {| RemoteReportForm.error := "Failed to fetch";
               RemoteReportForm.onSuccess := None |}
  /\ ls (snd out) = empty_storage.
Proof.
  cbv zeta. split; [ reflexivity | ].
  apply (proj1 (@remote_only_form_loses_a_failed_creation sample_platform offline
                  "stu-1" sample_report_form fresh_world 1709251200000%Z
                  ltac:(discriminate) ltac:(discriminate) ltac:(discriminate) eq_refl)
               None).
Defined.
